(** * vibe-rotas: rotation scheduling, assignment ledger and skip engine

    A shallow embedding of the scheduling core of the Slack rota application:

    - services/schedulerService.js   (shouldExecuteToday, processRota,
      processAllRotas, retryFailedNotifications)
    - services/assignmentService.js  (createAssignment, markAsNotified,
      getCurrentAssignment, getRecentAssignments, getUnnotifiedAssignments,
      assignmentExistsForToday, sendRotaNotification,
      sendNotificationWithRetry)
    - utils/skipHelper.js            (getAssignmentsForDate,
      getConsecutiveSkipCount, canSkipAssignment, getNextAvailablePerson)
    - controllers/skipController.js  (validateSkipRequest, performSkip,
      handleSkipPerson)
    - controllers/rotaController.js  (getRotaById, getNextAssignment,
      deleteRota, permanentlyDeleteRota)
    - services/slackClient.js        (getSlackClient, chatPostMessage)
    - utils/rruleHelper.js, utils/timezoneHelper.js (thin wrappers over the
      RRule library and Intl.DateTimeFormat, both taken as parameters, with
      the library's answer on daily rules written out in [Rrule];
      formatTimeDisplay)
    - views/blocks                   (generateHourOptions,
      generateMinuteOptions)

    Asynchronous functions are rendered in a state-and-exception monad over a
    [World] that holds the two MongoDB collections, the wall clock and a log of
    the Slack traffic.  A thrown JavaScript error keeps the side effects made
    before it, so the monad returns the world next to the outcome in both
    cases.  Store reads and writes themselves never fail in the model, so a
    [catch] block that could only be entered by a database error is left
    out; the clock advances only while the process sleeps, so the several
    [new Date()] of one function body read the same instant. *)

From Stdlib Require Import ZArith List String Ascii Bool Lia Arith.
From Stdlib Require Import DecimalString.
From Stdlib Require Import Sorting.Sorted Sorting.Permutation.
Import ListNotations.

Local Open Scope string_scope.
Local Open Scope Z_scope.

(** ** JavaScript values used by the core *)

Module Js.

(** A thrown value: every error the core meets is an [Error] object, of
    which only [name] and [message] are ever read. *)
Record Error := mkError { name : string; message : string }.

Definition error (msg : string) : Error := mkError "Error" msg.

(** Reading an identifier that no enclosing scope binds. *)
Definition referenceError (ident : string) : Error :=
  mkError "ReferenceError" (ident ++ " is not defined").

(** [undefined.message] *)
Definition typeErrorUndefined (prop : string) : Error :=
  mkError "TypeError"
    ("Cannot read properties of undefined (reading '" ++ prop ++ "')").

Definition validationError (model path : string) : Error :=
  mkError "ValidationError"
    (model ++ " validation failed: " ++ path ++ ": Path `" ++ path
           ++ "` is required.").

(** Template-literal rendering of a non-negative integer. *)
Definition showNat (n : nat) : string :=
  NilZero.string_of_uint (Nat.to_uint n).

Definition showZ (z : Z) : string :=
  NilZero.string_of_int (Z.to_int z).

(** Template-literal rendering of a possibly undefined string. *)
Definition showStr (s : option string) : string :=
  match s with
  | Some v => v
  | None => "undefined"
  end.

(** [a % n] on integers: the result takes the sign of the dividend.  The
    callers below guard against [n = 0] (where JavaScript yields NaN). *)
Definition rem (a n : Z) : Z := Z.rem a n.

(** [Number.MAX_SAFE_INTEGER].  A Number holds every integer up to
    [2^53] exactly, so [x + 1] on Numbers is the integer [x + 1] as long
    as [|x| <= maxSafeInteger]; beyond that the sum is rounded.  The
    embedding writes Number arithmetic on [Z], which is the arithmetic of
    the code within that range; statements about cursors that may lie
    outside the member list carry the range as a hypothesis. *)
Definition maxSafeInteger : Z := 2 ^ 53 - 1.

(** [arr[i]] for an integer [i]: [undefined] outside [0 .. length-1]. *)
Definition index {A : Type} (arr : list A) (i : Z) : option A :=
  if i <? 0 then None else nth_error arr (Z.to_nat i).

(** [arr.includes(x)] on an array of strings, [x] possibly undefined. *)
Definition includes (arr : list string) (x : option string) : bool :=
  match x with
  | Some v => existsb (String.eqb v) arr
  | None => false
  end.

(** [s || dflt] for strings: the empty string is falsy. *)
Definition orElse (s : option string) (dflt : string) : string :=
  match s with
  | Some v => if String.eqb v "" then dflt else v
  | None => dflt
  end.

End Js.

(** ** Data model *)

(** Instants are milliseconds since the epoch.  The process runs in a
    [node:18-alpine] container, whose local zone is UTC, so [setHours(0,0,0,0)]
    truncates to a multiple of one day. *)
Definition Instant := Z.

Definition msPerDay : Z := 86400000.

(** [d.setHours(0, 0, 0, 0)] *)
Definition startOfDay (t : Instant) : Instant := t - t mod msPerDay.

(** [d.setHours(23, 59, 59, 999)] *)
Definition endOfDay (t : Instant) : Instant := startOfDay t + (msPerDay - 1).

(** ObjectIds. *)
Definition Id := Z.

(** [customMessage]: an optional rich-text template; only the presence and
    length of its [elements] array is inspected by the core. *)
Record Template := mkTemplate { t_elements : option (list string) }.

(** [rota.schedule] (models/Rota.js).  A field the document may lack is an
    option. *)
Record Schedule := mkSchedule {
  s_rrule : string;
  s_timezone : option string;
  s_notificationHour : option Z;
  s_notificationMinute : option Z
}.

(** models/Rota.js *)
Record Rota := mkRota {
  r_id : Id;
  r_name : string;
  r_workspaceId : string;
  r_channelId : string;
  r_members : list string;
  r_schedule : Schedule;
  r_customMessage : option Template;
  r_currentIndex : Z;
  r_isActive : bool
}.

(** models/RotaAssignment.js, with the [createdAt] timestamp Mongoose adds. *)
Record RotaAssignment := mkAssignment {
  a_id : Id;
  a_rotaId : Id;
  a_workspaceId : string;
  a_userId : string;
  a_assignedDate : Instant;
  a_channelId : string;
  a_notified : bool;
  a_notificationSentAt : option Instant;
  a_messageTs : option string;
  a_skipped : bool;
  a_skippedBy : option string;
  a_skippedAt : option Instant;
  a_replacedByAssignmentId : option Id;
  a_createdAt : Instant
}.

(** What a caller hands over as [assignmentId] to the notification functions:
    an ObjectId, or (in the retry job) a bare number. *)
Inductive AssignmentRef :=
| RefId (id : Id)
| RefNum (n : Z).

(** Truthiness of the [assignmentId] argument ([null] is [None]). *)
Definition truthyRef (r : option AssignmentRef) : bool :=
  match r with
  | None => false
  | Some (RefId _) => true
  | Some (RefNum n) => negb (n =? 0)
  end.

(** Blocks of a notification, in the order [sendRotaNotification] pushes
    them.  The rendered custom message is kept symbolic. *)
Inductive Block :=
| HeaderBlock (rotaName : string) (userId : option string)
| DividerBlock
| CustomBlock (template : Template) (userId : option string) (rotaName : string)
| SkipActionsBlock (assignmentId : AssignmentRef).

Definition isSkipAction (b : Block) : bool :=
  match b with
  | SkipActionsBlock _ => true
  | _ => false
  end.

(** One [chat.postMessage] request. *)
Record PostRequest := mkPost {
  p_channel : string;
  p_text : string;
  p_blocks : list Block
}.

(** Slack's answer: the message timestamp, or the message of the error that
    [makeRequest] throws. *)
Inductive SlackReply :=
| SlackOk (ts : string)
| SlackFail (msg : string).

(** ** The world *)

Record World := mkWorld {
  rotas : list Rota;                 (* Rota collection *)
  assignments : list RotaAssignment; (* RotaAssignment collection, insertion order *)
  workspaces : list string;          (* teamIds of the active workspaces *)
  now : Instant;                     (* new Date() *)
  nextId : Id;                       (* ObjectId supply *)
  posts : list PostRequest;          (* chat.postMessage requests issued so far *)
  sleeps : list Z;                   (* setTimeout delays awaited so far, in ms *)
  isRunning : bool                   (* module variable of schedulerService.js *)
}.

Definition setRotas (v : list Rota) (w : World) : World :=
  mkWorld v (assignments w) (workspaces w) (now w) (nextId w) (posts w)
          (sleeps w) (isRunning w).

Definition setAssignments (v : list RotaAssignment) (w : World) : World :=
  mkWorld (rotas w) v (workspaces w) (now w) (nextId w) (posts w)
          (sleeps w) (isRunning w).

Definition setNow (v : Instant) (w : World) : World :=
  mkWorld (rotas w) (assignments w) (workspaces w) v (nextId w) (posts w)
          (sleeps w) (isRunning w).

Definition setNextId (v : Id) (w : World) : World :=
  mkWorld (rotas w) (assignments w) (workspaces w) (now w) v (posts w)
          (sleeps w) (isRunning w).

Definition setPosts (v : list PostRequest) (w : World) : World :=
  mkWorld (rotas w) (assignments w) (workspaces w) (now w) (nextId w) v
          (sleeps w) (isRunning w).

Definition setSleeps (v : list Z) (w : World) : World :=
  mkWorld (rotas w) (assignments w) (workspaces w) (now w) (nextId w) (posts w)
          v (isRunning w).

Definition setIsRunning (v : bool) (w : World) : World :=
  mkWorld (rotas w) (assignments w) (workspaces w) (now w) (nextId w) (posts w)
          (sleeps w) v.

(** What lies outside the repository: the RRule library, ICU's time-zone
    projection, Slack, and the store's reading of an [undefined] filter
    value. *)
Record Env := mkEnv {
  (* RRule.fromString(rrule).after(t, true); None for null or a parse error *)
  rruleAfter : string -> Instant -> option Instant;
  (* Intl.DateTimeFormat hour / minute of an instant in a zone *)
  hourInTimezone : Instant -> string -> Z;
  minuteInTimezone : Instant -> string -> Z;
  (* the n-th chat.postMessage call and its request *)
  slackPost : nat -> PostRequest -> SlackReply;
  (* find({ workspaceId: undefined, ... }): true when the condition is
     dropped, false when it is read as a match against null *)
  undefinedMatchesAll : bool
}.

(** ** The monad of asynchronous functions *)

Inductive Outcome (A : Type) :=
| Return (a : A)
| Throw (e : Js.Error).

Arguments Return {A} a.
Arguments Throw {A} e.

Definition M (A : Type) : Type := World -> Outcome A * World.

Definition ret {A : Type} (a : A) : M A := fun w => (Return a, w).

Definition throw {A : Type} (e : Js.Error) : M A := fun w => (Throw e, w).

Definition bind {A B : Type} (m : M A) (k : A -> M B) : M B :=
  fun w =>
    match m w with
    | (Return a, w') => k a w'
    | (Throw e, w') => (Throw e, w')
    end.

(** [try { m } catch (error) { h error }] *)
Definition tryCatch {A : Type} (m : M A) (h : Js.Error -> M A) : M A :=
  fun w =>
    match m w with
    | (Return a, w') => (Return a, w')
    | (Throw e, w') => h e w'
    end.

(** [try { m } finally { f }] where [f] only assigns. *)
Definition tryFinally {A : Type} (m : M A) (f : World -> World) : M A :=
  fun w => let (o, w') := m w in (o, f w').

Definition gets {A : Type} (f : World -> A) : M A := fun w => (Return (f w), w).

Definition modify (f : World -> World) : M unit := fun w => (Return tt, f w).

Declare Scope js_scope.
Delimit Scope js_scope with js.
Notation "x <- m ;; k" := (bind m (fun x => k))
  (at level 61, m at next level, right associativity) : js_scope.
Notation "m ;;; k" := (bind m (fun _ => k))
  (at level 61, right associativity) : js_scope.
Local Open Scope js_scope.

(** An identifier is resolved against the names its block can see. *)
Definition resolve (scope : list string) (ident : string) : M unit :=
  if existsb (String.eqb ident) scope then ret tt
  else throw (Js.referenceError ident).

(** [await new Promise(resolve => setTimeout(resolve, delay))] *)
Definition sleep (delay : Z) : M unit :=
  modify (fun w => setNow (now w + delay) (setSleeps (sleeps w ++ [delay]) w)).

(** ** Store primitives (Mongoose) *)

Module Store.

(** [Rota.findById(id)] *)
Definition findRotaById (id : Id) (w : World) : option Rota :=
  find (fun r => r_id r =? id) (rotas w).

(** [Rota.findOne({ _id, workspaceId })] *)
Definition findRota (id : Id) (workspaceId : string) (w : World)
  : option Rota :=
  find (fun r => (r_id r =? id) && String.eqb (r_workspaceId r) workspaceId)
       (rotas w).

(** [Rota.find({ isActive: true })] *)
Definition findActiveRotas (w : World) : list Rota :=
  filter r_isActive (rotas w).

(** Replace the first element satisfying [p] by its image under [f]. *)
Fixpoint updateFirst {A : Type} (p : A -> bool) (f : A -> A) (l : list A)
  : list A :=
  match l with
  | [] => []
  | x :: rest => if p x then f x :: rest else x :: updateFirst p f rest
  end.

(** [rota.save()] after assigning [rota.currentIndex]: the one modified
    path is written to the stored document. *)
Definition saveCurrentIndex (id : Id) (idx : Z) : M unit :=
  modify (fun w =>
    setRotas
      (updateFirst (fun r => r_id r =? id)
         (fun r => mkRota (r_id r) (r_name r) (r_workspaceId r)
                          (r_channelId r) (r_members r) (r_schedule r)
                          (r_customMessage r) idx (r_isActive r))
         (rotas w)) w).

(** [RotaAssignment.findById(id)] *)
Definition findAssignmentById (id : Id) (w : World) : option RotaAssignment :=
  find (fun a => a_id a =? id) (assignments w).

(** The date-range condition
    [assignedDate: { $gte: startOfDay, $lte: endOfDay }]. *)
Definition inDay (date : Instant) (a : RotaAssignment) : bool :=
  (startOfDay date <=? a_assignedDate a)
  && (a_assignedDate a <=? endOfDay date).

Definition forRotaOnDay (rotaId : Id) (date : Instant) (a : RotaAssignment)
  : bool :=
  (a_rotaId a =? rotaId) && inDay date a.

(** [.sort({ createdAt: 1 })]: a stable insertion sort, oldest first. *)
Fixpoint insertByCreatedAt (a : RotaAssignment) (l : list RotaAssignment)
  : list RotaAssignment :=
  match l with
  | [] => [a]
  | b :: rest =>
      if a_createdAt a <? a_createdAt b then a :: b :: rest
      else b :: insertByCreatedAt a rest
  end.

Definition sortByCreatedAt (l : list RotaAssignment) : list RotaAssignment :=
  fold_right insertByCreatedAt [] (rev l).

End Store.

(** ** assignmentService.js *)

(** [createAssignment(rotaId, workspaceId, userId, channelId, assignedDate)]:
    builds the document with [notified: false] and the schema defaults and
    saves it.  [save] rejects a document whose required String path is
    undefined or empty.  The function's own [catch] logs and rethrows. *)
Definition createAssignment (rotaId : Id) (workspaceId : string)
  (userId : option string) (channelId : string) (assignedDate : Instant)
  : M RotaAssignment :=
  match userId with
  | None => throw (Js.validationError "RotaAssignment" "userId")
  | Some u =>
      if String.eqb workspaceId "" then
        throw (Js.validationError "RotaAssignment" "workspaceId")
      else if String.eqb u "" then
        throw (Js.validationError "RotaAssignment" "userId")
      else if String.eqb channelId "" then
        throw (Js.validationError "RotaAssignment" "channelId")
      else
        fun w =>
          let assignment :=
            mkAssignment (nextId w) rotaId workspaceId u assignedDate channelId
                         false None None false None None None (now w) in
          (Return assignment,
           setNextId (nextId w + 1)
             (setAssignments (assignments w ++ [assignment]) w))
  end.

(** [markAsNotified(assignmentId, messageTs)]:
    [findByIdAndUpdate(id, { notified: true, notificationSentAt: new Date(),
    messageTs })]; a missing document is not an error. *)
Definition markAsNotified (assignmentId : Id) (messageTs : string) : M unit :=
  modify (fun w =>
    setAssignments
      (Store.updateFirst (fun a => a_id a =? assignmentId)
         (fun a => mkAssignment (a_id a) (a_rotaId a) (a_workspaceId a)
                     (a_userId a) (a_assignedDate a) (a_channelId a)
                     true (Some (now w)) (Some messageTs)
                     (a_skipped a) (a_skippedBy a) (a_skippedAt a)
                     (a_replacedByAssignmentId a) (a_createdAt a))
         (assignments w)) w).

(** [assignmentExistsForToday(rotaId, date)]: [!!findOne(...)]. *)
Definition assignmentExistsForToday (rotaId : Id) (date : Instant) (w : World)
  : bool :=
  existsb (Store.forRotaOnDay rotaId date) (assignments w).

(** The error [getSlackClient] throws for a workspace that is not active. *)
Definition noWorkspace (teamId : string) : Js.Error :=
  Js.error ("No active workspace found for team: " ++ teamId).

(** [getSlackClient(teamId)]:
    [Workspace.findOne({ teamId, isActive: true })] or throw. *)
Definition getSlackClient (teamId : string) : M unit :=
  fun w =>
    if existsb (String.eqb teamId) (workspaces w) then (Return tt, w)
    else (Throw (noWorkspace teamId), w).

(** The [blocks] array of [sendRotaNotification]. *)
Definition notificationBlocks (userId : option string) (rotaName : string)
  (customMessage : option Template) (assignmentId : option AssignmentRef)
  (memberCount : Z) : list Block :=
  let header := [HeaderBlock rotaName userId] in
  let custom :=
    match customMessage with
    | Some t =>
        match t_elements t with
        | Some (_ :: _) => [DividerBlock; CustomBlock t userId rotaName]
        | _ => []
        end
    | None => []
    end in
  let actions :=
    match assignmentId with
    | Some ref =>
        if truthyRef assignmentId && (1 <? memberCount)
        then [SkipActionsBlock ref] else []
    | None => []
    end in
  header ++ custom ++ actions.

(** The request [sendRotaNotification] hands to [chat.postMessage]: the
    channel, the fallback text and the blocks. *)
Definition notificationRequest (channelId : string) (userId : option string)
  (rotaName : string) (customMessage : option Template)
  (assignmentId : option AssignmentRef) (memberCount : Z) : PostRequest :=
  mkPost channelId
    ("📅 " ++ rotaName ++ " - Assigned: <@" ++ Js.showStr userId ++ ">")
    (notificationBlocks userId rotaName customMessage assignmentId memberCount).

Section Effects.

Variable env : Env.

(** [client.chatPostMessage(channel, text, blocks)]: the request is logged
    and Slack's answer decides between [result.ts] and a thrown error. *)
Definition chatPostMessage (req : PostRequest) : M string :=
  fun w =>
    let w' := setPosts (posts w ++ [req]) w in
    match slackPost env (List.length (posts w)) req with
    | SlackOk ts => (Return ts, w')
    | SlackFail msg => (Throw (Js.error msg), w')
    end.

(** [sendRotaNotification(workspaceId, channelId, userId, rotaName,
    customMessage, assignmentId = null, memberCount = 1)].  Its [catch]
    logs and rethrows the same error. *)
Definition sendRotaNotification (workspaceId channelId : string)
  (userId : option string) (rotaName : string)
  (customMessage : option Template) (assignmentId : option AssignmentRef)
  (memberCount : Z) : M string :=
  getSlackClient workspaceId ;;;
  chatPostMessage
    (notificationRequest channelId userId rotaName customMessage
       assignmentId memberCount).

(** [Math.pow(2, attempt) * 1000] *)
Definition backoffDelay (attempt : nat) : Z := 2 ^ Z.of_nat attempt * 1000.

(** The [for (attempt = 1; attempt <= maxRetries; attempt++)] loop of
    [sendNotificationWithRetry]; [remaining] counts the iterations left,
    [maxRetries + 1 - attempt]. *)
Fixpoint retryLoop (workspaceId channelId : string) (userId : option string)
  (rotaName : string) (customMessage : option Template)
  (assignmentId : option AssignmentRef) (memberCount : Z)
  (maxRetries remaining attempt : nat) (lastError : option Js.Error)
  : M string :=
  match remaining with
  | O =>
      match lastError with
      | Some e =>
          throw (Js.error ("Failed to send notification after "
                             ++ Js.showNat maxRetries ++ " attempts: "
                             ++ Js.message e))
      | None => throw (Js.typeErrorUndefined "message")
      end
  | S remaining' =>
      tryCatch
        (sendRotaNotification workspaceId channelId userId rotaName
           customMessage assignmentId memberCount)
        (fun error =>
           (if (attempt <? maxRetries)%nat
            then sleep (backoffDelay attempt) else ret tt) ;;;
           retryLoop workspaceId channelId userId rotaName customMessage
             assignmentId memberCount maxRetries remaining' (S attempt)
             (Some error))
  end.

(** [sendNotificationWithRetry(workspaceId, channelId, userId, rotaName,
    customMessage, assignmentId = null, memberCount = 1, maxRetries = 3)];
    callers that omit a trailing argument pass the default explicitly. *)
Definition sendNotificationWithRetry (workspaceId channelId : string)
  (userId : option string) (rotaName : string)
  (customMessage : option Template) (assignmentId : option AssignmentRef)
  (memberCount : Z) (maxRetries : nat) : M string :=
  retryLoop workspaceId channelId userId rotaName customMessage assignmentId
    memberCount maxRetries maxRetries 1%nat None.

Definition defaultAssignmentId : option AssignmentRef := None.
Definition defaultMemberCount : Z := 1.
Definition defaultMaxRetries : nat := 3%nat.

(** [getUnnotifiedAssignments(workspaceId)]: pending records created at or
    after [now - 24h], oldest first.  [cutoffDate.setHours(getHours() - 24)]
    moves the clock back by one day. *)
Definition getUnnotifiedAssignments (workspaceId : option string) (w : World)
  : list RotaAssignment :=
  let cutoffDate := now w - 24 * 3600000 in
  Store.sortByCreatedAt
    (filter
       (fun a =>
          match workspaceId with
          | Some ws => String.eqb (a_workspaceId a) ws
          | None => undefinedMatchesAll env
          end
          && negb (a_notified a)
          && (cutoffDate <=? a_createdAt a))
       (assignments w)).

End Effects.

(** ** rotaController.js *)

(** What [getNextAssignment] returns. *)
Record NextAssignment := mkNextAssignment {
  na_userId : option string;
  na_rotaName : string;
  na_channelId : string
}.

(** [getRotaById(rotaId, workspaceId)] *)
Definition getRotaById (rotaId : Id) (workspaceId : string) : M Rota :=
  fun w =>
    match Store.findRota rotaId workspaceId w with
    | Some rota => (Return rota, w)
    | None => (Throw (Js.error "Rota not found"), w)
    end.

(** [getNextAssignment(rotaId, workspaceId)]: the member under the cursor is
    read first, then the cursor is incremented circularly and saved.
    [rota.currentIndex + 1] is a sum of Numbers, equal to the sum on [Z] for
    a cursor up to [Js.maxSafeInteger]. *)
Definition getNextAssignment (rotaId : Id) (workspaceId : string)
  : M NextAssignment :=
  rota <- getRotaById rotaId workspaceId ;;
  if (List.length (r_members rota) =? 0)%nat then
    throw (Js.error "No members in rota")
  else
    let nextUserId := Js.index (r_members rota) (r_currentIndex rota) in
    Store.saveCurrentIndex (r_id rota)
      (Js.rem (r_currentIndex rota + 1) (Z.of_nat (List.length (r_members rota)))) ;;;
    ret (mkNextAssignment nextUserId (r_name rota) (r_channelId rota)).

(** ** skipHelper.js *)

Record NextPerson := mkNextPerson {
  np_userId : option string;
  np_newIndex : option Z        (* None is NaN *)
}.

Record SkipCheck := mkSkipCheck {
  sc_canSkip : bool;
  sc_reason : option string
}.

(** [getAssignmentsForDate(rotaId, date)] *)
Definition getAssignmentsForDate (rotaId : Id) (date : Instant) (w : World)
  : list RotaAssignment :=
  Store.sortByCreatedAt (filter (Store.forRotaOnDay rotaId date) (assignments w)).

(** The backwards [for] loop of [getConsecutiveSkipCount], run on the list
    read from its last element. *)
Fixpoint countLeadingSkipped (reversed : list RotaAssignment) : nat :=
  match reversed with
  | [] => 0%nat
  | a :: rest => if a_skipped a then S (countLeadingSkipped rest) else 0%nat
  end.

(** [getConsecutiveSkipCount(rotaId, date)]; its [catch] (return 0) guards
    the store read only. *)
Definition getConsecutiveSkipCount (rotaId : Id) (date : Instant) (w : World)
  : nat :=
  let assignments := getAssignmentsForDate rotaId date w in
  if (List.length assignments =? 0)%nat then 0%nat
  else countLeadingSkipped (rev assignments).

(** [canSkipAssignment(rotaId, date)]; its [catch] guards the store reads
    only. *)
Definition canSkipAssignment (rotaId : Id) (date : Instant) (w : World)
  : SkipCheck :=
  match Store.findRotaById rotaId w with
  | None => mkSkipCheck false (Some "Rota not found")
  | Some rota =>
      if (List.length (r_members rota) <=? 1)%nat then
        mkSkipCheck false (Some "Cannot skip when rota has only one member")
      else
        let consecutiveSkips := getConsecutiveSkipCount rotaId date w in
        let maxSkips := (List.length (r_members rota) - 1)%nat in
        if (maxSkips <=? consecutiveSkips)%nat then
          mkSkipCheck false
            (Some ("Cannot skip: all other members have been skipped ("
                     ++ Js.showNat consecutiveSkips ++ "/"
                     ++ Js.showNat maxSkips ++ ")"))
        else mkSkipCheck true None
  end.

(** The [while (attempts < members.length)] loop of [getNextAvailablePerson];
    [fuel] is [members.length - attempts].  The loop body runs only when the
    list is non-empty, so [%] never divides by zero.  [currentIndex + 1] is
    a sum of Numbers, equal to the sum on [Z] for a cursor up to
    [Js.maxSafeInteger]; after the first step the index is below the length
    of the list. *)
Fixpoint scanMembers (members assignedUserIds : list string)
  (currentIndex : Z) (fuel : nat) : option NextPerson :=
  match fuel with
  | O => None
  | S fuel' =>
      let currentIndex' :=
        Js.rem (currentIndex + 1) (Z.of_nat (List.length members)) in
      let nextUserId := Js.index members currentIndex' in
      if negb (Js.includes assignedUserIds nextUserId) then
        Some (mkNextPerson nextUserId (Some currentIndex'))
      else scanMembers members assignedUserIds currentIndex' fuel'
  end.

(** [getNextAvailablePerson(rota, date)].  With an empty member list the
    fallback index is [x % 0], that is NaN, and the member read is
    undefined. *)
Definition getNextAvailablePerson (rota : Rota) (date : Instant) (w : World)
  : NextPerson :=
  let todaysAssignments := getAssignmentsForDate (r_id rota) date w in
  let assignedUserIds := map a_userId todaysAssignments in
  let members := r_members rota in
  match scanMembers members assignedUserIds (r_currentIndex rota)
          (List.length members) with
  | Some found => found
  | None =>
      match members with
      | [] => mkNextPerson None None
      | _ :: _ =>
          let fallbackIndex :=
            Js.rem (r_currentIndex rota + 1) (Z.of_nat (List.length members)) in
          mkNextPerson (Js.index members fallbackIndex) (Some fallbackIndex)
      end
  end.

(** ** skipController.js *)

Record Validation := mkValidation {
  v_valid : bool;
  v_reason : option string;
  v_assignment : option RotaAssignment
}.

Record SkipResult := mkSkipResult {
  sr_newAssignment : RotaAssignment;
  sr_newUserId : option string
}.

Record HandlerResult := mkHandlerResult {
  h_success : bool;
  h_newUserId : option string;
  h_error : option string
}.

(** [validateSkipRequest(assignmentId)]; its [catch] guards the store read
    only. *)
Definition validateSkipRequest (assignmentId : Id) (w : World) : Validation :=
  match Store.findAssignmentById assignmentId w with
  | None => mkValidation false (Some "Assignment not found") None
  | Some assignment =>
      if a_skipped assignment then
        mkValidation false (Some "This assignment has already been skipped")
                     (Some assignment)
      else
        let skipCheck :=
          canSkipAssignment (a_rotaId assignment) (a_assignedDate assignment) w in
        if negb (sc_canSkip skipCheck) then
          mkValidation false (sc_reason skipCheck) (Some assignment)
        else mkValidation true None (Some assignment)
  end.

(** The four assignments to the original document followed by
    [assignment.save()]. *)
Definition markSkipped (assignmentId : Id) (skippedBy : string)
  (replacedBy : Id) : M unit :=
  modify (fun w =>
    setAssignments
      (Store.updateFirst (fun a => a_id a =? assignmentId)
         (fun a => mkAssignment (a_id a) (a_rotaId a) (a_workspaceId a)
                     (a_userId a) (a_assignedDate a) (a_channelId a)
                     (a_notified a) (a_notificationSentAt a) (a_messageTs a)
                     true (Some skippedBy) (Some (now w)) (Some replacedBy)
                     (a_createdAt a))
         (assignments w)) w).

(** [updateSkippedMessage]: reads and edits the original Slack message inside
    a [try] whose [catch] swallows every error; it touches neither the store
    nor the log of posted notifications. *)
Definition updateSkippedMessage : M unit := ret tt.

Section Engine.

Variable env : Env.

(** [performSkip(assignment, skippedByUserId)].  The replacement
    notification is requested with five arguments, so [assignmentId],
    [memberCount] and [maxRetries] take their defaults.  Assigning NaN to
    the Number path [currentIndex] makes [rota.save()] reject.  The outer
    [catch] logs and rethrows. *)
Definition performSkip (assignment : RotaAssignment)
  (skippedByUserId : string) : M SkipResult :=
  found <- gets (Store.findRotaById (a_rotaId assignment)) ;;
  match found with
  | None => throw (Js.error "Rota not found")
  | Some rota =>
      nextPerson <-
        gets (getNextAvailablePerson rota (a_assignedDate assignment)) ;;
      newAssignment <-
        createAssignment (a_rotaId assignment) (a_workspaceId assignment)
          (np_userId nextPerson) (a_channelId assignment)
          (a_assignedDate assignment) ;;
      markSkipped (a_id assignment) skippedByUserId (a_id newAssignment) ;;;
      match np_newIndex nextPerson with
      | Some newIndex => Store.saveCurrentIndex (r_id rota) newIndex
      | None =>
          throw (Js.mkError "ValidationError"
                   "Rota validation failed: currentIndex: Cast to Number failed")
      end ;;;
      getSlackClient (a_workspaceId assignment) ;;;
      updateSkippedMessage ;;;
      messageTs <-
        sendNotificationWithRetry env (a_workspaceId assignment)
          (a_channelId assignment) (np_userId nextPerson) (r_name rota)
          (r_customMessage rota) defaultAssignmentId defaultMemberCount
          defaultMaxRetries ;;
      markAsNotified (a_id newAssignment) messageTs ;;;
      ret (mkSkipResult newAssignment (np_userId nextPerson))
  end.

(** [handleSkipPerson(payload)], with the assignment id already cut out of
    [action_id] and [user.id] as the actor. *)
Definition handleSkipPerson (assignmentId : Id) (userId : string)
  : M HandlerResult :=
  validation <- gets (validateSkipRequest assignmentId) ;;
  match v_valid validation, v_assignment validation with
  | true, Some assignment =>
      tryCatch
        (result <- performSkip assignment userId ;;
         ret (mkHandlerResult true (sr_newUserId result) None))
        (fun _ =>
           ret (mkHandlerResult false None
                  (Some "Failed to skip person. Please try again.")))
  | _, _ => ret (mkHandlerResult false None (v_reason validation))
  end.

(** ** schedulerService.js *)

(** The outcome of the RRULE step of [shouldExecuteToday]: is the next
    occurrence on the local day of [today]? *)
Definition dateMatches (rota : Rota) (today : Instant) : bool :=
  match rruleAfter env (s_rrule (r_schedule rota)) today with
  | None => false
  | Some nextOccurrence =>
      let today0 := startOfDay today in
      let tomorrow := today0 + msPerDay in
      let occurrenceDate := startOfDay nextOccurrence in
      (today0 <=? occurrenceDate) && (occurrenceDate <? tomorrow)
  end.

Definition currentTimeInMinutes (rota : Rota) (today : Instant) : Z :=
  let rotaTz := Js.orElse (s_timezone (r_schedule rota)) "UTC" in
  hourInTimezone env today rotaTz * 60 + minuteInTimezone env today rotaTz.

Definition notificationTimeInMinutes (rota : Rota) : Z :=
  let notificationHour :=
    match s_notificationHour (r_schedule rota) with
    | Some h => h
    | None => 10
    end in
  let notificationMinute :=
    match s_notificationMinute (r_schedule rota) with
    | Some m => m
    | None => 0
    end in
  notificationHour * 60 + notificationMinute.

(** [shouldExecuteToday(rota)], where [today] is the instant [new Date()]
    yields during the call. *)
Definition shouldExecuteToday (rota : Rota) (today : Instant) : bool :=
  if negb (dateMatches rota today) then false
  else
    let timeHasPassed :=
      notificationTimeInMinutes rota <=? currentTimeInMinutes rota today in
    timeHasPassed.

Inductive ProcessResult :=
| Skipped (reason : string)
| Processed (rotaId : Id) (userId : option string) (messageTs : string)
| Failed (rotaId : Id) (error : string).

(** Names bound at the top level of schedulerService.js. *)
Definition moduleScope : list string :=
  ["cron"; "Rota"; "getNextOccurrence"; "getCurrentHourInTimezone";
   "getCurrentMinuteInTimezone"; "getNextAssignment"; "createAssignment";
   "markAsNotified"; "assignmentExistsForToday"; "sendNotificationWithRetry";
   "getUnnotifiedAssignments"; "schedulerLogger"; "schedulerTask";
   "schedulerRetryTask"; "isRunning"; "shouldExecuteToday"; "processRota";
   "processAllRotas"; "retryFailedNotifications"; "startScheduler";
   "stopScheduler"; "getSchedulerStatus"].

(** Names visible inside the [catch (error) { ... }] block of [processRota]:
    the [const]s of the [try] block ([rotaId], [workspaceId], ...) are
    scoped to that block and are not among them. *)
Definition processRotaCatchScope : list string :=
  ["error"; "rota"] ++ moduleScope.

(** A variable read: its value if the name is in scope. *)
Definition readVar {A : Type} (scope : list string) (ident : string)
  (value : A) : M A :=
  resolve scope ident ;;; ret value.

(** The [try] block of [processRota(rota)]. *)
Definition processRotaTry (rota : Rota) : M ProcessResult :=
  let rotaId := r_id rota in
  let workspaceId := r_workspaceId rota in
  date <- gets now ;;
  alreadyAssigned <- gets (assignmentExistsForToday rotaId date) ;;
  if (alreadyAssigned : bool) then ret (Skipped "already_assigned")
  else
    next <- getNextAssignment rotaId workspaceId ;;
    assignedDate <- gets now ;;
    assignment <-
      createAssignment rotaId workspaceId (na_userId next)
        (na_channelId next) assignedDate ;;
    messageTs <-
      sendNotificationWithRetry env workspaceId (na_channelId next)
        (na_userId next) (na_rotaName next) (r_customMessage rota)
        (Some (RefId (a_id assignment)))
        (Z.of_nat (List.length (r_members rota))) defaultMaxRetries ;;
    markAsNotified (a_id assignment) messageTs ;;;
    ret (Processed rotaId (na_userId next) messageTs).

(** The [catch (error)] block of [processRota(rota)]: the object literal
    handed to [schedulerLogger.error] reads [error.message], [error.stack],
    [rotaId] and [rota.name], in that order, before the block returns
    [{ success: false, rotaId, error: error.message }]. *)
Definition processRotaCatch (rota : Rota) (error : Js.Error)
  : M ProcessResult :=
  rotaId <- readVar processRotaCatchScope "rotaId" (r_id rota) ;;
  ret (Failed rotaId (Js.message error)).

(** [processRota(rota)] *)
Definition processRota (rota : Rota) : M ProcessResult :=
  tryCatch (processRotaTry rota) (processRotaCatch rota).

Record CycleResults := mkResults {
  total : nat;
  processed : nat;
  skipped : nat;
  failed : nat;
  errors : list (Id * string)
}.

Definition countSkipped (r : CycleResults) : CycleResults :=
  mkResults (total r) (processed r) (S (skipped r)) (failed r) (errors r).

Definition countProcessed (r : CycleResults) : CycleResults :=
  mkResults (total r) (S (processed r)) (skipped r) (failed r) (errors r).

Definition countFailed (rotaId : Id) (error : string) (r : CycleResults)
  : CycleResults :=
  mkResults (total r) (processed r) (skipped r) (S (failed r))
            (errors r ++ [(rotaId, error)]).

(** The [for (const rota of rotas)] loop of [processAllRotas]. *)
Fixpoint processEach (rotas : list Rota) (results : CycleResults)
  : M CycleResults :=
  match rotas with
  | [] => ret results
  | rota :: rest =>
      today <- gets now ;;
      if negb (shouldExecuteToday rota today) then
        processEach rest (countSkipped results)
      else
        result <- processRota rota ;;
        match result with
        | Skipped _ => processEach rest (countSkipped results)
        | Processed _ _ _ => processEach rest (countProcessed results)
        | Failed rotaId error =>
            processEach rest (countFailed rotaId error results)
        end
  end.

(** [processAllRotas()]: [None] is the [undefined] it returns when a cycle
    is already running or no rota is active.  The [catch] logs and
    rethrows; [finally] clears the flag. *)
Definition processAllRotas : M (option CycleResults) :=
  running <- gets isRunning ;;
  if (running : bool) then ret None
  else
    modify (setIsRunning true) ;;;
    tryFinally
      (rotas <- gets Store.findActiveRotas ;;
       if (List.length rotas =? 0)%nat then ret None
       else
         results <-
           processEach rotas
             (mkResults (List.length rotas) 0%nat 0%nat 0%nat []) ;;
         ret (Some results))
      (setIsRunning false).

(** One iteration of the loop of [retryFailedNotifications]: [None] for
    [continue], otherwise whether the retry succeeded.  The notification is
    requested with six arguments, the sixth being the literal [2]. *)
Definition retryOne (assignment : RotaAssignment) : M (option bool) :=
  tryCatch
    (found <- gets (Store.findRotaById (a_rotaId assignment)) ;;
     match found with
     | None => ret None
     | Some rota =>
         messageTs <-
           sendNotificationWithRetry env (a_workspaceId assignment)
             (a_channelId assignment) (Some (a_userId assignment))
             (r_name rota) (r_customMessage rota) (Some (RefNum 2))
             defaultMemberCount defaultMaxRetries ;;
         markAsNotified (a_id assignment) messageTs ;;;
         ret (Some true)
     end)
    (fun _ => ret (Some false)).

Fixpoint retryEach (unnotified : list RotaAssignment) (retried failed : nat)
  : M (nat * nat) :=
  match unnotified with
  | [] => ret (retried, failed)
  | assignment :: rest =>
      r <- retryOne assignment ;;
      match r with
      | None => retryEach rest retried failed
      | Some true => retryEach rest (S retried) failed
      | Some false => retryEach rest retried (S failed)
      end
  end.

(** [retryFailedNotifications()].  The function returns nothing; the value
    here is the pair [{ retried, failed }] it logs on completion ([None]
    when there was nothing to retry).  Every error of an iteration is
    caught inside the loop, so the outer [catch] guards the store read
    only. *)
Definition retryFailedNotifications : M (option (nat * nat)) :=
  unnotified <- gets (getUnnotifiedAssignments env None) ;;
  if (List.length unnotified =? 0)%nat then ret None
  else
    counters <- retryEach unnotified 0%nat 0%nat ;;
    ret (Some counters).

End Engine.

(** ** Notions used by the statements below *)

(** The member ids recorded for a rota on the day of [date], whatever their
    skip state: the [assignedUserIds] of [getNextAvailablePerson]. *)
Definition usedToday (rota : Rota) (date : Instant) (w : World) : list string :=
  map a_userId (getAssignmentsForDate (r_id rota) date w).

(** The index examined at step [j] of a circular scan that starts right
    after [cursor]. *)
Definition candidate (members : list string) (cursor : Z) (j : nat) : Z :=
  (cursor + 1 + Z.of_nat j) mod Z.of_nat (List.length members).

(** The member at index [i] is already recorded for the day. *)
Definition usedAt (members used : list string) (i : Z) : Prop :=
  exists v, Js.index members i = Some v /\ In v used.

(** Number of records a rota has on the day of [date]. *)
Definition dayCount (rotaId : Id) (date : Instant) (w : World) : nat :=
  List.length (filter (Store.forRotaOnDay rotaId date) (assignments w)).

(** Only the clock and the Slack log differ between two worlds. *)
Definition ioOnly (w w' : World) : Prop :=
  rotas w' = rotas w /\ assignments w' = assignments w
  /\ workspaces w' = workspaces w /\ nextId w' = nextId w
  /\ isRunning w' = isRunning w.

(** The stored cursor of a rota. *)
Definition storedCursor (rotaId : Id) (w : World) : option Z :=
  option_map r_currentIndex (Store.findRotaById rotaId w).

(** The two next-member operations agree on a rota: the member the
    scheduling path selects and the cursor it stores are the member and the
    [newIndex] that [getNextAvailablePerson] returns. *)
Definition sharedNextMember (w : World) (rota : Rota) (date : Instant) : Prop :=
  forall res w',
    getNextAssignment (r_id rota) (r_workspaceId rota) w = (Return res, w') ->
    na_userId res = np_userId (getNextAvailablePerson rota date w)
    /\ storedCursor (r_id rota) w'
       = np_newIndex (getNextAvailablePerson rota date w).

(** The scheduling path tolerates a stale cursor: it leaves the stored
    cursor inside the member list and reads the member at the cursor wrapped
    into the list. *)
Definition toleratesStaleCursor (w : World) (rota : Rota) : Prop :=
  forall res w',
    getNextAssignment (r_id rota) (r_workspaceId rota) w = (Return res, w') ->
    (exists c', storedCursor (r_id rota) w' = Some c'
                /\ 0 <= c' < Z.of_nat (List.length (r_members rota)))
    /\ na_userId res
       = Js.index (r_members rota)
           (r_currentIndex rota mod Z.of_nat (List.length (r_members rota))).

(** ** The recurrence library on daily rules *)

Module Rrule.

(** [RRule.fromString(rule).after(t, true)] for a rule [FREQ=DAILY] whose
    series starts at [dtstart]: the occurrences are [dtstart],
    [dtstart + 1 day], [dtstart + 2 days], ..., and the answer is the
    first of them that is not before [t] ([t] itself when it is an
    occurrence). *)
Definition dailyAfter (dtstart t : Instant) : option Instant :=
  if t <=? dtstart then Some dtstart
  else
    Some (dtstart + (t - dtstart + (msPerDay - 1)) / msPerDay * msPerDay).

(** A rule that names no DTSTART starts its series at the time it is
    parsed, with the milliseconds cleared; [getNextOccurrence] parses the
    rule at each call, at the instant it asks about. *)
Definition unanchoredDailyAfter (t : Instant) : option Instant :=
  dailyAfter (t - t mod 1000) t.

End Rrule.

(** ** Sample data *)

Module Fixtures.

Definition daily : Schedule :=
  mkSchedule "FREQ=DAILY" (Some "UTC") (Some 10) (Some 0).

Definition support : Rota :=
  mkRota 1 "Support" "T1" "C1" ["A"; "B"; "C"] daily None 0 true.

Definition deploy : Rota :=
  mkRota 2 "Deploy" "T1" "C2" ["X"; "Y"] daily None 0 true.

(** [support] after its member list shrank under the cursor. *)
Definition staleCursor : Rota :=
  mkRota 1 "Support" "T1" "C1" ["A"; "B"; "C"] daily None 4 true.

(** [support] as stored once its first member has been assigned. *)
Definition supportAdvanced : Rota :=
  mkRota 1 "Support" "T1" "C1" ["A"; "B"; "C"] daily None 1 true.

Definition solo : Rota :=
  mkRota 3 "Pager" "T1" "C3" ["Z"] daily None 0 true.

(** Day 20000 after the epoch, at [h]:[m] UTC. *)
Definition at_ (h m : Z) : Instant :=
  20000 * msPerDay + h * 3600000 + m * 60000.

(** A daily rule whose series started at noon of the sample day. *)
Definition noonRule : string :=
  "DTSTART:20241004T120000Z" ++ String (ascii_of_nat 10) "RRULE:FREQ=DAILY".

(** The rule [generateRRule] writes for a daily frequency, the start date
    [2024-10-04] and the zone UTC: its series started at midnight UTC of
    the sample day. *)
Definition midnightRule : string :=
  "DTSTART;TZID=UTC:20241004T000000" ++ String (ascii_of_nat 10)
    "RRULE:FREQ=DAILY".

(** The library on the rules of the sample rotas.  [FREQ=DAILY] names no
    DTSTART: asked on a whole second the library answers with the instant
    of the question.  The other two rules are anchored at their
    DTSTART. *)
Definition everyDay (rule : string) (t : Instant) : option Instant :=
  if String.eqb rule noonRule then
    Rrule.dailyAfter (20000 * msPerDay + 12 * 3600000) t
  else if String.eqb rule midnightRule then
    Rrule.dailyAfter (20000 * msPerDay) t
  else Rrule.unanchoredDailyAfter t.

(** A rota on the noon-anchored rule, to be notified at 10:00 UTC. *)
Definition standup : Rota :=
  mkRota 4 "Standup" "T1" "C4" ["A"; "B"]
         (mkSchedule noonRule (Some "UTC") (Some 10) (Some 0)) None 0 true.

(** A rota on the midnight-anchored rule, to be notified at 10:00 UTC. *)
Definition review : Rota :=
  mkRota 5 "Review" "T1" "C5" ["A"; "B"]
         (mkSchedule midnightRule (Some "UTC") (Some 10) (Some 0)) None 0
         true.

(** A rota on the midnight-anchored rule, to be notified at 00:00 UTC. *)
Definition nightly : Rota :=
  mkRota 6 "Nightly" "T1" "C6" ["A"; "B"]
         (mkSchedule midnightRule (Some "UTC") (Some 0) (Some 0)) None 0
         true.

Definition utcHour (t : Instant) (_ : string) : Z :=
  (t mod msPerDay) / 3600000.

Definition utcMinute (t : Instant) (_ : string) : Z :=
  (t mod 3600000) / 60000.

Definition slackUp (_ : nat) (_ : PostRequest) : SlackReply :=
  SlackOk "1728036000.000100".

Definition slackDown (_ : nat) (_ : PostRequest) : SlackReply :=
  SlackFail "Slack API Error: channel_not_found".

(** Slack rejects the first two requests and accepts from the third on. *)
Definition slackFlaky (n : nat) (_ : PostRequest) : SlackReply :=
  if (n <? 2)%nat then SlackFail "Slack API Error: ratelimited"
  else SlackOk "1728036006.000200".

Definition envUp : Env := mkEnv everyDay utcHour utcMinute slackUp true.
Definition envDown : Env := mkEnv everyDay utcHour utcMinute slackDown true.
Definition envFlaky : Env := mkEnv everyDay utcHour utcMinute slackFlaky true.

(** A recurrence that has no further occurrence. *)
Definition envEnded : Env :=
  mkEnv (fun _ _ => None) utcHour utcMinute slackUp true.

(** A store that reads an [undefined] filter value as a match against
    null. *)
Definition envNullFilter : Env :=
  mkEnv everyDay utcHour utcMinute slackUp false.

(** Two active rotas, nothing assigned yet, 10:00 on the sample day. *)
Definition fresh : World :=
  mkWorld [support; deploy] [] ["T1"] (at_ 10 0) 100 [] [] false.

(** [standup] alone, nothing assigned yet, 15:00 on the sample day. *)
Definition missedStandup : World :=
  mkWorld [standup] [] ["T1"] (at_ 15 0) 100 [] [] false.

(** [support] with B on duty the day before and A on the sample day, at
    10:20. *)
Definition carriedOver : World :=
  mkWorld [support; deploy]
    [mkAssignment 90 1 "T1" "B" (at_ (-14) 0) "C1" true
       (Some (at_ (-14) 0)) (Some "1727949600.000100") false None None None
       (at_ (-14) 0);
     mkAssignment 100 1 "T1" "A" (at_ 10 0) "C1" true (Some (at_ 10 0))
       (Some "1728036000.000100") false None None None (at_ 10 0)]
    ["T1"] (at_ 10 20) 101 [] [] false.

Definition freshStale : World :=
  mkWorld [staleCursor] [] ["T1"] (at_ 10 0) 100 [] [] false.

Definition freshSolo : World :=
  mkWorld [solo] [] ["T1"] (at_ 10 0) 100 [] [] false.

(** [freshSolo] a quarter of an hour after its cycle. *)
Definition afterSoloCycle : World :=
  setNow (at_ 10 15) (snd (processAllRotas envUp freshSolo)).

(** The world a quarter of an hour after a completed cycle. *)
Definition afterCycle : World :=
  setNow (at_ 10 15) (snd (processAllRotas envUp fresh)).

(** [afterCycle], then the assignee of [support] skipped at 10:20 and the
    replacement skipped at 10:25; the clock reads 10:30. *)
Definition afterTwoSkips : World :=
  let w1 := setNow (at_ 10 20) afterCycle in
  let w2 := setNow (at_ 10 25) (snd (handleSkipPerson envUp 100 "U9" w1)) in
  setNow (at_ 10 30) (snd (handleSkipPerson envUp 102 "U9" w2)).

(** A pending record of [support] created an hour before the sweep and one
    created twenty-five hours before it. *)
Definition pendingRecent : RotaAssignment :=
  mkAssignment 50 1 "T1" "A" (at_ 9 0) "C1" false None None false None None
               None (at_ 9 0).

Definition pendingOld : RotaAssignment :=
  mkAssignment 49 1 "T1" "C" (at_ 9 0 - 25 * 3600000) "C1" false None None
               false None None None (at_ 10 0 - 25 * 3600000).

Definition beforeSweep : World :=
  mkWorld [support] [pendingOld; pendingRecent] ["T1"] (at_ 10 0) 100 [] []
          false.

End Fixtures.

(** ** Further operations of the same modules *)

Module Query.

(** [.sort({ key: -1 })]: a stable insertion sort, largest key first. *)
Fixpoint insertDescBy {A : Type} (key : A -> Z) (a : A) (l : list A)
  : list A :=
  match l with
  | [] => [a]
  | b :: rest =>
      if key b <? key a then a :: b :: rest
      else b :: insertDescBy key a rest
  end.

Definition sortDescBy {A : Type} (key : A -> Z) (l : list A) : list A :=
  fold_right (insertDescBy key) [] (rev l).

(** [.limit(n)]: a limit of zero means no limit. *)
Definition limit {A : Type} (n : nat) (l : list A) : list A :=
  match n with
  | O => l
  | S _ => firstn n l
  end.

(** [deleteOne({ _id })]: the first matching document goes. *)
Fixpoint deleteFirst {A : Type} (p : A -> bool) (l : list A) : list A :=
  match l with
  | [] => []
  | x :: rest => if p x then rest else x :: deleteFirst p rest
  end.

End Query.

(** The date range of [getCurrentAssignment]: from local midnight to
    [new Date(y, m, d, 23, 59, 59)], the last full second of the day. *)
Definition inCurrentRange (today : Instant) (a : RotaAssignment) : bool :=
  (startOfDay today <=? a_assignedDate a)
  && (a_assignedDate a <=? startOfDay today + (msPerDay - 1000)).

(** [getCurrentAssignment(rotaId)]:
    [findOne({ rotaId, assignedDate: {...} }).sort({ createdAt: -1 })]. *)
Definition getCurrentAssignment (rotaId : Id) (w : World)
  : option RotaAssignment :=
  hd_error
    (Query.sortDescBy a_createdAt
       (filter (fun a => (a_rotaId a =? rotaId) && inCurrentRange (now w) a)
          (assignments w))).

(** [getRecentAssignments(rotaId, limit = 10)] *)
Definition getRecentAssignments (rotaId : Id) (limit : nat) (w : World)
  : list RotaAssignment :=
  Query.limit limit
    (Query.sortDescBy a_assignedDate
       (filter (fun a => a_rotaId a =? rotaId) (assignments w))).

Definition defaultRecentLimit : nat := 10%nat.

(** [rota.save()] after assigning [rota.isActive]. *)
Definition saveIsActive (id : Id) (active : bool) : M unit :=
  modify (fun w =>
    setRotas
      (Store.updateFirst (fun r => r_id r =? id)
         (fun r => mkRota (r_id r) (r_name r) (r_workspaceId r)
                          (r_channelId r) (r_members r) (r_schedule r)
                          (r_customMessage r) (r_currentIndex r) active)
         (rotas w)) w).

(** [deleteRota(rotaId, workspaceId)]: the soft delete; the document it
    returns is the loaded one with the flag cleared. *)
Definition deleteRota (rotaId : Id) (workspaceId : string) : M Rota :=
  (rota <- getRotaById rotaId workspaceId ;;
   saveIsActive (r_id rota) false ;;;
   ret (mkRota (r_id rota) (r_name rota) (r_workspaceId rota)
               (r_channelId rota) (r_members rota) (r_schedule rota)
               (r_customMessage rota) (r_currentIndex rota) false))%js.

(** [permanentlyDeleteRota(rotaId, workspaceId)]: the workspace-scoped
    lookup, then [Rota.deleteOne({ _id: rotaId })]. *)
Definition permanentlyDeleteRota (rotaId : Id) (workspaceId : string)
  : M Rota :=
  (rota <- getRotaById rotaId workspaceId ;;
   modify (fun w =>
     setRotas (Query.deleteFirst (fun r => r_id r =? rotaId) (rotas w)) w) ;;;
   ret rota)%js.

(** ** Time display (timezoneHelper.js, views/blocks) *)

(** [s.padStart(2, '0')] *)
Definition padStart2 (s : string) : string :=
  match String.length s with
  | O => "00"
  | S O => "0" ++ s
  | _ => s
  end.

(** [formatTimeDisplay(hour, minute = 0)] on integers. *)
Definition formatTimeDisplay (hour minute : Z) : string :=
  let minuteStr := padStart2 (Js.showZ minute) in
  let (displayHour, period) :=
    if hour =? 0 then (12, "AM")
    else if hour =? 12 then (12, "PM")
    else if 12 <? hour then (hour - 12, "PM")
    else (hour, "AM") in
  Js.showZ displayHour ++ ":" ++ minuteStr ++ " " ++ period.

(** An option of a [static_select]: its plain-text label and its value. *)
Record SelectOption := mkOption { o_text : string; o_value : string }.

(** The body of the [for (hour = 0; hour < 24; hour++)] loop of
    [generateHourOptions]; both branches on [timezone] build the same
    label. *)
Definition hourOption (hour : Z) : SelectOption :=
  let ampm := if hour <? 12 then "AM" else "PM" in
  let displayHour :=
    if hour =? 0 then 12 else if 12 <? hour then hour - 12 else hour in
  mkOption (Js.showZ displayHour ++ " " ++ ampm) (Js.showZ hour).

(** [generateHourOptions(timezone = null, utcHour = null)] *)
Definition generateHourOptions : list SelectOption :=
  map (fun h => hourOption (Z.of_nat h)) (seq 0 24).

(** [generateMinuteOptions()] *)
Definition generateMinuteOptions : list SelectOption :=
  map (fun minute =>
         mkOption (":" ++ padStart2 (Js.showZ minute)) (Js.showZ minute))
      [0; 15; 30; 45].

(** ** Notions used by the further statements *)

(** The fields of a record that only creation sets. *)
Definition identityOf (a : RotaAssignment)
  : Id * Id * string * string * Instant * string * Instant :=
  (a_id a, a_rotaId a, a_workspaceId a, a_userId a, a_assignedDate a,
   a_channelId a, a_createdAt a).

(** Every stored record has an id below the next one to be handed out, and
    no two share an id. *)
Definition freshIds (w : World) : Prop :=
  Forall (fun a => a_id a < nextId w) (assignments w)
  /\ NoDup (map a_id (assignments w)).

(** The successive [getNextAssignment] calls of [k] cycles on one rota: the
    members selected, in order, and the world left behind. *)
Fixpoint drawMembers (rotaId : Id) (workspaceId : string) (k : nat)
  (w : World) : list (option string) * World :=
  match k with
  | O => ([], w)
  | S k' =>
      match getNextAssignment rotaId workspaceId w with
      | (Return next, w1) =>
          let (rest, w2) := drawMembers rotaId workspaceId k' w1 in
          (na_userId next :: rest, w2)
      | (Throw _, w1) => ([], w1)
      end
  end.

(** Number of records of a rota, over all days. *)
Definition recordCount (rotaId : Id) (w : World) : nat :=
  List.length (filter (fun a => a_rotaId a =? rotaId) (assignments w)).

(** Creation-time order and its reverse on a key. *)
Definition createdNoLater (a b : RotaAssignment) : Prop :=
  a_createdAt a <= a_createdAt b.

Definition keyNoSmaller {A : Type} (key : A -> Z) (a b : A) : Prop :=
  key b <= key a.


(** Slack refuses the [i]-th request of the log. *)
Definition slackRefuses (env : Env) (req : PostRequest) (i : nat) : bool :=
  match slackPost env i req with
  | SlackFail _ => true
  | SlackOk _ => false
  end.

(** ** Invariants of the entry points *)

(** A computation keeps a property of the world, whether it returns or
    throws. *)
Definition keeps {A : Type} (P : World -> Prop) (m : M A) : Prop :=
  forall w, P w -> P (snd (m w)).

(** A property that every write of the services keeps: creating a record,
    marking one as notified or skipped, saving a cursor, flipping the cycle
    flag, and whatever touches only the clock and the Slack log. *)
Record Stable (P : World -> Prop) : Prop := mkStable {
  stable_create :
    forall rotaId workspaceId userId channelId assignedDate,
      keeps P (createAssignment rotaId workspaceId userId channelId
                 assignedDate);
  stable_notified : forall id ts, keeps P (markAsNotified id ts);
  stable_skipped :
    forall id skippedBy replacedBy,
      keeps P (markSkipped id skippedBy replacedBy);
  stable_cursor : forall id idx, keeps P (Store.saveCurrentIndex id idx);
  stable_io : forall w w', ioOnly w w' -> P w -> P w';
  stable_running : forall b w, P w -> P (setIsRunning b w)
}.

(** Everything of a rota but its cursor. *)
Definition rotaCore (r : Rota)
  : Id * string * string * string * list string * Schedule
    * option Template * bool :=
  (r_id r, r_name r, r_workspaceId r, r_channelId r, r_members r,
   r_schedule r, r_customMessage r, r_isActive r).

(** The rota collection of [w'] is that of [w] up to the cursors. *)
Definition rotasKept (w w' : World) : Prop :=
  map rotaCore (rotas w') = map rotaCore (rotas w).

(** A later state of the same record: what creation set is unchanged, and
    the [notified] and [skipped] flags have not been cleared. *)
Definition recordGrows (a b : RotaAssignment) : Prop :=
  identityOf a = identityOf b
  /\ (a_notified a = true -> a_notified b = true)
  /\ (a_skipped a = true -> a_skipped b = true).

(** The ledger of [w'] holds a later state of every record of [w], in the
    same order, followed by the records created since. *)
Definition ledgerGrows (w w' : World) : Prop :=
  exists old extra,
    assignments w' = (old ++ extra)%list
    /\ Forall2 recordGrows (assignments w) old.

(** Nothing happened to a rota between [w] and [w']: it has as many records
    and the same stored document, cursor included. *)
Definition untouched (id : Id) (w w' : World) : Prop :=
  recordCount id w' = recordCount id w
  /\ Store.findRotaById id w' = Store.findRotaById id w.

(** Rota ids are unique in the collection. *)
Definition uniqueRotaIds (w : World) : Prop := NoDup (map r_id (rotas w)).

(** A rota document with another cursor. *)
Definition withCursor (rota : Rota) (idx : Z) : Rota :=
  mkRota (r_id rota) (r_name rota) (r_workspaceId rota) (r_channelId rota)
         (r_members rota) (r_schedule rota) (r_customMessage rota) idx
         (r_isActive rota).

(** The member list read from position [c] on, wrapping around. *)
Definition rotateFrom {A : Type} (c : nat) (l : list A) : list A :=
  (skipn c l ++ firstn c l)%list.

(** Every field of a record that the notification bookkeeping
    ([notified], [notificationSentAt], [messageTs]) leaves aside. *)
Definition outsideNotification (a : RotaAssignment)
  : (Id * Id * string * string * Instant * string * Instant)
    * bool * option string * option Instant * option Id :=
  (identityOf a, a_skipped a, a_skippedBy a, a_skippedAt a,
   a_replacedByAssignmentId a).

(** What a retry sweep may change between [w] and [w']: the notification
    bookkeeping of stored records, the clock, and the Slack log, to which
    it adds only messages without a skip action. *)
Definition sweepFrame (w w' : World) : Prop :=
  rotas w' = rotas w /\ nextId w' = nextId w
  /\ workspaces w' = workspaces w /\ isRunning w' = isRunning w
  /\ map outsideNotification (assignments w')
     = map outsideNotification (assignments w)
  /\ exists extra,
       posts w' = (posts w ++ extra)%list
       /\ Forall (fun p => existsb isSkipAction (p_blocks p) = false) extra.

(** The rota of a record is still stored. *)
Definition hasRota (w : World) (a : RotaAssignment) : bool :=
  match Store.findRotaById (a_rotaId a) w with
  | Some _ => true
  | None => false
  end.

(** The times of day a notification can be set to: hours 0 to 23, minutes
    0 to 59. *)
Definition clockTimes : list (Z * Z) :=
  flat_map (fun h => map (fun m => (Z.of_nat h, Z.of_nat m)) (seq 0 60))
           (seq 0 24).

(** The hour of the 12-hour clock. *)
Definition hour12 (hour : Z) : Z :=
  if hour mod 12 =? 0 then 12 else hour mod 12.

(** ** Further sample data *)

Module Samples.

(** [Fixtures.support] after a soft delete. *)
Definition retired : Rota :=
  mkRota 1 "Support" "T1" "C1" ["A"; "B"; "C"] Fixtures.daily None 0 false.

(** A retired rota next to an active one, 10:00 on the sample day. *)
Definition withRetired : World :=
  mkWorld [retired; Fixtures.deploy] [] ["T1"] (Fixtures.at_ 10 0) 100 []
          [] false.

(** [Fixtures.afterCycle] at 10:20, when the skip request arrives. *)
Definition atSkip : World := setNow (Fixtures.at_ 10 20) Fixtures.afterCycle.

End Samples.
(** ** Arithmetic of days and of circular indices *)

Lemma msPerDay_pos : 0 < msPerDay.
Proof. reflexivity. Qed.

Lemma startOfDay_le (t : Instant) : startOfDay t <= t <= endOfDay t.
Proof.
  unfold endOfDay, startOfDay.
  pose proof (Z.mod_pos_bound t msPerDay msPerDay_pos). lia.
Qed.

Lemma startOfDay_unique (d t : Instant) :
  startOfDay d <= t <= endOfDay d <-> startOfDay t = startOfDay d.
Proof.
  unfold endOfDay, startOfDay.
  pose proof (Z.mod_pos_bound t msPerDay msPerDay_pos) as Ht.
  pose proof (Z.mod_pos_bound d msPerDay msPerDay_pos) as Hd.
  pose proof (Z.div_mod t msPerDay ltac:(discriminate)) as Et.
  pose proof (Z.div_mod d msPerDay ltac:(discriminate)) as Ed.
  split; intros H.
  - assert (t / msPerDay = d / msPerDay) by nia. nia.
  - lia.
Qed.

Lemma rem_in_range (a n : Z) : 0 <= a -> 0 < n -> 0 <= Js.rem a n < n.
Proof.
  intros Ha Hn. unfold Js.rem.
  rewrite Z.rem_mod_nonneg by lia. apply Z.mod_pos_bound; lia.
Qed.

Lemma rem_mod (a n : Z) : 0 <= a -> 0 < n -> Js.rem a n = a mod n.
Proof. intros; unfold Js.rem; apply Z.rem_mod_nonneg; lia. Qed.

Lemma index_Some {A : Type} (l : list A) (i : Z) (x : A) :
  Js.index l i = Some x -> 0 <= i < Z.of_nat (List.length l).
Proof.
  unfold Js.index. destruct (i <? 0) eqn:E; [discriminate|].
  intros H. apply Z.ltb_ge in E.
  assert (Z.to_nat i < List.length l)%nat
    by (apply nth_error_Some; congruence).
  lia.
Qed.

Lemma index_in_range {A : Type} (l : list A) (i : Z) :
  0 <= i < Z.of_nat (List.length l) -> exists x, Js.index l i = Some x.
Proof.
  intros H. unfold Js.index.
  destruct (i <? 0) eqn:E; [apply Z.ltb_lt in E; lia|].
  destruct (nth_error l (Z.to_nat i)) eqn:N; [eauto|].
  apply nth_error_None in N. lia.
Qed.

Lemma includes_In (l : list string) (u : string) :
  Js.includes l (Some u) = true <-> In u l.
Proof.
  simpl. rewrite existsb_exists. split.
  - intros [x [Hx E]]. apply String.eqb_eq in E. now subst.
  - intros H. exists u. split; [assumption | apply String.eqb_refl].
Qed.

(** ** The sort is a rearrangement *)

Lemma insertByCreatedAt_In (a b : RotaAssignment) (l : list RotaAssignment) :
  In b (Store.insertByCreatedAt a l) <-> b = a \/ In b l.
Proof.
  induction l as [|c l IH]; simpl.
  - intuition.
  - destruct (a_createdAt a <? a_createdAt c); simpl; rewrite ?IH; intuition.
Qed.

Lemma sortByCreatedAt_In (b : RotaAssignment) (l : list RotaAssignment) :
  In b (Store.sortByCreatedAt l) <-> In b l.
Proof.
  unfold Store.sortByCreatedAt. rewrite (in_rev l b).
  induction (rev l) as [|c r IH]; simpl; [tauto|].
  rewrite insertByCreatedAt_In, IH. intuition.
Qed.

(** ** The member scan *)

Lemma candidate_range (members : list string) (cur : Z) (j : nat) :
  members <> [] ->
  0 <= candidate members cur j < Z.of_nat (List.length members).
Proof.
  intros H. unfold candidate. apply Z.mod_pos_bound.
  destruct members; [congruence | simpl; lia].
Qed.

Lemma candidate_shift (members : list string) (cur : Z) (j : nat) :
  candidate members (candidate members cur 0) j = candidate members cur (S j).
Proof.
  unfold candidate.
  replace (cur + 1 + Z.of_nat 0) with (cur + 1) by lia.
  replace ((cur + 1) mod Z.of_nat (List.length members) + 1 + Z.of_nat j)
    with ((cur + 1) mod Z.of_nat (List.length members) + (1 + Z.of_nat j))
    by lia.
  rewrite Zplus_mod_idemp_l. f_equal. lia.
Qed.

Lemma scanMembers_spec (members used : list string) (fuel : nat) :
  forall cur, members <> [] -> 0 <= cur ->
  match scanMembers members used cur fuel with
  | Some r =>
      exists (k : nat) (u : string),
        (k < fuel)%nat
        /\ np_newIndex r = Some (candidate members cur k)
        /\ np_userId r = Some u
        /\ Js.index members (candidate members cur k) = Some u
        /\ ~ In u used
        /\ forall j, (j < k)%nat -> usedAt members used (candidate members cur j)
  | None =>
      forall j, (j < fuel)%nat -> usedAt members used (candidate members cur j)
  end.
Proof.
  induction fuel as [|fuel IH]; intros cur Hne Hcur; simpl.
  - intros j Hj. lia.
  - assert (Hn : 0 < Z.of_nat (List.length members))
      by (destruct members; [congruence | simpl; lia]).
    assert (Hstep : Js.rem (cur + 1) (Z.of_nat (List.length members))
                    = candidate members cur 0).
    { unfold candidate. rewrite rem_mod by lia. f_equal. lia. }
    pose proof (candidate_range members cur 0 Hne) as Hrange.
    rewrite Hstep.
    destruct (index_in_range members _ Hrange) as [v Hv].
    rewrite Hv.
    destruct (Js.includes used (Some v)) eqn:Inc; simpl.
    + apply includes_In in Inc.
      specialize (IH (candidate members cur 0) Hne (proj1 Hrange)).
      destruct (scanMembers members used (candidate members cur 0) fuel)
        as [r|].
      * destruct IH as (k & u & Hk & Hi & Hu & Hm & Hfree & Hprev).
        exists (S k), u. rewrite <- candidate_shift.
        repeat split; try assumption; try lia.
        intros [|j] Hj; [exists v; auto|].
        rewrite <- candidate_shift. apply Hprev. lia.
      * intros [|j] Hj; [exists v; auto|].
        rewrite <- candidate_shift. apply IH. lia.
    + exists 0%nat, v. repeat split; try assumption; try lia.
      intros Hin. apply includes_In in Hin. unfold Js.includes in *.
      congruence.
Qed.

(** What [getNextAvailablePerson] returns for a non-empty member list and a
    non-negative cursor. *)
Lemma getNextAvailablePerson_spec (w : World) (rota : Rota) (date : Instant) :
  r_members rota <> [] -> 0 <= r_currentIndex rota ->
  let members := r_members rota in
  let cursor := r_currentIndex rota in
  let used := usedToday rota date w in
  let r := getNextAvailablePerson rota date w in
  exists (i : Z) (u : string),
    np_newIndex r = Some i /\ np_userId r = Some u
    /\ Js.index members i = Some u
    /\ ((exists k : nat,
           (k < List.length members)%nat
           /\ i = candidate members cursor k
           /\ ~ In u used
           /\ forall j, (j < k)%nat ->
                usedAt members used (candidate members cursor j))
        \/ ((forall j, (j < List.length members)%nat ->
               usedAt members used (candidate members cursor j))
            /\ i = candidate members cursor 0)).
Proof.
  intros Hne Hcur. cbv zeta. unfold getNextAvailablePerson.
  change (map a_userId (getAssignmentsForDate (r_id rota) date w))
    with (usedToday rota date w).
  pose proof (scanMembers_spec (r_members rota) (usedToday rota date w)
                (List.length (r_members rota)) (r_currentIndex rota)
                Hne Hcur) as Hscan.
  destruct (scanMembers (r_members rota) (usedToday rota date w)
              (r_currentIndex rota) (List.length (r_members rota))) as [r|].
  - destruct Hscan as (k & u & Hk & Hi & Hu & Hm & Hfree & Hprev).
    exists (candidate (r_members rota) (r_currentIndex rota) k), u.
    repeat split; try assumption. left. exists k. auto.
  - assert (Hn : 0 < Z.of_nat (List.length (r_members rota)))
      by (destruct (r_members rota); [congruence | simpl; lia]).
    assert (Hstep : Js.rem (r_currentIndex rota + 1)
                      (Z.of_nat (List.length (r_members rota)))
                    = candidate (r_members rota) (r_currentIndex rota) 0).
    { unfold candidate. rewrite rem_mod by lia. f_equal. lia. }
    destruct (index_in_range (r_members rota) _
                (candidate_range (r_members rota) (r_currentIndex rota) 0 Hne))
      as [v Hv].
    exists (candidate (r_members rota) (r_currentIndex rota) 0), v.
    destruct (r_members rota) as [|m ms] eqn:Em; [congruence|].
    rewrite Hstep. simpl np_newIndex. simpl np_userId.
    repeat split; try assumption. right. split; [assumption | reflexivity].
Qed.

Lemma usedToday_spec (w : World) (rota : Rota) (date : Instant) (u : string) :
  In u (usedToday rota date w) <->
  exists a, In a (assignments w) /\ a_rotaId a = r_id rota
            /\ startOfDay (a_assignedDate a) = startOfDay date
            /\ a_userId a = u.
Proof.
  unfold usedToday, getAssignmentsForDate. rewrite in_map_iff.
  split.
  - intros (a & Hu & Hin). apply -> sortByCreatedAt_In in Hin.
    apply filter_In in Hin. destruct Hin as [Hin Hp].
    unfold Store.forRotaOnDay, Store.inDay in Hp.
    apply andb_true_iff in Hp. destruct Hp as [Hid Hday].
    apply andb_true_iff in Hday. destruct Hday as [H1 H2].
    exists a. repeat split; try assumption.
    + now apply Z.eqb_eq.
    + apply startOfDay_unique. split; [now apply Z.leb_le | now apply Z.leb_le].
  - intros (a & Hin & Hid & Hday & Hu). exists a. split; [assumption|].
    apply <- sortByCreatedAt_In. apply filter_In. split; [assumption|].
    unfold Store.forRotaOnDay, Store.inDay.
    apply startOfDay_unique in Hday.
    apply andb_true_iff. split; [now apply Z.eqb_eq|].
    apply andb_true_iff. split; apply Z.leb_le; lia.
Qed.

(** C4.  For a rota with a non-empty member list and an in-range cursor,
    [getNextAvailablePerson] scans circularly from [(cursor + 1) mod n] for at
    most [n] steps and returns the first member that is not among the member
    ids already recorded for that day; the ids that count as used are exactly
    the member ids of the records of this rota dated that day, skipped or
    not, and of no other day or rota.  When all candidates are used it
    returns the member at [(cursor + 1) mod n]; and the returned [newIndex]
    is the index of the returned member. *)
Theorem nextAvailable_first_unused (w : World) (rota : Rota) (date : Instant)
  (Hmembers : r_members rota <> [])
  (Hcursor : 0 <= r_currentIndex rota < Z.of_nat (List.length (r_members rota))) :
  let members := r_members rota in
  let n := Z.of_nat (List.length members) in
  let cursor := r_currentIndex rota in
  let used := usedToday rota date w in
  let r := getNextAvailablePerson rota date w in
  (forall v, In v used <->
             exists a, In a (assignments w) /\ a_rotaId a = r_id rota
                       /\ startOfDay (a_assignedDate a) = startOfDay date
                       /\ a_userId a = v)
  /\ exists (i : Z) (u : string),
       np_newIndex r = Some i /\ np_userId r = Some u
       /\ Js.index members i = Some u
       /\ ((exists k : nat,
              (k < List.length members)%nat
              /\ i = (cursor + 1 + Z.of_nat k) mod n
              /\ ~ In u used
              /\ forall j, (j < k)%nat ->
                   usedAt members used ((cursor + 1 + Z.of_nat j) mod n))
           \/ ((forall j, (j < List.length members)%nat ->
                  usedAt members used ((cursor + 1 + Z.of_nat j) mod n))
               /\ i = (cursor + 1) mod n)).
Proof.
  intros members n cursor used r. split.
  - intros v. apply usedToday_spec.
  - destruct (getNextAvailablePerson_spec w rota date Hmembers (proj1 Hcursor))
      as (i & u & Hi & Hu & Hm & Hcase).
    exists i, u. repeat split; try assumption.
    destruct Hcase as [(k & Hk & Hik & Hfree & Hprev) | [Hall Hi0]].
    + left. exists k. auto.
    + right. split; [exact Hall|].
      rewrite Hi0. unfold candidate. f_equal. simpl. lia.
Qed.

(** ** Frame properties of the effects *)

Lemma ioOnly_refl (w : World) : ioOnly w w.
Proof. unfold ioOnly; auto. Qed.

Lemma ioOnly_trans (w1 w2 w3 : World) :
  ioOnly w1 w2 -> ioOnly w2 w3 -> ioOnly w1 w3.
Proof. unfold ioOnly; intuition congruence. Qed.

Lemma getSlackClient_world (teamId : string) (w : World) :
  snd (getSlackClient teamId w) = w.
Proof.
  unfold getSlackClient.
  destruct (existsb (String.eqb teamId) (workspaces w)); reflexivity.
Qed.

Lemma getSlackClient_active (teamId : string) (w : World) :
  existsb (String.eqb teamId) (workspaces w) = true ->
  getSlackClient teamId w = (Return tt, w).
Proof. unfold getSlackClient. intros ->. reflexivity. Qed.

Section RetryFacts.

Variable env : Env.
Variables (workspaceId channelId : string) (userId : option string).
Variables (rotaName : string) (customMessage : option Template).
Variables (assignmentId : option AssignmentRef) (memberCount : Z).

Local Abbreviation request :=
  (notificationRequest channelId userId rotaName customMessage assignmentId
     memberCount).

Local Abbreviation send :=
  (sendRotaNotification env workspaceId channelId userId rotaName
     customMessage assignmentId memberCount).

(** One delivery attempt either stops at the workspace lookup or posts
    exactly one request. *)
Lemma sendRotaNotification_effect (w : World) :
  (existsb (String.eqb workspaceId) (workspaces w) = false
   /\ send w = (Throw (noWorkspace workspaceId), w))
  \/ (existsb (String.eqb workspaceId) (workspaces w) = true
      /\ send w =
         (match slackPost env (List.length (posts w)) request with
          | SlackOk ts => Return ts
          | SlackFail msg => Throw (Js.error msg)
          end,
          setPosts ((posts w ++ [request])%list) w)).
Proof.
  unfold sendRotaNotification, bind, getSlackClient.
  destruct (existsb (String.eqb workspaceId) (workspaces w)) eqn:E.
  - right. split; [reflexivity|]. unfold chatPostMessage.
    destruct (slackPost env (List.length (posts w)) request); reflexivity.
  - left. split; reflexivity.
Qed.

Lemma sendRotaNotification_frame (w : World) :
  ioOnly w (snd (send w))
  /\ sleeps (snd (send w)) = sleeps w
  /\ now (snd (send w)) = now w
  /\ exists extra, posts (snd (send w)) = (posts w ++ extra)%list
                   /\ Forall (fun p => p = request) extra.
Proof.
  destruct (sendRotaNotification_effect w) as [[_ ->] | [_ ->]]; simpl.
  - repeat split; try apply ioOnly_refl.
    exists []. rewrite app_nil_r. auto.
  - repeat split. exists [request]. auto.
Qed.

(** The retry loop changes nothing but the clock, the delays awaited and
    the Slack log, and every request it issues is the same one. *)
Lemma retryLoop_frame (maxRetries remaining : nat) :
  forall (attempt : nat) (lastError : option Js.Error) (w : World),
    let w' :=
      snd (retryLoop env workspaceId channelId userId rotaName customMessage
             assignmentId memberCount maxRetries remaining attempt lastError
             w) in
    ioOnly w w'
    /\ exists extra, posts w' = (posts w ++ extra)%list
                     /\ Forall (fun p => p = request) extra.
Proof.
  induction remaining as [|remaining IH]; intros attempt lastError w; simpl.
  - destruct lastError; simpl; split; try apply ioOnly_refl;
      exists []; rewrite app_nil_r; auto.
  - unfold tryCatch.
    pose proof (sendRotaNotification_frame w) as (Hio & _ & _ & ex & Hp & Hall).
    destruct (send w) as [[ts|e] w1]; simpl in *.
    + split; [assumption|]. exists ex. auto.
    + unfold bind.
      destruct (attempt <? maxRetries)%nat; simpl.
      * match goal with
        | |- context [retryLoop _ _ _ _ _ _ _ _ _ _ ?a ?le ?w0] =>
            specialize (IH a le w0)
        end.
        simpl in IH. destruct IH as (Hio2 & ex2 & Hp2 & Hall2).
        split.
        -- eapply ioOnly_trans; [exact Hio|].
           eapply ioOnly_trans; [|exact Hio2].
           unfold ioOnly; simpl; auto.
        -- exists (ex ++ ex2)%list. split.
           ++ rewrite Hp2. simpl. rewrite Hp. now rewrite app_assoc.
           ++ apply Forall_app; auto.
      * specialize (IH (S attempt) (Some e) w1).
        simpl in IH. destruct IH as (Hio2 & ex2 & Hp2 & Hall2).
        split.
        -- eapply ioOnly_trans; eassumption.
        -- exists (ex ++ ex2)%list. split.
           ++ rewrite Hp2, Hp. now rewrite app_assoc.
           ++ apply Forall_app; auto.
Qed.

Lemma sendNotificationWithRetry_frame (maxRetries : nat) (w : World) :
  let w' :=
    snd (sendNotificationWithRetry env workspaceId channelId userId rotaName
           customMessage assignmentId memberCount maxRetries w) in
  ioOnly w w'
  /\ exists extra, posts w' = (posts w ++ extra)%list
                   /\ Forall (fun p => p = request) extra.
Proof. apply retryLoop_frame. Qed.

(** One iteration of the retry loop. *)
Lemma retryLoop_step (maxRetries remaining attempt : nat)
  (lastError : option Js.Error) (w : World) :
  retryLoop env workspaceId channelId userId rotaName customMessage
    assignmentId memberCount maxRetries (S remaining) attempt lastError w
  = match send w with
    | (Return ts, w1) => (Return ts, w1)
    | (Throw e, w1) =>
        retryLoop env workspaceId channelId userId rotaName customMessage
          assignmentId memberCount maxRetries remaining (S attempt) (Some e)
          (if (attempt <? maxRetries)%nat
           then snd (sleep (backoffDelay attempt) w1) else w1)
    end.
Proof.
  simpl. unfold tryCatch, bind.
  destruct (send w) as [[ts|e] w1]; [reflexivity|].
  destruct (attempt <? maxRetries)%nat; reflexivity.
Qed.

(** C6.  With the default budget of three attempts,
    [sendNotificationWithRetry] returns the message timestamp of the first
    attempt Slack accepts; after each failed attempt but the last it waits
    [2^attempt] seconds, so a delivery that fails twice and then succeeds
    returns the handle after exactly the two delays 2000 ms and 4000 ms;
    and when all three attempts fail (Slack refusing each request, or the
    workspace lookup failing each time) it throws an error whose message
    ends with the message of the last underlying error. *)
Theorem sendNotificationWithRetry_default_budget (w : World) :
  let c := List.length (posts w) in
  let run :=
    sendNotificationWithRetry env workspaceId channelId userId rotaName
      customMessage assignmentId memberCount defaultMaxRetries w in
  (if existsb (String.eqb workspaceId) (workspaces w) then
     match slackPost env c request,
           slackPost env (S c) request,
           slackPost env (S (S c)) request with
     | SlackOk ts, _, _ =>
         fst run = Return ts
         /\ sleeps (snd run) = sleeps w
         /\ posts (snd run) = (posts w ++ [request])%list
     | SlackFail _, SlackOk ts, _ =>
         fst run = Return ts
         /\ sleeps (snd run) = (sleeps w ++ [backoffDelay 1])%list
         /\ posts (snd run) = (posts w ++ [request; request])%list
     | SlackFail _, SlackFail _, SlackOk ts =>
         fst run = Return ts
         /\ sleeps (snd run)
            = (sleeps w ++ [backoffDelay 1; backoffDelay 2])%list
         /\ posts (snd run) = (posts w ++ [request; request; request])%list
     | SlackFail _, SlackFail _, SlackFail msg =>
         fst run =
         Throw (Js.error ("Failed to send notification after 3 attempts: "
                            ++ msg))
         /\ sleeps (snd run)
            = (sleeps w ++ [backoffDelay 1; backoffDelay 2])%list
         /\ posts (snd run) = (posts w ++ [request; request; request])%list
     end
   else
     fst run =
     Throw (Js.error ("Failed to send notification after 3 attempts: "
                        ++ Js.message (noWorkspace workspaceId)))
     /\ sleeps (snd run) = (sleeps w ++ [backoffDelay 1; backoffDelay 2])%list
     /\ posts (snd run) = posts w)
  /\ backoffDelay 1 = 2 * 1000 /\ backoffDelay 2 = 4 * 1000.
Proof.
  intros c run. split; [|split; reflexivity].
  subst run. unfold sendNotificationWithRetry, defaultMaxRetries.
  rewrite retryLoop_step.
  destruct (existsb (String.eqb workspaceId) (workspaces w)) eqn:Hws.
  - destruct (sendRotaNotification_effect w) as [[E _] | [_ E1]];
      [congruence|].
    rewrite E1. fold c.
    destruct (slackPost env c request) as [ts1|m1]; [simpl; auto|].
    (* second attempt *)
    change (1 <? 3)%nat with true. cbv iota.
    set (w1 := snd (sleep (backoffDelay 1) _)).
    assert (Hc1 : List.length (posts w1) = S c).
    { subst w1 c. simpl. rewrite length_app. simpl. lia. }
    rewrite retryLoop_step.
    destruct (sendRotaNotification_effect w1) as [[E _] | [_ E2]];
      [subst w1; simpl in E; congruence|].
    rewrite E2, Hc1.
    destruct (slackPost env (S c) request) as [ts2|m2].
    { subst w1. simpl. rewrite <- app_assoc. auto. }
    (* third attempt *)
    change (2 <? 3)%nat with true. cbv iota.
    set (w2 := snd (sleep (backoffDelay 2) _)).
    assert (Hc2 : List.length (posts w2) = S (S c)).
    { subst w2 w1 c. simpl. rewrite !length_app. simpl. lia. }
    rewrite retryLoop_step.
    destruct (sendRotaNotification_effect w2) as [[E _] | [_ E3]];
      [subst w2 w1; simpl in E; congruence|].
    rewrite E3, Hc2.
    destruct (slackPost env (S (S c)) request) as [ts3|m3].
    { subst w2 w1. simpl. rewrite <- !app_assoc. auto. }
    change (3 <? 3)%nat with false. cbv iota.
    subst w2 w1. simpl. rewrite <- !app_assoc. auto.
  - destruct (sendRotaNotification_effect w) as [[_ E1] | [E _]];
      [|congruence].
    rewrite E1. change (1 <? 3)%nat with true. cbv iota.
    set (w1 := snd (sleep (backoffDelay 1) w)).
    rewrite retryLoop_step.
    destruct (sendRotaNotification_effect w1) as [[_ E2] | [E _]];
      [|subst w1; simpl in E; congruence].
    rewrite E2. change (2 <? 3)%nat with true. cbv iota.
    set (w2 := snd (sleep (backoffDelay 2) w1)).
    rewrite retryLoop_step.
    destruct (sendRotaNotification_effect w2) as [[_ E3] | [E _]];
      [|subst w2 w1; simpl in E; congruence].
    rewrite E3. change (3 <? 3)%nat with false. cbv iota.
    subst w2 w1. simpl. rewrite <- !app_assoc. auto.
Qed.

End RetryFacts.

(** ** Equations of the monad *)

Lemma bind_run {A B : Type} (m : M A) (k : A -> M B) (w : World) :
  bind m k w
  = match m w with
    | (Return a, w') => k a w'
    | (Throw e, w') => (Throw e, w')
    end.
Proof. reflexivity. Qed.

Lemma bind_gets {A B : Type} (f : World -> A) (k : A -> M B) (w : World) :
  bind (gets f) k w = k (f w) w.
Proof. reflexivity. Qed.

Lemma bind_modify {B : Type} (f : World -> World) (k : unit -> M B)
  (w : World) :
  bind (modify f) k w = k tt (f w).
Proof. reflexivity. Qed.

Lemma bind_ret {A B : Type} (a : A) (k : A -> M B) (w : World) :
  bind (ret a) k w = k a w.
Proof. reflexivity. Qed.

Lemma bind_throw {A B : Type} (e : Js.Error) (k : A -> M B) (w : World) :
  bind (throw e) k w = (Throw e, w).
Proof. reflexivity. Qed.

(** One step of a monadic computation: the primitive at its head is run. *)
Ltac mstep :=
  first [ rewrite bind_gets | rewrite bind_modify | rewrite bind_ret
        | rewrite bind_throw | rewrite bind_run ].

(** ** Effects of the store operations *)

Lemma createAssignment_effect (rotaId : Id) (workspaceId : string)
  (userId : option string) (channelId : string) (assignedDate : Instant)
  (w : World) :
  (exists e, createAssignment rotaId workspaceId userId channelId assignedDate w
             = (Throw e, w))
  \/ (exists a u,
        userId = Some u
        /\ createAssignment rotaId workspaceId userId channelId assignedDate w
           = (Return a,
              setNextId (nextId w + 1)
                (setAssignments ((assignments w ++ [a])%list) w))
        /\ a_rotaId a = rotaId /\ a_assignedDate a = assignedDate
        /\ a_userId a = u /\ a_skipped a = false).
Proof.
  unfold createAssignment.
  destruct userId as [u|]; [|left; eexists; reflexivity].
  destruct (String.eqb workspaceId ""); [left; eexists; reflexivity|].
  destruct (String.eqb u ""); [left; eexists; reflexivity|].
  destruct (String.eqb channelId ""); [left; eexists; reflexivity|].
  right. eexists. exists u. repeat split.
Qed.

Lemma notificationBlocks_skip_action (userId : option string)
  (rotaName : string) (customMessage : option Template)
  (assignmentId : option AssignmentRef) (memberCount : Z) :
  existsb isSkipAction
    (notificationBlocks userId rotaName customMessage assignmentId memberCount)
  = truthyRef assignmentId && (1 <? memberCount).
Proof.
  unfold notificationBlocks.
  assert (Hc : forall t : option Template,
             existsb isSkipAction
               match t with
               | Some t0 =>
                   match t_elements t0 with
                   | Some (_ :: _) =>
                       [DividerBlock; CustomBlock t0 userId rotaName]
                   | _ => []
                   end
               | None => []
               end = false).
  { intros [t|]; [|reflexivity].
    destruct (t_elements t) as [[|x l]|]; reflexivity. }
  simpl. rewrite existsb_app, Hc. simpl.
  destruct assignmentId as [ref|]; [|reflexivity].
  destruct (truthyRef (Some ref) && (1 <? memberCount)); reflexivity.
Qed.

Lemma find_updateFirst {A : Type} (p : A -> bool) (f : A -> A) (l : list A) :
  (forall x, p (f x) = p x) ->
  find p (Store.updateFirst p f l) = option_map f (find p l).
Proof.
  intros Hp. induction l as [|x l IH]; simpl; [reflexivity|].
  destruct (p x) eqn:E; simpl.
  - now rewrite Hp, E.
  - now rewrite E.
Qed.

Lemma saveCurrentIndex_stored (id : Id) (idx : Z) (w : World) :
  storedCursor id (snd (Store.saveCurrentIndex id idx w))
  = option_map (fun _ => idx) (Store.findRotaById id w).
Proof.
  unfold storedCursor, Store.findRotaById, Store.saveCurrentIndex, modify.
  simpl. rewrite find_updateFirst by reflexivity.
  destruct (find (fun r => r_id r =? id) (rotas w)); reflexivity.
Qed.

Lemma findRota_of_stored (rota : Rota) (w : World) :
  Store.findRotaById (r_id rota) w = Some rota ->
  Store.findRota (r_id rota) (r_workspaceId rota) w = Some rota.
Proof.
  unfold Store.findRotaById, Store.findRota.
  induction (rotas w) as [|r l IH]; simpl; [discriminate|].
  destruct (r_id r =? r_id rota) eqn:E; simpl.
  - intros H. injection H as ->. now rewrite String.eqb_refl.
  - exact IH.
Qed.

(** [getNextAssignment] on a stored rota with members. *)
Lemma getNextAssignment_stored (rota : Rota) (w : World) :
  Store.findRotaById (r_id rota) w = Some rota ->
  r_members rota <> [] ->
  getNextAssignment (r_id rota) (r_workspaceId rota) w
  = (Return (mkNextAssignment
               (Js.index (r_members rota) (r_currentIndex rota))
               (r_name rota) (r_channelId rota)),
     snd (Store.saveCurrentIndex (r_id rota)
            (Js.rem (r_currentIndex rota + 1)
               (Z.of_nat (List.length (r_members rota)))) w)).
Proof.
  intros Hst Hne. unfold getNextAssignment, bind, getRotaById.
  rewrite (findRota_of_stored rota w Hst).
  destruct (r_members rota) as [|m ms] eqn:Em; [congruence|].
  reflexivity.
Qed.

Lemma existsb_false_filter {A : Type} (p : A -> bool) (l : list A) :
  existsb p l = false -> filter p l = [].
Proof.
  induction l as [|x l IH]; simpl; [reflexivity|].
  destruct (p x); simpl; [discriminate | exact IH].
Qed.

Lemma usedToday_fresh (rota : Rota) (date : Instant) (w : World) :
  assignmentExistsForToday (r_id rota) date w = false ->
  usedToday rota date w = [].
Proof.
  unfold assignmentExistsForToday, usedToday, getAssignmentsForDate.
  intros H. now rewrite (existsb_false_filter _ _ H).
Qed.

Lemma map_updateFirst {A B : Type} (g : A -> B) (p : A -> bool) (f : A -> A)
  (l : list A) :
  (forall x, g (f x) = g x) ->
  map g (Store.updateFirst p f l) = map g l.
Proof.
  intros Hg. induction l as [|x l IH]; simpl; [reflexivity|].
  destruct (p x); simpl; [now rewrite Hg | now rewrite IH].
Qed.

Section SkipFacts.

Variable env : Env.

(** What one skip does to the Slack log and to the rota collection. *)
Lemma performSkip_effect (assignment : RotaAssignment) (by_ : string)
  (w : World) :
  let w' := snd (performSkip env assignment by_ w) in
  (exists extra,
      posts w' = (posts w ++ extra)%list
      /\ Forall (fun p => existsb isSkipAction (p_blocks p) = false) extra)
  /\ (rotas w' = rotas w
      \/ exists rota i u,
           Store.findRotaById (a_rotaId assignment) w = Some rota
           /\ np_newIndex
                (getNextAvailablePerson rota (a_assignedDate assignment) w)
              = Some i
           /\ np_userId
                (getNextAvailablePerson rota (a_assignedDate assignment) w)
              = Some u
           /\ rotas w' = rotas (snd (Store.saveCurrentIndex (r_id rota) i w))).
Proof.
  assert (Hnil : forall w0 : World,
             exists extra,
               posts w0 = (posts w0 ++ extra)%list
               /\ Forall (fun p => existsb isSkipAction (p_blocks p) = false)
                    extra).
  { intros w0. exists []. rewrite app_nil_r. auto. }
  intros w'. subst w'.
  unfold performSkip. rewrite bind_gets.
  destruct (Store.findRotaById (a_rotaId assignment) w) as [rota|] eqn:Hr;
    [|simpl; split; [apply Hnil | left; reflexivity]].
  rewrite bind_gets.
  set (np := getNextAvailablePerson rota (a_assignedDate assignment) w).
  assert (Hright : forall w0 i u,
            np_newIndex np = Some i -> np_userId np = Some u ->
            rotas w0 = rotas (snd (Store.saveCurrentIndex (r_id rota) i w)) ->
            rotas w0 = rotas w
            \/ exists rota0 i0 u0,
                 Some rota = Some rota0
                 /\ np_newIndex
                      (getNextAvailablePerson rota0
                         (a_assignedDate assignment) w) = Some i0
                 /\ np_userId
                      (getNextAvailablePerson rota0
                         (a_assignedDate assignment) w) = Some u0
                 /\ rotas w0
                    = rotas (snd (Store.saveCurrentIndex (r_id rota0) i0 w))).
  { intros w0 i u Hi Hu H0. right. exists rota, i, u. auto. }
  rewrite bind_run.
  destruct (createAssignment_effect (a_rotaId assignment)
              (a_workspaceId assignment) (np_userId np)
              (a_channelId assignment) (a_assignedDate assignment) w)
    as [[e ->] | (a' & u & Hu & -> & _)];
    [simpl; split; [apply Hnil | left; reflexivity]|].
  unfold markSkipped. rewrite bind_modify.
  set (w2 := setAssignments _ _).
  assert (Hrot2 : rotas w2 = rotas w) by reflexivity.
  assert (Hpost2 : posts w2 = posts w) by reflexivity.
  clearbody w2.
  destruct (np_newIndex np) as [i|] eqn:Hi;
    [|rewrite bind_throw; simpl; split;
      [rewrite Hpost2; apply Hnil | left; exact Hrot2]].
  unfold Store.saveCurrentIndex. rewrite bind_modify.
  set (w3 := setRotas _ w2).
  assert (Hrot3 : rotas w3
                  = rotas (snd (Store.saveCurrentIndex (r_id rota) i w)))
    by (subst w3; simpl; now rewrite Hrot2).
  assert (Hpost3 : posts w3 = posts w) by (subst w3; simpl; exact Hpost2).
  clearbody w3.
  rewrite bind_run.
  pose proof (getSlackClient_world (a_workspaceId assignment) w3) as Hw4.
  destruct (getSlackClient (a_workspaceId assignment) w3) as [[[]|e] w4];
    simpl in Hw4; subst w4.
  2:{ simpl. split; [rewrite Hpost3; apply Hnil | eapply Hright; eauto]. }
  unfold updateSkippedMessage. rewrite bind_ret. rewrite bind_run.
  pose proof (sendNotificationWithRetry_frame env (a_workspaceId assignment)
                (a_channelId assignment) (np_userId np) (r_name rota)
                (r_customMessage rota) defaultAssignmentId defaultMemberCount
                defaultMaxRetries w3) as (Hio & extra & Hp & Hall).
  destruct (sendNotificationWithRetry env (a_workspaceId assignment)
              (a_channelId assignment) (np_userId np) (r_name rota)
              (r_customMessage rota) defaultAssignmentId defaultMemberCount
              defaultMaxRetries w3) as [[ts|e] w5]; simpl in Hio, Hp.
  - unfold markAsNotified. rewrite bind_modify. simpl.
    split.
    + exists extra. rewrite Hp, Hpost3. split; [reflexivity|].
      eapply Forall_impl; [|exact Hall]. intros p ->. unfold notificationRequest. cbn [p_blocks].
      rewrite notificationBlocks_skip_action. reflexivity.
    + eapply Hright; eauto. simpl. etransitivity; [apply Hio | exact Hrot3].
  - simpl. split.
    + exists extra. rewrite Hp, Hpost3. split; [reflexivity|].
      eapply Forall_impl; [|exact Hall]. intros p ->. unfold notificationRequest. cbn [p_blocks].
      rewrite notificationBlocks_skip_action. reflexivity.
    + eapply Hright; eauto. simpl. etransitivity; [apply Hio | exact Hrot3].
Qed.

(** A skip on a stored rota either fails before anything is written, or
    appends a record for the member [getNextAvailablePerson] returned and
    stores the index returned with it. *)
Lemma performSkip_cursor (assignment : RotaAssignment) (by_ : string)
  (w : World) (rota : Rota) (u : string) (i : Z) :
  Store.findRotaById (a_rotaId assignment) w = Some rota ->
  getNextAvailablePerson rota (a_assignedDate assignment) w
  = mkNextPerson (Some u) (Some i) ->
  let w' := snd (performSkip env assignment by_ w) in
  (exists e, performSkip env assignment by_ w = (Throw e, w))
  \/ (rotas w' = rotas (snd (Store.saveCurrentIndex (r_id rota) i w))
      /\ map a_userId (assignments w')
         = (map a_userId (assignments w) ++ [u])%list).
Proof.
  intros Hr Hnp w'. subst w'.
  unfold performSkip. rewrite bind_gets, Hr, bind_gets, Hnp.
  cbn [np_userId np_newIndex]. rewrite bind_run.
  destruct (createAssignment_effect (a_rotaId assignment)
              (a_workspaceId assignment) (Some u)
              (a_channelId assignment) (a_assignedDate assignment) w)
    as [[e ->] | (a' & u' & Hu & -> & _ & _ & Hua & _)];
    [left; exists e; reflexivity|].
  injection Hu as <-. right.
  unfold markSkipped. rewrite bind_modify.
  unfold Store.saveCurrentIndex. rewrite bind_modify.
  set (w3 := setRotas _ _).
  assert (Hrot3 : rotas w3
                  = rotas (snd (Store.saveCurrentIndex (r_id rota) i w)))
    by reflexivity.
  assert (Has3 : map a_userId (assignments w3)
                 = (map a_userId (assignments w) ++ [u])%list).
  { subst w3. simpl. rewrite map_updateFirst by reflexivity.
    rewrite map_app. simpl. now rewrite Hua. }
  clearbody w3.
  rewrite bind_run.
  pose proof (getSlackClient_world (a_workspaceId assignment) w3) as Hw4.
  destruct (getSlackClient (a_workspaceId assignment) w3) as [[[]|e] w4];
    simpl in Hw4; subst w4; [|simpl; split; assumption].
  unfold updateSkippedMessage. rewrite bind_ret. rewrite bind_run.
  pose proof (sendNotificationWithRetry_frame env (a_workspaceId assignment)
                (a_channelId assignment) (Some u) (r_name rota)
                (r_customMessage rota) defaultAssignmentId defaultMemberCount
                defaultMaxRetries w3) as ((Hio & Hia & _) & _).
  destruct (sendNotificationWithRetry env (a_workspaceId assignment)
              (a_channelId assignment) (Some u) (r_name rota)
              (r_customMessage rota) defaultAssignmentId defaultMemberCount
              defaultMaxRetries w3) as [[ts|e] w5]; simpl in Hio, Hia.
  - unfold markAsNotified. rewrite bind_modify. simpl.
    rewrite map_updateFirst by reflexivity. rewrite Hio, Hia. auto.
  - simpl. rewrite Hio, Hia. auto.
Qed.

(** C10.  A notification carries the skip action exactly when an assignment
    id is handed over and the member count exceeds one; [performSkip]
    requests the replacement notification without either (they default to
    [null] and [1]), so no message a skip posts carries a skip action. *)
Theorem skip_replacement_without_skip_action (assignment : RotaAssignment)
  (skippedByUserId : string) (w : World) :
  (forall userId rotaName customMessage assignmentId memberCount,
      existsb isSkipAction
        (notificationBlocks userId rotaName customMessage assignmentId
           memberCount)
      = truthyRef assignmentId && (1 <? memberCount))
  /\ defaultAssignmentId = None /\ defaultMemberCount = 1
  /\ exists extra,
       posts (snd (performSkip env assignment skippedByUserId w))
       = (posts w ++ extra)%list
       /\ Forall (fun p => existsb isSkipAction (p_blocks p) = false) extra.
Proof.
  split; [exact notificationBlocks_skip_action|].
  split; [reflexivity|]. split; [reflexivity|].
  exact (proj1 (performSkip_effect assignment skippedByUserId w)).
Qed.

End SkipFacts.

(** ** The two cursor disciplines *)

(** C9 (as amended).  On a stored rota with a non-empty member list and a
    cursor between 0 and [Js.maxSafeInteger]: the scheduling path stores
    [(cursor + 1) mod n], which lies in [0, n), and reads the member at the
    cursor as it stands, without wrapping it.  A skip either fails before it
    writes anything, or appends a record for the member
    [getNextAvailablePerson] selected and stores the index of that member,
    which lies in [0, n).  [getNextAvailablePerson] tolerates an
    out-of-range cursor by wrapping: it examines the indices
    [(cursor + 1 + j) mod n] for [j = 0, 1, ...] and returns the first whose
    member has no record that day, or the one at [(cursor + 1) mod n] when
    all [n] have. *)
Theorem cursor_mutations_stay_in_range (env : Env) (w : World) (rota : Rota)
  (Hstored : Store.findRotaById (r_id rota) w = Some rota)
  (Hmembers : r_members rota <> [])
  (Hcursor : 0 <= r_currentIndex rota <= Js.maxSafeInteger) :
  let members := r_members rota in
  let n := Z.of_nat (List.length members) in
  let cursor := r_currentIndex rota in
  (exists res w',
      getNextAssignment (r_id rota) (r_workspaceId rota) w = (Return res, w')
      /\ na_userId res = Js.index members cursor
      /\ storedCursor (r_id rota) w' = Some ((cursor + 1) mod n)
      /\ 0 <= (cursor + 1) mod n < n)
  /\ (forall assignment skippedByUserId,
         a_rotaId assignment = r_id rota ->
         let w' := snd (performSkip env assignment skippedByUserId w) in
         (exists e,
             performSkip env assignment skippedByUserId w = (Throw e, w))
         \/ exists i u,
              getNextAvailablePerson rota (a_assignedDate assignment) w
              = mkNextPerson (Some u) (Some i)
              /\ Js.index members i = Some u
              /\ 0 <= i < n
              /\ storedCursor (r_id rota) w' = Some i
              /\ map a_userId (assignments w')
                 = (map a_userId (assignments w) ++ [u])%list)
  /\ (forall date,
         let used := usedToday rota date w in
         exists i u,
           getNextAvailablePerson rota date w = mkNextPerson (Some u) (Some i)
           /\ Js.index members i = Some u
           /\ 0 <= i < n
           /\ ((exists k : nat,
                  (k < List.length members)%nat
                  /\ i = (cursor + 1 + Z.of_nat k) mod n
                  /\ ~ In u used
                  /\ forall j, (j < k)%nat ->
                       usedAt members used ((cursor + 1 + Z.of_nat j) mod n))
               \/ ((forall j, (j < List.length members)%nat ->
                      usedAt members used ((cursor + 1 + Z.of_nat j) mod n))
                   /\ i = (cursor + 1) mod n))).
Proof.
  cbv zeta.
  assert (Hn : 0 < Z.of_nat (List.length (r_members rota)))
    by (destruct (r_members rota); [congruence | simpl; lia]).
  assert (Hnp : forall date,
             exists i u,
               getNextAvailablePerson rota date w
               = mkNextPerson (Some u) (Some i)
               /\ Js.index (r_members rota) i = Some u
               /\ 0 <= i < Z.of_nat (List.length (r_members rota))
               /\ ((exists k : nat,
                      (k < List.length (r_members rota))%nat
                      /\ i = candidate (r_members rota) (r_currentIndex rota) k
                      /\ ~ In u (usedToday rota date w)
                      /\ forall j, (j < k)%nat ->
                           usedAt (r_members rota) (usedToday rota date w)
                             (candidate (r_members rota)
                                (r_currentIndex rota) j))
                   \/ ((forall j, (j < List.length (r_members rota))%nat ->
                          usedAt (r_members rota) (usedToday rota date w)
                            (candidate (r_members rota)
                               (r_currentIndex rota) j))
                       /\ i = candidate (r_members rota)
                                (r_currentIndex rota) 0))).
  { intros date.
    destruct (getNextAvailablePerson_spec w rota date Hmembers (proj1 Hcursor))
      as (i & u & Hi & Hu & Hm & Hcase).
    exists i, u.
    split; [destruct (getNextAvailablePerson rota date w); simpl in *;
            congruence|].
    split; [exact Hm|]. split; [eapply index_Some; exact Hm | exact Hcase]. }
  split; [|split].
  - eexists. eexists.
    split; [apply getNextAssignment_stored; assumption|].
    split; [reflexivity|].
    rewrite saveCurrentIndex_stored, Hstored. simpl option_map.
    rewrite rem_mod by lia.
    split; [reflexivity|]. apply Z.mod_pos_bound. lia.
  - intros assignment by_ Hid.
    destruct (Hnp (a_assignedDate assignment)) as (i & u & Hres & Hm & Hi & _).
    rewrite <- Hid in Hstored.
    destruct (performSkip_cursor env assignment by_ w rota u i Hstored Hres)
      as [Hfail | [Hrot Hrec]]; [left; exact Hfail|].
    right. exists i, u. repeat split; try assumption; try apply Hi.
    pose proof (saveCurrentIndex_stored (r_id rota) i w) as Hs.
    unfold storedCursor, Store.findRotaById in *.
    rewrite Hrot, Hs. rewrite <- Hid, Hstored. reflexivity.
  - intros date.
    destruct (Hnp date) as (i & u & Hres & Hm & Hi & Hcase).
    exists i, u. repeat split; try assumption; try apply Hi.
    unfold candidate in Hcase.
    destruct Hcase as [Hk | [Hall Hi0]]; [left; exact Hk|].
    right. split; [exact Hall|]. rewrite Hi0. f_equal. simpl. lia.
Qed.

(** ** The eligibility gate *)

Lemma shouldExecuteToday_unfold (env : Env) (rota : Rota) (t : Instant) :
  shouldExecuteToday env rota t
  = dateMatches env rota t
    && (notificationTimeInMinutes rota <=? currentTimeInMinutes env rota t).
Proof.
  unfold shouldExecuteToday. destruct (dateMatches env rota t); reflexivity.
Qed.

(** The first occurrence of a daily series that is not before [t] falls
    within a day of [t], at the time of day of the series. *)
Lemma dailyAfter_spec (dtstart t : Instant) :
  dtstart <= t ->
  exists occ,
    Rrule.dailyAfter dtstart t = Some occ
    /\ t <= occ < t + msPerDay
    /\ occ mod msPerDay = dtstart mod msPerDay.
Proof.
  intros Hle. unfold Rrule.dailyAfter.
  destruct (t <=? dtstart) eqn:E.
  - apply Z.leb_le in E. exists dtstart. unfold msPerDay.
    repeat split; try reflexivity; lia.
  - apply Z.leb_gt in E. eexists. split; [reflexivity|].
    split; [|apply Z.mod_add; discriminate].
    pose proof (Z.div_mod (t - dtstart + (msPerDay - 1)) msPerDay
                  ltac:(discriminate)) as Hdm.
    pose proof (Z.mod_pos_bound (t - dtstart + (msPerDay - 1)) msPerDay
                  eq_refl) as Hb.
    unfold msPerDay in *. lia.
Qed.

(** On a daily rule whose series started at [dtstart], the date test of the
    gate holds at [t] exactly when the time of day of [t] is not past the
    time of day of [dtstart]: later in the day the first occurrence not
    before [t] is tomorrow's. *)
Lemma dateMatches_daily (env : Env) (rota : Rota) (dtstart t : Instant) :
  rruleAfter env (s_rrule (r_schedule rota)) t = Rrule.dailyAfter dtstart t ->
  dtstart <= t ->
  dateMatches env rota t = (t mod msPerDay <=? dtstart mod msPerDay).
Proof.
  intros Hrule Hle. unfold dateMatches. rewrite Hrule.
  destruct (dailyAfter_spec dtstart t Hle) as (occ & -> & Hocc & Hmod).
  cbv zeta. unfold startOfDay. rewrite <- Hmod.
  pose proof (Z.div_mod occ msPerDay ltac:(discriminate)) as Ho.
  pose proof (Z.div_mod t msPerDay ltac:(discriminate)) as Ht.
  pose proof (Z.mod_pos_bound occ msPerDay eq_refl) as Hbo.
  pose proof (Z.mod_pos_bound t msPerDay eq_refl) as Hbt.
  unfold msPerDay in *.
  destruct (t mod 86400000 <=? occ mod 86400000) eqn:E.
  - apply Z.leb_le in E. apply andb_true_iff.
    split; [apply Z.leb_le | apply Z.ltb_lt]; lia.
  - apply Z.leb_gt in E. apply andb_false_iff. right. apply Z.ltb_ge. lia.
Qed.

(** C2.  The gate is not monotonic within the day.  [getNextOccurrence] asks
    the library for the first occurrence that is not before now, and
    [shouldExecuteToday] compares the day of the answer with today; once the
    rule's time of day has passed the answer is tomorrow's occurrence.  For
    the rota [standup], on a daily rule whose series started at noon and to
    be notified at 10:00, the gate is shut at 9:45, open from 10:00 to
    12:00, and shut again from 12:01 to the end of the same day; a cycle
    run at 15:00 passes over the rota and records nothing.  For the rule
    [generateRRule] writes, whose series starts at midnight, the gate of a
    rota to be notified at 00:00 is open at 00:00 and shut one minute
    later, and the gate of a rota to be notified at 10:00 is shut at every
    minute of the day. *)
Theorem gate_closes_after_rule_time :
  map (shouldExecuteToday Fixtures.envUp Fixtures.standup)
      [Fixtures.at_ 9 45; Fixtures.at_ 10 0; Fixtures.at_ 12 0;
       Fixtures.at_ 12 1; Fixtures.at_ 15 0; Fixtures.at_ 23 59]
  = [false; true; true; false; false; false]
  /\ startOfDay (Fixtures.at_ 10 0) = startOfDay (Fixtures.at_ 15 0)
  /\ processAllRotas Fixtures.envUp Fixtures.missedStandup
     = (Return (Some (mkResults 1 0 1 0 [])), Fixtures.missedStandup)
  /\ map (shouldExecuteToday Fixtures.envUp Fixtures.nightly)
         [Fixtures.at_ 0 0; Fixtures.at_ 0 1; Fixtures.at_ 10 0]
     = [true; false; false]
  /\ forallb
       (fun hm =>
          negb (shouldExecuteToday Fixtures.envUp Fixtures.review
                  (Fixtures.at_ (fst hm) (snd hm))))
       clockTimes = true.
Proof. vm_compute. repeat split; reflexivity. Qed.

(** ** The ledger under the scheduling cycle *)

Lemma inDay_same_day (d1 d2 : Instant) (a : RotaAssignment) :
  startOfDay d1 = startOfDay d2 -> Store.inDay d1 a = Store.inDay d2 a.
Proof. intros H. unfold Store.inDay, endOfDay. now rewrite H. Qed.

Lemma exists_same_day (id : Id) (d1 d2 : Instant) (w : World) :
  startOfDay d1 = startOfDay d2 ->
  assignmentExistsForToday id d1 w = assignmentExistsForToday id d2 w.
Proof.
  intros H. unfold assignmentExistsForToday.
  induction (assignments w) as [|a l IH]; simpl; [reflexivity|].
  unfold Store.forRotaOnDay at 1 3. now rewrite (inDay_same_day d1 d2 a H), IH.
Qed.

Lemma dayCount_positive (id : Id) (date : Instant) (w : World) :
  assignmentExistsForToday id date w = true <-> (0 < dayCount id date w)%nat.
Proof.
  unfold assignmentExistsForToday, dayCount.
  induction (assignments w) as [|a l IH]; simpl.
  - split; [discriminate | lia].
  - destruct (Store.forRotaOnDay id date a); simpl; [split; auto; lia | exact IH].
Qed.

Lemma filter_updateFirst_length {A : Type} (q p : A -> bool) (f : A -> A)
  (l : list A) :
  (forall x, q (f x) = q x) ->
  List.length (filter q (Store.updateFirst p f l)) = List.length (filter q l).
Proof.
  intros Hq. induction l as [|x l IH]; simpl; [reflexivity|].
  destruct (p x); simpl.
  - rewrite Hq. destruct (q x); reflexivity.
  - destruct (q x); simpl; now rewrite IH.
Qed.

Lemma existsb_updateFirst {A : Type} (q p : A -> bool) (f : A -> A)
  (l : list A) :
  (forall x, q (f x) = q x) ->
  existsb q (Store.updateFirst p f l) = existsb q l.
Proof.
  intros Hq. induction l as [|x l IH]; simpl; [reflexivity|].
  destruct (p x); simpl.
  - rewrite Hq. reflexivity.
  - now rewrite IH.
Qed.

Lemma getNextAssignment_frame (rotaId : Id) (workspaceId : string) (w : World) :
  let w' := snd (getNextAssignment rotaId workspaceId w) in
  assignments w' = assignments w /\ now w' = now w /\ posts w' = posts w
  /\ isRunning w' = isRunning w.
Proof.
  unfold getNextAssignment. rewrite bind_run. unfold getRotaById.
  destruct (Store.findRota rotaId workspaceId w) as [rota|]; [|simpl; auto].
  destruct (List.length (r_members rota) =? 0)%nat; simpl; auto.
Qed.

Section CycleFacts.

Variable env : Env.

(** The [catch] block of [processRota] cannot name [rotaId]. *)
Lemma processRotaCatch_throws (rota : Rota) (error : Js.Error) (w : World) :
  processRotaCatch rota error w = (Throw (Js.referenceError "rotaId"), w).
Proof. reflexivity. Qed.

Lemma processRota_skips (rota : Rota) (w : World) :
  assignmentExistsForToday (r_id rota) (now w) w = true ->
  processRota env rota w = (Return (Skipped "already_assigned"), w).
Proof.
  intros Hex. unfold processRota, tryCatch, processRotaTry.
  rewrite !bind_gets, Hex. reflexivity.
Qed.

(** What the [try] block does to the ledger: nothing, or one record for
    this rota dated now, appended when none existed for today, and later
    possibly marked as notified. *)
Lemma processRotaTry_ledger (rota : Rota) (w : World) :
  let o := fst (processRotaTry env rota w) in
  let w' := snd (processRotaTry env rota w) in
  isRunning w' = isRunning w
  /\ ((assignments w' = assignments w
       /\ forall id u ts, o <> Return (Processed id u ts))
      \/ (assignmentExistsForToday (r_id rota) (now w) w = false
          /\ exists a p f,
               a_rotaId a = r_id rota /\ a_assignedDate a = now w
               /\ (forall x, a_rotaId (f x) = a_rotaId x
                             /\ a_assignedDate (f x) = a_assignedDate x)
               /\ (assignments w' = (assignments w ++ [a])%list
                   \/ assignments w'
                      = Store.updateFirst p f (assignments w ++ [a])%list))).
Proof.
  unfold processRotaTry. rewrite !bind_gets.
  destruct (assignmentExistsForToday (r_id rota) (now w) w) eqn:Hex.
  { simpl. split; [reflexivity|]. left. split; [reflexivity|]. discriminate. }
  rewrite bind_run.
  pose proof (getNextAssignment_frame (r_id rota) (r_workspaceId rota) w)
    as (Ha1 & Hn1 & _ & Hr1).
  destruct (getNextAssignment (r_id rota) (r_workspaceId rota) w)
    as [[next|e] w1]; simpl in Ha1, Hn1, Hr1.
  2:{ simpl. split; [assumption|]. left. split; [assumption|]. discriminate. }
  rewrite bind_gets, bind_run.
  destruct (createAssignment_effect (r_id rota) (r_workspaceId rota)
              (na_userId next) (na_channelId next) (now w1) w1)
    as [[e ->] | (a & u & Hu & -> & Hid & Hdate & _)].
  { simpl. split; [assumption|]. left. split; [assumption|]. discriminate. }
  set (w2 := setNextId _ _).
  assert (Ha2 : assignments w2 = (assignments w ++ [a])%list)
    by (subst w2; simpl; now rewrite Ha1).
  assert (Hr2 : isRunning w2 = isRunning w) by (subst w2; simpl; exact Hr1).
  clearbody w2.
  rewrite bind_run.
  match goal with
  | |- context [sendNotificationWithRetry env ?ws ?ch ?us ?nm ?cm ?ai ?mc ?mr w2] =>
      pose proof (sendNotificationWithRetry_frame env ws ch us nm cm ai mc mr w2)
        as (Hio & _);
      destruct (sendNotificationWithRetry env ws ch us nm cm ai mc mr w2)
        as [[ts|e] w3]
  end; simpl in Hio; destruct Hio as (_ & Ha3 & _ & _ & Hr3).
  - unfold markAsNotified. rewrite bind_modify. simpl.
    split; [congruence|]. right. split; [reflexivity|].
    eexists a, _, _. split; [exact Hid|]. split; [congruence|].
    split; [|right; rewrite Ha3, Ha2; reflexivity].
    intros x. split; reflexivity.
  - simpl. split; [congruence|]. right. split; [reflexivity|].
    exists a, (fun _ => false), (fun x => x).
    split; [exact Hid|]. split; [congruence|].
    split; [intros x; split; reflexivity|].
    left. congruence.
Qed.

Lemma processRota_ledger (rota : Rota) (w : World) :
  let o := fst (processRota env rota w) in
  let w' := snd (processRota env rota w) in
  isRunning w' = isRunning w
  /\ ((assignments w' = assignments w
       /\ forall id u ts, o <> Return (Processed id u ts))
      \/ (assignmentExistsForToday (r_id rota) (now w) w = false
          /\ exists a p f,
               a_rotaId a = r_id rota /\ a_assignedDate a = now w
               /\ (forall x, a_rotaId (f x) = a_rotaId x
                             /\ a_assignedDate (f x) = a_assignedDate x)
               /\ (assignments w' = (assignments w ++ [a])%list
                   \/ assignments w'
                      = Store.updateFirst p f (assignments w ++ [a])%list))).
Proof.
  pose proof (processRotaTry_ledger rota w) as H.
  unfold processRota, tryCatch.
  destruct (processRotaTry env rota w) as [[r|e] w1]; [exact H|].
  rewrite processRotaCatch_throws. simpl in *.
  destruct H as [Hr [[Ha _] | Hb]]; split; try assumption.
  - left. split; [assumption | discriminate].
  - right. exact Hb.
Qed.

Lemma forRotaOnDay_stable (id : Id) (date : Instant)
  (f : RotaAssignment -> RotaAssignment) :
  (forall x, a_rotaId (f x) = a_rotaId x
             /\ a_assignedDate (f x) = a_assignedDate x) ->
  forall x, Store.forRotaOnDay id date (f x) = Store.forRotaOnDay id date x.
Proof.
  intros Hf x. destruct (Hf x) as [H1 H2].
  unfold Store.forRotaOnDay, Store.inDay. now rewrite H1, H2.
Qed.

(** Processing any rota leaves alone the record count of a rota and day
    that already has a record. *)
Lemma processRota_dayCount (rota : Rota) (w : World) (id : Id)
  (date : Instant) :
  assignmentExistsForToday id date w = true ->
  dayCount id date (snd (processRota env rota w)) = dayCount id date w.
Proof.
  intros Hex.
  destruct (processRota_ledger rota w)
    as [_ [[Ha _] | (Hno & a & p & f & Hid & Hdate & Hf & Hcase)]].
  - unfold dayCount. now rewrite Ha.
  - assert (Hout : Store.forRotaOnDay id date a = false).
    { destruct (Store.forRotaOnDay id date a) eqn:E; [|reflexivity].
      unfold Store.forRotaOnDay in E. apply andb_true_iff in E.
      destruct E as [E1 E2]. apply Z.eqb_eq in E1.
      unfold Store.inDay in E2. apply andb_true_iff in E2.
      destruct E2 as [E2 E3]. apply Z.leb_le in E2, E3.
      assert (Hsame : startOfDay (now w) = startOfDay date)
        by (apply startOfDay_unique; rewrite <- Hdate; lia).
      rewrite (exists_same_day (r_id rota) (now w) date w Hsame) in Hno.
      congruence. }
    unfold dayCount.
    destruct Hcase as [-> | ->].
    + rewrite filter_app, length_app. simpl. rewrite Hout. simpl. lia.
    + rewrite filter_updateFirst_length
        by (apply forRotaOnDay_stable; exact Hf).
      rewrite filter_app, length_app. simpl. rewrite Hout. simpl. lia.
Qed.

Lemma processEach_dayCount (id : Id) (date : Instant) (rotas : list Rota) :
  forall (results : CycleResults) (w : World),
    assignmentExistsForToday id date w = true ->
    dayCount id date (snd (processEach env rotas results w))
    = dayCount id date w.
Proof.
  induction rotas as [|rota rest IH]; intros results w Hex; [reflexivity|].
  cbn [processEach]. rewrite bind_gets.
  destruct (shouldExecuteToday env rota (now w)); cbn [negb];
    [|apply IH; exact Hex].
  rewrite bind_run.
  pose proof (processRota_dayCount rota w id date Hex) as Hc.
  destruct (processRota env rota w) as [[r|e] w1]; simpl in Hc;
    [|exact Hc].
  assert (Hex1 : assignmentExistsForToday id date w1 = true).
  { apply dayCount_positive. rewrite Hc. now apply dayCount_positive. }
  destruct r; rewrite IH by exact Hex1; exact Hc.
Qed.

Lemma processAllRotas_dayCount (id : Id) (date : Instant) (w : World) :
  assignmentExistsForToday id date w = true ->
  dayCount id date (snd (processAllRotas env w)) = dayCount id date w.
Proof.
  intros Hex. unfold processAllRotas. rewrite bind_gets.
  destruct (isRunning w); [reflexivity|].
  rewrite bind_modify. unfold tryFinally. rewrite bind_gets.
  destruct (List.length (Store.findActiveRotas (setIsRunning true w)) =? 0)%nat;
    [reflexivity|].
  rewrite bind_run.
  pose proof (processEach_dayCount id date
                (Store.findActiveRotas (setIsRunning true w))
                (mkResults
                   (List.length (Store.findActiveRotas (setIsRunning true w)))
                   0 0 0 [])
                (setIsRunning true w) Hex) as Hc.
  destruct (processEach env _ _ (setIsRunning true w)) as [[r|e] w1];
    simpl in *; exact Hc.
Qed.

(** A rota that was processed to completion has a record for that day. *)
Lemma processRota_leaves_record (rota : Rota) (w : World) (id : Id)
  (u : option string) (ts : string) :
  fst (processRota env rota w) = Return (Processed id u ts) ->
  forall t, startOfDay t = startOfDay (now w) ->
    assignmentExistsForToday (r_id rota) t
      (setNow t (snd (processRota env rota w))) = true.
Proof.
  intros Hok t Ht.
  destruct (processRota_ledger rota w)
    as [_ [[_ Hnot] | (_ & a & p & f & Hid & Hdate & Hf & Hcase)]];
    [exfalso; eapply Hnot; exact Hok|].
  assert (Hin : Store.forRotaOnDay (r_id rota) t a = true).
  { unfold Store.forRotaOnDay, Store.inDay. rewrite Hid, Hdate, Z.eqb_refl.
    simpl. pose proof (startOfDay_le (now w)) as Hb.
    unfold endOfDay in *. rewrite Ht.
    apply andb_true_iff. split; apply Z.leb_le; lia. }
  unfold assignmentExistsForToday. simpl.
  destruct Hcase as [-> | ->].
  - rewrite existsb_app. simpl. rewrite Hin. now rewrite orb_true_r.
  - rewrite existsb_updateFirst by (apply forRotaOnDay_stable; exact Hf).
    rewrite existsb_app. simpl. rewrite Hin. now rewrite orb_true_r.
Qed.

(** A rota that already has its record for the day is counted under
    [skipped], whether the gate is open for it or not. *)
Lemma processEach_skips (rota : Rota) (rest : list Rota)
  (results : CycleResults) (w : World) :
  assignmentExistsForToday (r_id rota) (now w) w = true ->
  processEach env (rota :: rest) results w
  = processEach env rest
      (mkResults (total results) (processed results) (S (skipped results))
                 (failed results) (errors results)) w.
Proof.
  intros Hex. cbn [processEach]. rewrite bind_gets.
  destruct (shouldExecuteToday env rota (now w)); cbn [negb];
    [|reflexivity].
  rewrite bind_run, (processRota_skips rota w Hex). reflexivity.
Qed.

Lemma processEach_all_skipped (rotas : list Rota) :
  forall (results : CycleResults) (w : World),
    (forall r, In r rotas ->
               assignmentExistsForToday (r_id r) (now w) w = true) ->
    processEach env rotas results w
    = (Return (mkResults (total results) (processed results)
                         (skipped results + List.length rotas)
                         (failed results) (errors results)), w).
Proof.
  induction rotas as [|rota rest IH]; intros results w Hall.
  - destruct results. simpl. now rewrite Nat.add_0_r.
  - rewrite processEach_skips by (apply Hall; now left).
    rewrite IH by (intros r Hr; apply Hall; now right).
    simpl. now rewrite Nat.add_succ_r.
Qed.

(** A cycle over rotas that all have their record for the day reports
    every one of them under [skipped] and leaves the world as it was. *)
Lemma processAllRotas_all_skipped (w : World) :
  isRunning w = false ->
  Store.findActiveRotas w <> [] ->
  (forall r, In r (Store.findActiveRotas w) ->
             assignmentExistsForToday (r_id r) (now w) w = true) ->
  processAllRotas env w
  = (Return (Some (mkResults (List.length (Store.findActiveRotas w)) 0
                             (List.length (Store.findActiveRotas w)) 0 [])),
     w).
Proof.
  intros Hrun Hne Hall. unfold processAllRotas. rewrite bind_gets, Hrun.
  rewrite bind_modify. unfold tryFinally. rewrite bind_gets.
  change (Store.findActiveRotas (setIsRunning true w))
    with (Store.findActiveRotas w).
  destruct (Store.findActiveRotas w) as [|r0 rs] eqn:Ha; [congruence|].
  cbn [List.length Nat.eqb]. rewrite bind_run.
  rewrite processEach_all_skipped by (intros r Hr; apply (Hall r Hr)).
  destruct w; simpl in *. subst. reflexivity.
Qed.

(** C1.  When a record already exists for a rota and today at the moment
    the cycle reaches it, [processRota] reports it as skipped and changes
    nothing; the loop of the cycle goes on with [skipped] one higher and
    the other counters as they were; and a whole cycle run from that world
    leaves the number of records of that rota and day as it was.  A rota
    processed to completion has such a record at every later instant of
    the day, and a cycle that finds a record of the day for every active
    rota returns with all of them under [skipped], none processed or
    failed, and the world unchanged: a second cycle that day creates no
    record. *)
Theorem cycle_skips_rota_with_record (w : World) (rota : Rota)
  (rest : list Rota) (results : CycleResults)
  (Hex : assignmentExistsForToday (r_id rota) (now w) w = true) :
  processRota env rota w = (Return (Skipped "already_assigned"), w)
  /\ processEach env (rota :: rest) results w
     = processEach env rest
         (mkResults (total results) (processed results)
                    (S (skipped results)) (failed results)
                    (errors results)) w
  /\ processEach env [rota] results w
     = (Return (mkResults (total results) (processed results)
                          (S (skipped results)) (failed results)
                          (errors results)), w)
  /\ dayCount (r_id rota) (now w) (snd (processAllRotas env w))
     = dayCount (r_id rota) (now w) w
  /\ (isRunning w = false ->
      In rota (Store.findActiveRotas w) ->
      (forall r, In r (Store.findActiveRotas w) ->
                 assignmentExistsForToday (r_id r) (now w) w = true) ->
      processAllRotas env w
      = (Return
           (Some (mkResults (List.length (Store.findActiveRotas w)) 0
                            (List.length (Store.findActiveRotas w)) 0 [])),
         w))
  /\ (forall w0 id u ts t,
         fst (processRota env rota w0) = Return (Processed id u ts) ->
         startOfDay t = startOfDay (now w0) ->
         assignmentExistsForToday (r_id rota) t
           (setNow t (snd (processRota env rota w0))) = true).
Proof.
  split; [apply processRota_skips; exact Hex|].
  split; [apply processEach_skips; exact Hex|].
  split; [rewrite processEach_skips by exact Hex; reflexivity|].
  split; [apply processAllRotas_dayCount; exact Hex|].
  split.
  - intros Hrun Hin Hall. apply processAllRotas_all_skipped; try assumption.
    intros Hnil. rewrite Hnil in Hin. exact Hin.
  - intros w0 id u ts t Hok Ht.
    eapply processRota_leaves_record; eassumption.
Qed.

End CycleFacts.

(** ** The skip limit *)

(** [canSkipAssignment] refuses exactly when the rota has at most one member
    or the run of skipped records at the end of the day's list has reached
    the member count minus one. *)
Lemma canSkipAssignment_spec (rota : Rota) (date : Instant) (w : World) :
  Store.findRotaById (r_id rota) w = Some rota ->
  sc_canSkip (canSkipAssignment (r_id rota) date w) = false
  <-> (List.length (r_members rota) <= 1)%nat
      \/ (List.length (r_members rota) - 1
          <= getConsecutiveSkipCount (r_id rota) date w)%nat.
Proof.
  intros Hst. unfold canSkipAssignment. rewrite Hst.
  destruct (List.length (r_members rota) <=? 1)%nat eqn:E1; simpl.
  - apply Nat.leb_le in E1. tauto.
  - apply Nat.leb_gt in E1.
    destruct (List.length (r_members rota) - 1
              <=? getConsecutiveSkipCount (r_id rota) date w)%nat eqn:E2;
      simpl.
    + apply Nat.leb_le in E2. tauto.
    + apply Nat.leb_gt in E2. split; [discriminate | lia].
Qed.

(** The count starts at the most recent record of the day, so it is zero
    whenever that record has not been skipped. *)
Lemma consecutive_count_zero_when_latest_active (rotaId : Id) (date : Instant)
  (w : World) (earlier : list RotaAssignment) (latest : RotaAssignment) :
  getAssignmentsForDate rotaId date w = (earlier ++ [latest])%list ->
  a_skipped latest = false ->
  getConsecutiveSkipCount rotaId date w = 0%nat.
Proof.
  intros Hl Hs. unfold getConsecutiveSkipCount. rewrite Hl.
  rewrite length_app, rev_app_distr. simpl.
  rewrite Nat.add_comm. simpl. now rewrite Hs.
Qed.

(** A rota with a single member is never skipped. *)
Lemma single_member_never_skipped (rota : Rota) (date : Instant) (w : World) :
  Store.findRotaById (r_id rota) w = Some rota ->
  (List.length (r_members rota) <= 1)%nat ->
  canSkipAssignment (r_id rota) date w
  = mkSkipCheck false (Some "Cannot skip when rota has only one member").
Proof.
  intros Hst Hlen. unfold canSkipAssignment. rewrite Hst.
  apply Nat.leb_le in Hlen. now rewrite Hlen.
Qed.

Example solo_skip_rejected :
  handleSkipPerson Fixtures.envUp 100 "U9" Fixtures.afterSoloCycle
  = (Return (mkHandlerResult false None
               (Some "Cannot skip when rota has only one member")),
     Fixtures.afterSoloCycle).
Proof. vm_compute. reflexivity. Qed.

(** Skipping a record twice is refused. *)
Example second_skip_of_same_record_rejected :
  let w := setNow (Fixtures.at_ 10 20) Fixtures.afterCycle in
  let w' := snd (handleSkipPerson Fixtures.envUp 100 "U9" w) in
  fst (handleSkipPerson Fixtures.envUp 100 "U9" w')
  = Return (mkHandlerResult false None
              (Some "This assignment has already been skipped")).
Proof. vm_compute. reflexivity. Qed.

(** C5 does not hold of the code.  Take a three-member rota whose records of
    the day are: the original assignee, skipped; the first replacement,
    skipped; the second replacement, active.  The count of consecutive skips is 0 where the
    limit needs 2, the request to skip the active record is validated, and the
    skip goes through, handing the duty back to a member already skipped that
    day. *)
Theorem third_skip_is_accepted :
  let w := Fixtures.afterTwoSkips in
  List.length (r_members Fixtures.support) = 3%nat
  /\ map (fun a => (a_id a, a_userId a, a_skipped a))
         (getAssignmentsForDate 1 (now w) w)
     = [(100, "A", true); (102, "C", true); (103, "B", false)]
  /\ getConsecutiveSkipCount 1 (now w) w = 0%nat
  /\ validateSkipRequest 103 w
     = mkValidation true None (Store.findAssignmentById 103 w)
  /\ fst (handleSkipPerson Fixtures.envUp 103 "U9" w)
     = Return (mkHandlerResult true (Some "C") None).
Proof. vm_compute. repeat split. Qed.

(** ** The retry sweep *)

(** C7 does not hold of the code as to the attempt budget.  Of a pending
    record created an hour ago and one created twenty-five hours ago the
    sweep picks the recent one only;
    with Slack down it then makes three delivery attempts for it, not two,
    waiting 2 s and 4 s in between, and with a Slack that recovers on the
    third request the record is delivered by that third attempt. *)
Theorem retry_sweep_makes_three_attempts :
  map a_id (getUnnotifiedAssignments Fixtures.envDown None Fixtures.beforeSweep)
  = [50]
  /\ (let run := retryFailedNotifications Fixtures.envDown Fixtures.beforeSweep in
      fst run = Return (Some (0%nat, 1%nat))
      /\ List.length (posts (snd run)) = 3%nat
      /\ sleeps (snd run) = [2000; 4000])
  /\ (let run := retryFailedNotifications Fixtures.envFlaky Fixtures.beforeSweep in
      fst run = Return (Some (1%nat, 0%nat))
      /\ List.length (posts (snd run)) = 3%nat
      /\ map (fun a => (a_id a, a_notified a)) (assignments (snd run))
         = [(49, false); (50, true)]).
Proof. vm_compute. repeat split. Qed.

(** When the store reads the sweep's [workspaceId: undefined] condition as a
    match against null, no stored record satisfies it and the sweep finds
    nothing to retry. *)
Example sweep_finds_nothing_under_null_matching :
  getUnnotifiedAssignments Fixtures.envNullFilter None Fixtures.beforeSweep = []
  /\ retryFailedNotifications Fixtures.envNullFilter Fixtures.beforeSweep
     = (Return None, Fixtures.beforeSweep).
Proof. vm_compute. split; reflexivity. Qed.

(** ** Failures inside a cycle *)

Section FailureFacts.

Variable env : Env.

(** Whatever the [try] block of [processRota] throws, the function throws a
    ReferenceError from its [catch] block; it never returns a failure
    result. *)
Lemma processRota_rethrows (rota : Rota) (w : World) (e : Js.Error)
  (w1 : World) :
  processRotaTry env rota w = (Throw e, w1) ->
  processRota env rota w = (Throw (Js.referenceError "rotaId"), w1).
Proof.
  intros H. unfold processRota, tryCatch. rewrite H.
  apply processRotaCatch_throws.
Qed.

Lemma processRota_never_reports_failure (rota : Rota) (w : World) (id : Id)
  (msg : string) :
  fst (processRota env rota w) <> Return (Failed id msg).
Proof.
  unfold processRota, tryCatch.
  destruct (processRotaTry env rota w) as [[r|e] w1] eqn:E.
  - simpl. intros H. injection H as ->.
    revert E. unfold processRotaTry. do 2 mstep.
    destruct (assignmentExistsForToday (r_id rota) (now w) w);
      [discriminate|].
    mstep.
    destruct (getNextAssignment (r_id rota) (r_workspaceId rota) w)
      as [[next|e] w2]; [|discriminate].
    do 2 mstep.
    destruct (createAssignment _ _ _ _ _ w2) as [[a|e] w3]; [|discriminate].
    mstep.
    destruct (sendNotificationWithRetry _ _ _ _ _ _ _ _ _ w3)
      as [[ts|e] w4]; [|discriminate].
    unfold markAsNotified. mstep. discriminate.
  - rewrite processRotaCatch_throws. discriminate.
Qed.

(** An error while processing one due rota ends the loop: the rotas after
    it are not looked at. *)
Lemma processEach_aborts (rota : Rota) (rest : list Rota)
  (results : CycleResults) (w : World) (e : Js.Error) (w1 : World) :
  shouldExecuteToday env rota (now w) = true ->
  processRotaTry env rota w = (Throw e, w1) ->
  processEach env (rota :: rest) results w
  = (Throw (Js.referenceError "rotaId"), w1).
Proof.
  intros Hdue Hthrow. cbn [processEach]. mstep. rewrite Hdue.
  cbn [negb]. mstep.
  now rewrite (processRota_rethrows rota w e w1 Hthrow).
Qed.

End FailureFacts.

(** C8 does not hold of the code.  Two rotas are due and Slack is down.  The
    record created for the first rota stays in the ledger, pending; but the
    cycle ends with a thrown ReferenceError instead of a result with a
    per-item error entry, and the second rota is never processed: it gets no
    record, no delivery attempt, and its cursor does not move. *)
Theorem cycle_aborts_on_delivery_failure :
  let run := processAllRotas Fixtures.envDown Fixtures.fresh in
  fst run = Throw (Js.referenceError "rotaId")
  /\ map (fun a => (a_id a, a_rotaId a, a_userId a, a_notified a))
         (assignments (snd run))
     = [(100, 1, "A", false)]
  /\ map p_channel (posts (snd run)) = ["C1"; "C1"; "C1"]
  /\ shouldExecuteToday Fixtures.envDown Fixtures.deploy (now (snd run)) = true
  /\ assignmentExistsForToday 2 (now (snd run)) (snd run) = false
  /\ storedCursor 2 (snd run) = Some 0
  /\ isRunning (snd run) = false.
Proof. vm_compute. repeat split. Qed.

(** ** The skip path against the scheduling path *)

(** C3.  The two next-member operations follow different cursor
    conventions, and a skip passes over the member whose turn is next.
    [getNextAssignment] reads the member under the cursor and then advances
    the cursor; [getNextAvailablePerson] advances first and reads then.  On
    the sample rota with members A, B, C, after the cycle gave the day to A
    the cursor stands at 1 and the scheduling path would select B next; the
    skip of A hands the day to C instead and stores cursor 2, so the cycle
    of the next day selects C again and B is passed over.  On the same
    definition, cursor and day the two operations answer with different
    members. *)
Theorem skip_passes_over_next_member :
  let skip := handleSkipPerson Fixtures.envUp 100 "U9" Samples.atSkip in
  let nextDay :=
    processAllRotas Fixtures.envUp (setNow (Fixtures.at_ 34 0) (snd skip)) in
  Store.findRotaById 1 Samples.atSkip = Some Fixtures.supportAdvanced
  /\ map a_userId (getAssignmentsForDate 1 (Fixtures.at_ 10 20) Samples.atSkip)
     = ["A"]
  /\ fst (getNextAssignment 1 "T1" Samples.atSkip)
     = Return (mkNextAssignment (Some "B") "Support" "C1")
  /\ getNextAvailablePerson Fixtures.supportAdvanced (Fixtures.at_ 10 0)
       Samples.atSkip = mkNextPerson (Some "C") (Some 2)
  /\ fst skip = Return (mkHandlerResult true (Some "C") None)
  /\ storedCursor 1 (snd skip) = Some 2
  /\ map a_userId
       (filter (fun a => a_rotaId a =? 1) (assignments (snd nextDay)))
     = ["A"; "C"; "C"]
  /\ ~ sharedNextMember Fixtures.fresh Fixtures.support (Fixtures.at_ 10 0).
Proof.
  cbv zeta. repeat (split; [vm_compute; reflexivity|]).
  intros H.
  destruct (H _ _ (getNextAssignment_stored Fixtures.support Fixtures.fresh
                     eq_refl ltac:(discriminate))) as [Hu _].
  vm_compute in Hu. discriminate.
Qed.

(** ** A cursor out of range *)

(** C9 as stated fails: with the cursor at 4 in a list of three members the
    scheduling path reads no member at all, not the member at [4 mod 3]. *)
Lemma stale_cursor_not_wrapped :
  ~ toleratesStaleCursor Fixtures.freshStale Fixtures.staleCursor.
Proof.
  intros H.
  destruct (H _ _ (getNextAssignment_stored Fixtures.staleCursor
                     Fixtures.freshStale eq_refl ltac:(discriminate)))
    as [_ Hu].
  vm_compute in Hu. discriminate.
Qed.

(** ** The statements at work on the sample data *)

Lemma cycle_skips_rota_with_record_witness :
  assignmentExistsForToday (r_id Fixtures.supportAdvanced)
    (now Fixtures.afterCycle) Fixtures.afterCycle = true
  /\ processRota Fixtures.envUp Fixtures.supportAdvanced Fixtures.afterCycle
     = (Return (Skipped "already_assigned"), Fixtures.afterCycle)
  /\ processEach Fixtures.envUp [Fixtures.supportAdvanced]
       (mkResults 1 0 0 0 []) Fixtures.afterCycle
     = (Return (mkResults 1 0 1 0 []), Fixtures.afterCycle)
  /\ dayCount 1 (now Fixtures.afterCycle)
       (snd (processAllRotas Fixtures.envUp Fixtures.afterCycle)) = 1%nat
  /\ processAllRotas Fixtures.envUp Fixtures.afterCycle
     = (Return (Some (mkResults 2 0 2 0 [])), Fixtures.afterCycle)
  /\ assignmentExistsForToday 1 (Fixtures.at_ 47 45)
       (setNow (Fixtures.at_ 47 45)
          (snd (processRota Fixtures.envUp Fixtures.supportAdvanced
                  (setNow (Fixtures.at_ 34 0) Fixtures.afterCycle))))
     = true.
Proof.
  assert (Hex : assignmentExistsForToday (r_id Fixtures.supportAdvanced)
                  (now Fixtures.afterCycle) Fixtures.afterCycle = true)
    by (vm_compute; reflexivity).
  split; [exact Hex|].
  destruct (cycle_skips_rota_with_record Fixtures.envUp Fixtures.afterCycle
              Fixtures.supportAdvanced [Fixtures.deploy]
              (mkResults 1 0 0 0 []) Hex)
    as (H1 & _ & H2 & H3 & H4 & H5).
  split; [exact H1|]. split; [exact H2|]. split; [|split].
  - etransitivity; [exact H3 | vm_compute; reflexivity].
  - etransitivity; [apply H4 | vm_compute; reflexivity].
    + vm_compute; reflexivity.
    + vm_compute. left. reflexivity.
    + intros r Hr. vm_compute in Hr.
      destruct Hr as [<- | [<- | []]]; vm_compute; reflexivity.
  - apply (H5 (setNow (Fixtures.at_ 34 0) Fixtures.afterCycle) 1 (Some "B")
              "1728036000.000100" (Fixtures.at_ 47 45)).
    + vm_compute; reflexivity.
    + vm_compute; reflexivity.
Defined.

(** The gate at work: a recurrence without further occurrence keeps it shut
    all day; on a rule that names no DTSTART, asked on the whole minute, it
    is open from the notification time on. *)
Example gate_through_the_day :
  shouldExecuteToday Fixtures.envEnded Fixtures.support (Fixtures.at_ 15 0)
  = false
  /\ map (shouldExecuteToday Fixtures.envUp Fixtures.support)
         [Fixtures.at_ 0 0; Fixtures.at_ 9 45; Fixtures.at_ 10 0;
          Fixtures.at_ 10 15; Fixtures.at_ 15 0; Fixtures.at_ 23 45]
     = [false; false; true; true; true; true].
Proof. vm_compute. split; reflexivity. Qed.

Lemma nextAvailable_first_unused_witness :
  r_members Fixtures.support <> []
  /\ 0 <= r_currentIndex Fixtures.support
       < Z.of_nat (List.length (r_members Fixtures.support))
  /\ map a_userId (assignments Fixtures.carriedOver) = ["B"; "A"]
  /\ ~ In "B" (usedToday Fixtures.support (Fixtures.at_ 10 20)
                 Fixtures.carriedOver)
  /\ In "A" (usedToday Fixtures.support (Fixtures.at_ 10 20)
               Fixtures.carriedOver)
  /\ getNextAvailablePerson Fixtures.support (Fixtures.at_ 10 20)
       Fixtures.carriedOver = mkNextPerson (Some "B") (Some 1)
  /\ exists i u,
       np_newIndex (getNextAvailablePerson Fixtures.support
                      (Fixtures.at_ 10 20) Fixtures.carriedOver) = Some i
       /\ np_userId (getNextAvailablePerson Fixtures.support
                       (Fixtures.at_ 10 20) Fixtures.carriedOver) = Some u
       /\ Js.index (r_members Fixtures.support) i = Some u.
Proof.
  assert (Hm : r_members Fixtures.support <> []) by discriminate.
  assert (Hc : 0 <= r_currentIndex Fixtures.support
                 < Z.of_nat (List.length (r_members Fixtures.support)))
    by (simpl; lia).
  split; [exact Hm|]. split; [exact Hc|].
  split; [reflexivity|].
  destruct (nextAvailable_first_unused Fixtures.carriedOver
              Fixtures.support (Fixtures.at_ 10 20) Hm Hc)
    as [Hused (i & u & Hi & Hu & Hidx & _)].
  split; [|split; [|split]].
  - intros HB. apply Hused in HB.
    destruct HB as (a & [<- | [<- | []]] & _ & Hday & Hu');
      [vm_compute in Hday | vm_compute in Hu']; discriminate.
  - apply Hused. eexists. split; [right; left; reflexivity|].
    repeat split; vm_compute; reflexivity.
  - vm_compute; reflexivity.
  - exists i, u. auto.
Defined.

(** A delivery that fails twice and succeeds on the third attempt. *)
Example flaky_delivery_succeeds_after_two_delays :
  fst (sendNotificationWithRetry Fixtures.envFlaky "T1" "C1" (Some "A")
         "Support" None None 1 defaultMaxRetries Fixtures.fresh)
  = Return "1728036006.000200"
  /\ sleeps (snd (sendNotificationWithRetry Fixtures.envFlaky "T1" "C1"
                    (Some "A") "Support" None None 1 defaultMaxRetries
                    Fixtures.fresh))
     = [2000; 4000].
Proof. vm_compute. split; reflexivity. Qed.

(** After the first skip of the day the replacement message has no skip
    action, although a request to skip the replacement would be accepted. *)
Example first_replacement_lacks_skip_action :
  let w := setNow (Fixtures.at_ 10 20) Fixtures.afterCycle in
  let w' := snd (handleSkipPerson Fixtures.envUp 100 "U9" w) in
  map p_blocks (skipn (List.length (posts w)) (posts w'))
  = [[HeaderBlock "Support" (Some "C")]]
  /\ v_valid (validateSkipRequest 102 w') = true.
Proof. vm_compute. split; reflexivity. Qed.

Lemma cursor_mutations_stay_in_range_witness :
  Store.findRotaById (r_id Fixtures.staleCursor) Fixtures.freshStale
  = Some Fixtures.staleCursor
  /\ r_members Fixtures.staleCursor <> []
  /\ 0 <= r_currentIndex Fixtures.staleCursor <= Js.maxSafeInteger
  /\ storedCursor 1 (snd (getNextAssignment 1 "T1" Fixtures.freshStale))
     = Some 2
  /\ getNextAvailablePerson Fixtures.staleCursor (Fixtures.at_ 10 0)
       Fixtures.freshStale = mkNextPerson (Some "C") (Some 2)
  /\ storedCursor 1
       (snd (performSkip Fixtures.envUp Fixtures.pendingRecent "U9"
               Fixtures.freshStale)) = Some 2
  /\ map a_userId
       (assignments
          (snd (performSkip Fixtures.envUp Fixtures.pendingRecent "U9"
                  Fixtures.freshStale))) = ["C"].
Proof.
  assert (Hs : Store.findRotaById (r_id Fixtures.staleCursor)
                 Fixtures.freshStale = Some Fixtures.staleCursor)
    by reflexivity.
  assert (Hm : r_members Fixtures.staleCursor <> []) by discriminate.
  assert (Hc : 0 <= r_currentIndex Fixtures.staleCursor
               <= Js.maxSafeInteger) by (vm_compute; split; discriminate).
  repeat (split; [assumption|]).
  destruct (cursor_mutations_stay_in_range Fixtures.envUp Fixtures.freshStale
              Fixtures.staleCursor Hs Hm Hc)
    as [(res & w' & Hrun & _ & Hstored & _) [Hskip Hscan]].
  split.
  - change (getNextAssignment 1 "T1" Fixtures.freshStale)
      with (getNextAssignment (r_id Fixtures.staleCursor)
              (r_workspaceId Fixtures.staleCursor) Fixtures.freshStale).
    rewrite Hrun. exact Hstored.
  - destruct (Hscan (Fixtures.at_ 10 0)) as (i & u & Hres & _).
    assert (Hiu : i = 2 /\ u = "C").
    { vm_compute in Hres. injection Hres as <- <-. split; reflexivity. }
    destruct Hiu as [-> ->]. split; [exact Hres|].
    destruct (Hskip Fixtures.pendingRecent "U9" eq_refl)
      as [[e He] | (i & u & Hres' & _ & _ & Hcur & Hrec)].
    + vm_compute in He. discriminate.
    + assert (Hiu : i = 2 /\ u = "C").
      { vm_compute in Hres'. injection Hres' as <- <-. split; reflexivity. }
      destruct Hiu as [-> ->]. split; [exact Hcur | exact Hrec].
Defined.

(** ** Ordered queries *)

Lemma insertByCreatedAt_perm (a : RotaAssignment) (l : list RotaAssignment) :
  Permutation (Store.insertByCreatedAt a l) (a :: l).
Proof.
  induction l as [|b l IH]; simpl; [apply Permutation_refl|].
  destruct (a_createdAt a <? a_createdAt b); [apply Permutation_refl|].
  eapply perm_trans; [apply perm_skip; exact IH | apply perm_swap].
Qed.

Lemma sortByCreatedAt_perm (l : list RotaAssignment) :
  Permutation (Store.sortByCreatedAt l) l.
Proof.
  unfold Store.sortByCreatedAt.
  eapply perm_trans; [|apply Permutation_sym, Permutation_rev].
  induction (rev l) as [|a r IH]; simpl; [apply Permutation_refl|].
  eapply perm_trans; [apply insertByCreatedAt_perm | apply perm_skip, IH].
Qed.

Lemma insertByCreatedAt_sorted (a : RotaAssignment)
  (l : list RotaAssignment) :
  StronglySorted createdNoLater l ->
  StronglySorted createdNoLater (Store.insertByCreatedAt a l).
Proof.
  induction l as [|b l IH]; intros Hs; simpl.
  - constructor; constructor.
  - inversion Hs as [|b' l' Hs' Hall]; subst.
    destruct (a_createdAt a <? a_createdAt b) eqn:E.
    + apply Z.ltb_lt in E. constructor; [exact Hs|].
      constructor; [unfold createdNoLater; lia|].
      eapply Forall_impl; [|exact Hall].
      unfold createdNoLater. intros c Hc. lia.
    + apply Z.ltb_ge in E. constructor; [apply IH; exact Hs'|].
      apply Forall_forall. intros c Hc.
      apply (Permutation_in _ (insertByCreatedAt_perm a l)) in Hc.
      destruct Hc as [<- | Hc]; [exact E|].
      rewrite Forall_forall in Hall. apply Hall. exact Hc.
Qed.

Lemma sortByCreatedAt_sorted (l : list RotaAssignment) :
  StronglySorted createdNoLater (Store.sortByCreatedAt l).
Proof.
  unfold Store.sortByCreatedAt.
  induction (rev l) as [|a r IH]; simpl; [constructor|].
  apply insertByCreatedAt_sorted. exact IH.
Qed.

Lemma forRotaOnDay_spec (rotaId : Id) (date : Instant) (a : RotaAssignment) :
  Store.forRotaOnDay rotaId date a = true
  <-> a_rotaId a = rotaId
      /\ startOfDay (a_assignedDate a) = startOfDay date.
Proof.
  unfold Store.forRotaOnDay, Store.inDay.
  rewrite !andb_true_iff, Z.eqb_eq, !Z.leb_le, <- startOfDay_unique.
  tauto.
Qed.

(** X1.  [getAssignmentsForDate] returns exactly the records of the rota
    whose assigned date falls on the local day of [date], each as often as it
    is stored, ordered by creation time, oldest first. *)
Theorem getAssignmentsForDate_sorted_day_records (rotaId : Id)
  (date : Instant) (w : World) :
  Permutation (getAssignmentsForDate rotaId date w)
    (filter (Store.forRotaOnDay rotaId date) (assignments w))
  /\ StronglySorted createdNoLater (getAssignmentsForDate rotaId date w)
  /\ (forall a, In a (getAssignmentsForDate rotaId date w)
                <-> In a (assignments w) /\ a_rotaId a = rotaId
                    /\ startOfDay (a_assignedDate a) = startOfDay date)
  /\ List.length (getAssignmentsForDate rotaId date w)
     = dayCount rotaId date w.
Proof.
  unfold getAssignmentsForDate. split; [apply sortByCreatedAt_perm|].
  split; [apply sortByCreatedAt_sorted|]. split.
  - intros a. rewrite sortByCreatedAt_In, filter_In, forRotaOnDay_spec.
    tauto.
  - unfold dayCount. apply Permutation_length, sortByCreatedAt_perm.
Qed.

(** X2.  The retry sweep selects exactly the records that are still
    pending and were created no earlier than twenty-four hours before now
    (and belong to the given workspace, when one is given), oldest first;
    a record created a millisecond before the cutoff is left out. *)
Theorem getUnnotifiedAssignments_window (env : Env)
  (workspaceId : option string) (w : World) :
  (forall a,
      In a (getUnnotifiedAssignments env workspaceId w)
      <-> In a (assignments w)
          /\ match workspaceId with
             | Some ws => a_workspaceId a = ws
             | None => undefinedMatchesAll env = true
             end
          /\ a_notified a = false
          /\ now w - 24 * 3600000 <= a_createdAt a)
  /\ StronglySorted createdNoLater
       (getUnnotifiedAssignments env workspaceId w)
  /\ (forall a, a_createdAt a < now w - 24 * 3600000 ->
                ~ In a (getUnnotifiedAssignments env workspaceId w)).
Proof.
  assert (Hin : forall a,
             In a (getUnnotifiedAssignments env workspaceId w)
             <-> In a (assignments w)
                 /\ match workspaceId with
                    | Some ws => a_workspaceId a = ws
                    | None => undefinedMatchesAll env = true
                    end
                 /\ a_notified a = false
                 /\ now w - 24 * 3600000 <= a_createdAt a).
  { intros a. unfold getUnnotifiedAssignments.
    rewrite sortByCreatedAt_In, filter_In, !andb_true_iff, negb_true_iff,
      Z.leb_le.
    destruct workspaceId as [ws|]; [rewrite String.eqb_eq|]; tauto. }
  split; [exact Hin|]. split.
  - unfold getUnnotifiedAssignments. apply sortByCreatedAt_sorted.
  - intros a Hold Ha. apply Hin in Ha. lia.
Qed.

Section DescendingSort.

Context {A : Type} (key : A -> Z).

Lemma insertDescBy_perm (a : A) (l : list A) :
  Permutation (Query.insertDescBy key a l) (a :: l).
Proof.
  induction l as [|b l IH]; simpl; [apply Permutation_refl|].
  destruct (key b <? key a); [apply Permutation_refl|].
  eapply perm_trans; [apply perm_skip; exact IH | apply perm_swap].
Qed.

Lemma sortDescBy_perm (l : list A) :
  Permutation (Query.sortDescBy key l) l.
Proof.
  unfold Query.sortDescBy.
  eapply perm_trans; [|apply Permutation_sym, Permutation_rev].
  induction (rev l) as [|a r IH]; simpl; [apply Permutation_refl|].
  eapply perm_trans; [apply insertDescBy_perm | apply perm_skip, IH].
Qed.

Lemma insertDescBy_sorted (a : A) (l : list A) :
  StronglySorted (keyNoSmaller key) l ->
  StronglySorted (keyNoSmaller key) (Query.insertDescBy key a l).
Proof.
  induction l as [|b l IH]; intros Hs; simpl.
  - constructor; constructor.
  - inversion Hs as [|b' l' Hs' Hall]; subst.
    destruct (key b <? key a) eqn:E.
    + apply Z.ltb_lt in E. constructor; [exact Hs|].
      constructor; [unfold keyNoSmaller; lia|].
      eapply Forall_impl; [|exact Hall].
      unfold keyNoSmaller. intros c Hc. lia.
    + apply Z.ltb_ge in E. constructor; [apply IH; exact Hs'|].
      apply Forall_forall. intros c Hc.
      apply (Permutation_in _ (insertDescBy_perm a l)) in Hc.
      destruct Hc as [<- | Hc]; [exact E|].
      rewrite Forall_forall in Hall. apply Hall. exact Hc.
Qed.

Lemma sortDescBy_sorted (l : list A) :
  StronglySorted (keyNoSmaller key) (Query.sortDescBy key l).
Proof.
  unfold Query.sortDescBy.
  induction (rev l) as [|a r IH]; simpl; [constructor|].
  apply insertDescBy_sorted. exact IH.
Qed.

Lemma sortDescBy_In (a : A) (l : list A) :
  In a (Query.sortDescBy key l) <-> In a l.
Proof.
  split; apply Permutation_in;
    [apply sortDescBy_perm | apply Permutation_sym, sortDescBy_perm].
Qed.

End DescendingSort.

Lemma inCurrentRange_narrower (today : Instant) (a : RotaAssignment) :
  inCurrentRange today a = true
  <-> Store.inDay today a = true
      /\ a_assignedDate a <= startOfDay today + (msPerDay - 1000).
Proof.
  unfold inCurrentRange, Store.inDay, endOfDay.
  rewrite !andb_true_iff, !Z.leb_le. unfold msPerDay. lia.
Qed.

(** X3.  [getCurrentAssignment] returns a record of the rota assigned
    between today's midnight and 23:59:59.000 that no other such record
    outdates by creation time, and none when there is no such record; a
    record it returns is one [assignmentExistsForToday] sees, while a record
    assigned in the last 999 ms of the day is seen by
    [assignmentExistsForToday] but not by [getCurrentAssignment]. *)
Theorem getCurrentAssignment_latest_of_today (rotaId : Id) (w : World) :
  match getCurrentAssignment rotaId w with
  | Some a =>
      In a (assignments w) /\ a_rotaId a = rotaId
      /\ inCurrentRange (now w) a = true
      /\ (forall b, In b (assignments w) -> a_rotaId b = rotaId ->
                    inCurrentRange (now w) b = true ->
                    a_createdAt b <= a_createdAt a)
      /\ assignmentExistsForToday rotaId (now w) w = true
  | None =>
      forall b, In b (assignments w) -> a_rotaId b = rotaId ->
                inCurrentRange (now w) b = false
  end
  /\ (forall b,
         Store.inDay (now w) b = true /\ inCurrentRange (now w) b = false
         <-> startOfDay (now w) + (msPerDay - 1000) < a_assignedDate b
             /\ a_assignedDate b <= endOfDay (now w)).
Proof.
  split.
  - unfold getCurrentAssignment.
    set (p := fun a => (a_rotaId a =? rotaId) && inCurrentRange (now w) a).
    pose proof (sortDescBy_sorted a_createdAt (filter p (assignments w)))
      as Hsorted.
    pose proof (fun a => sortDescBy_In a_createdAt a
                           (filter p (assignments w))) as Hin.
    destruct (Query.sortDescBy a_createdAt (filter p (assignments w)))
      as [|a rest]; simpl.
    + intros b Hb Hid.
      destruct (inCurrentRange (now w) b) eqn:E; [|reflexivity].
      exfalso. apply (proj2 (Hin b)). apply filter_In. split; [exact Hb|].
      subst p. simpl. rewrite E. apply Z.eqb_eq in Hid. now rewrite Hid.
    + assert (Ha : In a (filter p (assignments w)))
        by (apply Hin; left; reflexivity).
      apply filter_In in Ha. destruct Ha as [Ha Hp]. subst p. simpl in Hp.
      apply andb_true_iff in Hp. destruct Hp as [Hid Hr].
      apply Z.eqb_eq in Hid.
      split; [exact Ha|]. split; [exact Hid|]. split; [exact Hr|]. split.
      * intros b Hb Hbid Hbr.
        assert (Hb' : In b (a :: rest)).
        { apply Hin. apply filter_In. split; [exact Hb|]. simpl.
          rewrite Hbr. apply Z.eqb_eq in Hbid. now rewrite Hbid. }
        destruct Hb' as [<- | Hb']; [lia|].
        inversion Hsorted as [|a' l' _ Hall]; subst.
        rewrite Forall_forall in Hall. exact (Hall b Hb').
      * unfold assignmentExistsForToday. apply existsb_exists. exists a.
        split; [exact Ha|]. unfold Store.forRotaOnDay.
        apply inCurrentRange_narrower in Hr. destruct Hr as [Hr _].
        rewrite Hr. apply Z.eqb_eq in Hid. now rewrite Hid.
  - intros b. unfold inCurrentRange, Store.inDay, endOfDay.
    rewrite !andb_true_iff, andb_false_iff, !Z.leb_le, !Z.leb_gt.
    unfold msPerDay. lia.
Qed.

(** X4.  With a positive limit, [getRecentAssignments] returns at most
    [limit] records, all of the given rota, in descending order of assigned
    date, and every record of the rota that it leaves out was assigned no
    later than each record it returns. *)
Theorem getRecentAssignments_most_recent (rotaId : Id) (limit : nat)
  (w : World) (Hlimit : (0 < limit)%nat) :
  let result := getRecentAssignments rotaId limit w in
  List.length result = Nat.min limit (recordCount rotaId w)
  /\ (forall a, In a result -> In a (assignments w) /\ a_rotaId a = rotaId)
  /\ StronglySorted (keyNoSmaller a_assignedDate) result
  /\ exists rest,
       Permutation (result ++ rest)%list
         (filter (fun a => a_rotaId a =? rotaId) (assignments w))
       /\ forall a b, In a result -> In b rest ->
                      a_assignedDate b <= a_assignedDate a.
Proof.
  intros result. subst result. unfold getRecentAssignments, recordCount.
  set (l := filter (fun a => a_rotaId a =? rotaId) (assignments w)).
  set (s := Query.sortDescBy a_assignedDate l).
  assert (Hperm : Permutation s l) by apply sortDescBy_perm.
  assert (Hsorted : StronglySorted (keyNoSmaller a_assignedDate) s)
    by apply sortDescBy_sorted.
  replace (Query.limit limit s) with (firstn limit s)
    by (destruct limit; [lia | reflexivity]).
  clearbody s. split; [|split; [|split]].
  - rewrite length_firstn, (Permutation_length Hperm). reflexivity.
  - intros a Ha.
    assert (Hs : In a s)
      by (rewrite <- (firstn_skipn limit s); apply in_or_app; left; exact Ha).
    clear Ha. rename Hs into Ha.
    apply (Permutation_in _ Hperm) in Ha. subst l.
    apply filter_In in Ha. destruct Ha as [Ha Hid].
    apply Z.eqb_eq in Hid. auto.
  - rewrite <- (firstn_skipn limit s) in Hsorted.
    revert Hsorted. generalize (firstn limit s) (skipn limit s).
    induction l0 as [|x l0 IH]; intros l1 Hs; [constructor|].
    simpl in Hs. inversion Hs as [|x' l' Hs' Hall]; subst.
    constructor; [eapply IH; exact Hs'|].
    rewrite Forall_app in Hall. apply Hall.
  - exists (skipn limit s). split.
    + rewrite firstn_skipn. exact Hperm.
    + rewrite <- (firstn_skipn limit s) in Hsorted.
      revert Hsorted. generalize (firstn limit s) (skipn limit s).
      induction l0 as [|x l0 IH]; intros l1 Hs a b Ha Hb; [destruct Ha|].
      simpl in Hs. inversion Hs as [|x' l' Hs' Hall]; subst.
      destruct Ha as [<- | Ha].
      * rewrite Forall_app, !Forall_forall in Hall.
        exact (proj2 Hall b Hb).
      * eapply IH; eassumption.
Qed.

(** ** The retry loop under any budget *)

Lemma backoff_sum (k : nat) :
  forall a : nat,
    fold_right Z.add 0 (map backoffDelay (seq a k))
    = (2 ^ Z.of_nat (a + k) - 2 ^ Z.of_nat a) * 1000.
Proof.
  induction k as [|k IH]; intros a; simpl.
  - rewrite Nat.add_0_r. lia.
  - rewrite IH. unfold backoffDelay.
    replace (S a + k)%nat with (a + S k)%nat by lia.
    rewrite (Nat2Z.inj_succ a), Z.pow_succ_r by lia.
    lia.
Qed.

Section RetryBudget.

Variable env : Env.
Variables (workspaceId channelId : string) (userId : option string).
Variables (rotaName : string) (customMessage : option Template).
Variables (assignmentId : option AssignmentRef) (memberCount : Z).
Variable maxRetries : nat.

Local Abbreviation request :=
  (notificationRequest channelId userId rotaName customMessage assignmentId
     memberCount).

Local Abbreviation loop :=
  (retryLoop env workspaceId channelId userId rotaName customMessage
     assignmentId memberCount maxRetries).

(** [k] refused attempts, each followed by its delay. *)
Lemma retryLoop_refused (k : nat) :
  forall (r attempt : nat) (lastError : option Js.Error) (w : World),
    existsb (String.eqb workspaceId) (workspaces w) = true ->
    (attempt + k <= maxRetries)%nat ->
    forallb (slackRefuses env request) (seq (List.length (posts w)) k)
    = true ->
    exists w' lastError',
      loop (k + r)%nat attempt lastError w
      = loop r (attempt + k)%nat lastError' w'
      /\ ioOnly w w'
      /\ posts w' = (posts w ++ repeat request k)%list
      /\ sleeps w' = (sleeps w ++ map backoffDelay (seq attempt k))%list
      /\ now w'
         = now w + fold_right Z.add 0 (map backoffDelay (seq attempt k)).
Proof.
  induction k as [|k IH]; intros r attempt lastError w Hws Hle Hfail.
  - exists w, lastError. simpl. rewrite Nat.add_0_r, !app_nil_r.
    repeat split; try apply ioOnly_refl. lia.
  - simpl in Hfail. apply andb_true_iff in Hfail.
    destruct Hfail as [Hfirst Hrest].
    change (S k + r)%nat with (S (k + r)). rewrite retryLoop_step.
    destruct (sendRotaNotification_effect env workspaceId channelId userId
                rotaName customMessage assignmentId memberCount w)
      as [[E _] | [_ E]]; [congruence|].
    rewrite E. unfold slackRefuses in Hfirst.
    destruct (slackPost env (List.length (posts w)) request) as [ts|m];
      [discriminate|].
    assert (Hlt : (attempt <? maxRetries)%nat = true)
      by (apply Nat.ltb_lt; lia).
    rewrite Hlt.
    set (w1 := snd (sleep (backoffDelay attempt)
                      (setPosts (posts w ++ [request])%list w))).
    assert (Hlen : List.length (posts w1) = S (List.length (posts w))).
    { subst w1. simpl. rewrite length_app. simpl. lia. }
    destruct (IH r (S attempt) (Some (Js.error m)) w1)
      as (w' & le' & Hrun & Hio & Hposts & Hsleeps & Hnow).
    + subst w1. simpl. exact Hws.
    + lia.
    + rewrite Hlen. exact Hrest.
    + exists w', le'. rewrite Hrun.
      replace (attempt + S k)%nat with (S attempt + k)%nat by lia.
      split; [reflexivity|]. split; [|split; [|split]].
      * eapply ioOnly_trans; [|exact Hio].
        subst w1. unfold ioOnly. simpl. auto.
      * rewrite Hposts. subst w1. simpl. now rewrite <- app_assoc.
      * rewrite Hsleeps. subst w1. simpl. now rewrite <- app_assoc.
      * rewrite Hnow. subst w1. simpl. lia.
Qed.

(** [k] attempts that stop at the workspace lookup. *)
Lemma retryLoop_no_workspace (k : nat) :
  forall (r attempt : nat) (lastError : option Js.Error) (w : World),
    existsb (String.eqb workspaceId) (workspaces w) = false ->
    (attempt + k <= maxRetries)%nat ->
    exists w',
      loop (k + r)%nat attempt lastError w
      = loop r (attempt + k)%nat
          (match k with
           | O => lastError
           | S _ => Some (noWorkspace workspaceId)
           end) w'
      /\ ioOnly w w'
      /\ posts w' = posts w
      /\ sleeps w' = (sleeps w ++ map backoffDelay (seq attempt k))%list
      /\ now w'
         = now w + fold_right Z.add 0 (map backoffDelay (seq attempt k)).
Proof.
  induction k as [|k IH]; intros r attempt lastError w Hws Hle.
  - exists w. simpl. rewrite Nat.add_0_r, !app_nil_r.
    repeat split; try apply ioOnly_refl. lia.
  - change (S k + r)%nat with (S (k + r)). rewrite retryLoop_step.
    destruct (sendRotaNotification_effect env workspaceId channelId userId
                rotaName customMessage assignmentId memberCount w)
      as [[_ E] | [E _]]; [|congruence].
    rewrite E.
    assert (Hlt : (attempt <? maxRetries)%nat = true)
      by (apply Nat.ltb_lt; lia).
    rewrite Hlt.
    set (w1 := snd (sleep (backoffDelay attempt) w)).
    destruct (IH r (S attempt) (Some (noWorkspace workspaceId)) w1)
      as (w' & Hrun & Hio & Hposts & Hsleeps & Hnow).
    + subst w1. simpl. exact Hws.
    + lia.
    + exists w'. rewrite Hrun.
      replace (attempt + S k)%nat with (S attempt + k)%nat by lia.
      split; [destruct k; reflexivity|]. split; [|split; [|split]].
      * eapply ioOnly_trans; [|exact Hio].
        subst w1. unfold ioOnly. simpl. auto.
      * rewrite Hposts. subst w1. reflexivity.
      * rewrite Hsleeps. subst w1. simpl. now rewrite <- app_assoc.
      * rewrite Hnow. subst w1. simpl. lia.
Qed.

Local Abbreviation run :=
  (sendNotificationWithRetry env workspaceId channelId userId rotaName
     customMessage assignmentId memberCount maxRetries).

(** X5.  Under any retry budget, when Slack refuses the first [k]
    attempts and accepts the next one, with [k] below the budget,
    [sendNotificationWithRetry] returns the timestamp of the accepted
    message after posting [k + 1] identical requests and waiting
    2^1, ..., 2^k seconds, [2^(k+1) - 2] seconds in all; nothing but the
    clock and the Slack log changes. *)
Theorem sendNotificationWithRetry_first_success (k : nat) (ts : string)
  (w : World)
  (Hactive : existsb (String.eqb workspaceId) (workspaces w) = true)
  (Hbudget : (k < maxRetries)%nat)
  (Hrefused :
     forallb (slackRefuses env request) (seq (List.length (posts w)) k)
     = true)
  (Haccepted :
     slackPost env (List.length (posts w) + k) request = SlackOk ts) :
  fst (run w) = Return ts
  /\ ioOnly w (snd (run w))
  /\ posts (snd (run w)) = (posts w ++ repeat request (S k))%list
  /\ sleeps (snd (run w)) = (sleeps w ++ map backoffDelay (seq 1 k))%list
  /\ now (snd (run w)) = now w + (2 ^ Z.of_nat (S k) - 2) * 1000.
Proof.
  unfold sendNotificationWithRetry.
  destruct (retryLoop_refused k (maxRetries - k) 1 None w Hactive
              ltac:(lia) Hrefused)
    as (w' & le' & Hrun & Hio & Hposts & Hsleeps & Hnow).
  replace (k + (maxRetries - k))%nat with maxRetries in Hrun by lia.
  rewrite Hrun.
  destruct (maxRetries - k)%nat as [|r] eqn:Hr; [lia|].
  rewrite retryLoop_step.
  destruct (sendRotaNotification_effect env workspaceId channelId userId
              rotaName customMessage assignmentId memberCount w')
    as [[E _] | [_ E]].
  { destruct Hio as (_ & _ & Hw & _). rewrite Hw in E. congruence. }
  rewrite E.
  replace (List.length (posts w')) with (List.length (posts w) + k)%nat
    by (rewrite Hposts, length_app, repeat_length; reflexivity).
  rewrite Haccepted. simpl.
  split; [reflexivity|]. split; [|split; [|split]].
  - eapply ioOnly_trans; [exact Hio|]. unfold ioOnly. simpl. auto.
  - rewrite Hposts, <- app_assoc. f_equal.
    change (request :: repeat request k) with (repeat request (S k)).
    symmetry. apply repeat_cons.
  - exact Hsleeps.
  - rewrite Hnow, backoff_sum.
    replace (Z.of_nat (1 + k)) with (Z.of_nat (S k)) by lia.
    change (2 ^ Z.of_nat 1) with 2. reflexivity.
Qed.

(** X6.  When Slack refuses every attempt of a positive budget,
    [sendNotificationWithRetry] throws [Failed to send notification after
    <budget> attempts: <message of the last refusal>] after posting one
    request per attempt and waiting after each attempt but the last; with
    a budget of zero it makes no attempt at all and fails with a TypeError
    on the missing last error. *)
Theorem sendNotificationWithRetry_exhausted (w : World)
  (Hactive : existsb (String.eqb workspaceId) (workspaces w) = true)
  (Hrefused :
     forallb (slackRefuses env request)
       (seq (List.length (posts w)) maxRetries) = true) :
  match maxRetries with
  | O => run w = (Throw (Js.typeErrorUndefined "message"), w)
  | S n =>
      exists msg,
        slackPost env (List.length (posts w) + n) request = SlackFail msg
        /\ fst (run w)
           = Throw (Js.error ("Failed to send notification after "
                                ++ Js.showNat maxRetries ++ " attempts: "
                                ++ msg))
        /\ ioOnly w (snd (run w))
        /\ posts (snd (run w)) = (posts w ++ repeat request (S n))%list
        /\ sleeps (snd (run w))
           = (sleeps w ++ map backoffDelay (seq 1 n))%list
        /\ now (snd (run w)) = now w + (2 ^ Z.of_nat (S n) - 2) * 1000
  end.
Proof.
  unfold sendNotificationWithRetry.
  destruct maxRetries as [|n] eqn:Hn; [reflexivity|].
  rewrite <- Hn in *.
  assert (Hsplit : seq (List.length (posts w)) maxRetries
                   = (seq (List.length (posts w)) n
                        ++ [(List.length (posts w) + n)%nat])%list).
  { rewrite Hn, seq_S. reflexivity. }
  rewrite Hsplit, forallb_app in Hrefused.
  apply andb_true_iff in Hrefused. destruct Hrefused as [Hfirst Hlast].
  simpl in Hlast. rewrite andb_true_r in Hlast.
  unfold slackRefuses in Hlast.
  destruct (slackPost env (List.length (posts w) + n) request)
    as [ts|msg] eqn:Hpost; [discriminate|].
  exists msg. split; [reflexivity|].
  destruct (retryLoop_refused n 1 1 None w Hactive ltac:(lia) Hfirst)
    as (w' & le' & Hrun & Hio & Hposts & Hsleeps & Hnow).
  assert (Hall : loop maxRetries 1%nat None w = loop (n + 1)%nat 1%nat None w)
    by (replace (n + 1)%nat with maxRetries by lia; reflexivity).
  rewrite Hall, Hrun, retryLoop_step.
  destruct (sendRotaNotification_effect env workspaceId channelId userId
              rotaName customMessage assignmentId memberCount w')
    as [[E _] | [_ E]].
  { destruct Hio as (_ & _ & Hw & _). rewrite Hw in E. congruence. }
  rewrite E.
  replace (List.length (posts w')) with (List.length (posts w) + n)%nat
    by (rewrite Hposts, length_app, repeat_length; reflexivity).
  rewrite Hpost.
  replace (1 + n <? maxRetries)%nat with false
    by (symmetry; apply Nat.ltb_ge; lia).
  simpl.
  split; [reflexivity|]. split; [|split; [|split]].
  - eapply ioOnly_trans; [exact Hio|]. unfold ioOnly. simpl. auto.
  - rewrite Hposts, <- app_assoc, Hn. f_equal.
    symmetry. apply (repeat_cons n request).
  - exact Hsleeps.
  - rewrite Hnow, backoff_sum, Hn.
    replace (Z.of_nat (1 + n)) with (Z.of_nat (S n)) by lia.
    change (2 ^ Z.of_nat 1) with 2. reflexivity.
Qed.

(** X7.  While the workspace is not active, [sendNotificationWithRetry]
    under a positive budget never posts to Slack, still waits through the
    whole back-off, and throws with the message of the workspace lookup
    error. *)
Theorem sendNotificationWithRetry_without_workspace (w : World)
  (Hinactive : existsb (String.eqb workspaceId) (workspaces w) = false)
  (Hbudget : (0 < maxRetries)%nat) :
  fst (run w)
  = Throw (Js.error ("Failed to send notification after "
                       ++ Js.showNat maxRetries ++ " attempts: "
                       ++ "No active workspace found for team: "
                       ++ workspaceId))
  /\ ioOnly w (snd (run w))
  /\ posts (snd (run w)) = posts w
  /\ sleeps (snd (run w))
     = (sleeps w ++ map backoffDelay (seq 1 (maxRetries - 1)))%list
  /\ now (snd (run w)) = now w + (2 ^ Z.of_nat maxRetries - 2) * 1000.
Proof.
  unfold sendNotificationWithRetry.
  destruct (retryLoop_no_workspace (maxRetries - 1) 1 1 None w Hinactive
              ltac:(lia))
    as (w' & Hrun & Hio & Hposts & Hsleeps & Hnow).
  replace (maxRetries - 1 + 1)%nat with maxRetries in Hrun by lia.
  rewrite Hrun, retryLoop_step.
  destruct (sendRotaNotification_effect env workspaceId channelId userId
              rotaName customMessage assignmentId memberCount w')
    as [[_ E] | [E _]].
  2:{ destruct Hio as (_ & _ & Hw & _). rewrite Hw in E. congruence. }
  rewrite E.
  replace (1 + (maxRetries - 1) <? maxRetries)%nat with false
    by (symmetry; apply Nat.ltb_ge; lia).
  simpl.
  split; [reflexivity|]. split; [exact Hio|]. split; [exact Hposts|].
  split; [exact Hsleeps|].
  rewrite Hnow, backoff_sum.
  replace (Z.of_nat (1 + (maxRetries - 1))) with (Z.of_nat maxRetries)
    by lia.
  change (2 ^ Z.of_nat 1) with 2. reflexivity.
Qed.

End RetryBudget.

(** ** Effects of one scheduling step *)

Lemma updateFirst_length {A : Type} (p : A -> bool) (f : A -> A)
  (l : list A) :
  List.length (Store.updateFirst p f l) = List.length l.
Proof.
  induction l as [|x l IH]; simpl; [reflexivity|].
  destruct (p x); simpl; [reflexivity | now rewrite IH].
Qed.

Lemma updateFirst_app_miss {A : Type} (p : A -> bool) (f : A -> A)
  (l l' : list A) :
  Forall (fun x => p x = false) l ->
  Store.updateFirst p f (l ++ l') = (l ++ Store.updateFirst p f l')%list.
Proof.
  induction 1 as [|x l Hx _ IH]; simpl; [reflexivity|].
  now rewrite Hx, IH.
Qed.

Lemma updateFirst_miss {A : Type} (p : A -> bool) (f : A -> A) (l : list A) :
  Forall (fun x => p x = false) l -> Store.updateFirst p f l = l.
Proof.
  induction 1 as [|x l Hx _ IH]; simpl; [reflexivity|].
  now rewrite Hx, IH.
Qed.

Lemma freshIds_miss (w : World) :
  freshIds w ->
  Forall (fun a => (a_id a =? nextId w) = false) (assignments w).
Proof.
  intros [Hlt _]. eapply Forall_impl; [|exact Hlt].
  intros a Ha. apply Z.eqb_neq. simpl in Ha. lia.
Qed.

Section DeliveryFacts.

Variable env : Env.
Variables (workspaceId channelId : string) (userId : option string).
Variables (rotaName : string) (customMessage : option Template).
Variables (assignmentId : option AssignmentRef) (memberCount : Z).
Variable maxRetries : nat.

Local Abbreviation request :=
  (notificationRequest channelId userId rotaName customMessage assignmentId
     memberCount).

Local Abbreviation loop :=
  (retryLoop env workspaceId channelId userId rotaName customMessage
     assignmentId memberCount maxRetries).

(** A timestamp the loop returns is one Slack gave to the last request of
    the loop, every earlier request having been refused. *)
Lemma retryLoop_returns (remaining : nat) :
  forall (attempt : nat) (lastError : option Js.Error) (w : World)
         (ts : string),
    fst (loop remaining attempt lastError w) = Return ts ->
    existsb (String.eqb workspaceId) (workspaces w) = true
    /\ exists k,
         (k < remaining)%nat
         /\ forallb (slackRefuses env request)
              (seq (List.length (posts w)) k) = true
         /\ slackPost env (List.length (posts w) + k) request = SlackOk ts
         /\ posts (snd (loop remaining attempt lastError w))
            = (posts w ++ repeat request (S k))%list.
Proof.
  induction remaining as [|remaining IH];
    intros attempt lastError w ts Hret.
  - destruct lastError; discriminate.
  - rewrite retryLoop_step in Hret |- *.
    destruct (sendRotaNotification_effect env workspaceId channelId userId
                rotaName customMessage assignmentId memberCount w)
      as [[Hws E] | [Hws E]]; rewrite E in Hret |- *.
    + set (w1 := if (attempt <? maxRetries)%nat
                 then snd (sleep (backoffDelay attempt) w) else w) in *.
      destruct (IH _ _ _ _ Hret) as [Hact _].
      assert (workspaces w1 = workspaces w)
        by (subst w1; destruct (attempt <? maxRetries)%nat; reflexivity).
      congruence.
    + split; [exact Hws|].
      destruct (slackPost env (List.length (posts w)) request)
        as [ts'|m] eqn:Hpost.
      * exists 0%nat. simpl in Hret. injection Hret as ->.
        rewrite Nat.add_0_r. simpl. repeat split; [lia | exact Hpost].
      * set (w1 := if (attempt <? maxRetries)%nat
                   then snd (sleep (backoffDelay attempt)
                               (setPosts (posts w ++ [request])%list w))
                   else setPosts (posts w ++ [request])%list w) in *.
        assert (Hp1 : posts w1 = (posts w ++ [request])%list)
          by (subst w1; destruct (attempt <? maxRetries)%nat; reflexivity).
        destruct (IH _ _ _ _ Hret) as [_ (k & Hk & Hfail & Hok & Hposts)].
        rewrite Hp1, length_app in Hfail, Hok. simpl in Hfail, Hok.
        rewrite Nat.add_1_r in Hfail, Hok.
        exists (S k). split; [lia|]. split; [|split].
        -- simpl. unfold slackRefuses at 1. rewrite Hpost. exact Hfail.
        -- rewrite Nat.add_succ_r. exact Hok.
        -- rewrite Hposts, Hp1, <- app_assoc. reflexivity.
Qed.

End DeliveryFacts.

Section StepEffects.

Variable env : Env.

(** A skipped rota is one with a record of today, and skipping it changes
    nothing. *)
Lemma processRota_skipped (rota : Rota) (w : World) (reason : string) :
  fst (processRota env rota w) = Return (Skipped reason) ->
  reason = "already_assigned"
  /\ assignmentExistsForToday (r_id rota) (now w) w = true
  /\ snd (processRota env rota w) = w.
Proof.
  unfold processRota, tryCatch.
  destruct (processRotaTry env rota w) as [[r|e] w1] eqn:E;
    [|rewrite processRotaCatch_throws; discriminate].
  simpl. intros H. injection H as ->.
  revert E. unfold processRotaTry. do 2 mstep.
  destruct (assignmentExistsForToday (r_id rota) (now w) w).
  { intros H. injection H as <- <-. auto. }
  mstep.
  destruct (getNextAssignment (r_id rota) (r_workspaceId rota) w)
    as [[next|e] w2]; [|discriminate].
  do 2 mstep.
  destruct (createAssignment _ _ _ _ _ w2) as [[a|e] w3]; [|discriminate].
  mstep.
  destruct (sendNotificationWithRetry _ _ _ _ _ _ _ _ _ w3)
    as [[ts|e] w4]; [|discriminate].
  unfold markAsNotified. mstep. discriminate.
Qed.

(** What a step that reports a rota as processed has written. *)
Lemma processRota_processed (rota : Rota) (w : World) (id : Id)
  (u : option string) (ts : string)
  (Hfresh : freshIds w)
  (Hdone : fst (processRota env rota w) = Return (Processed id u ts)) :
  let w' := snd (processRota env rota w) in
  exists stored member,
    Store.findRota (r_id rota) (r_workspaceId rota) w = Some stored
    /\ Js.index (r_members stored) (r_currentIndex stored) = Some member
    /\ id = r_id rota /\ u = Some member
    /\ assignmentExistsForToday (r_id rota) (now w) w = false
    /\ rotas w'
       = rotas (snd (Store.saveCurrentIndex (r_id stored)
                       (Js.rem (r_currentIndex stored + 1)
                          (Z.of_nat (List.length (r_members stored)))) w))
    /\ assignments w'
       = (assignments w
            ++ [mkAssignment (nextId w) (r_id rota) (r_workspaceId rota)
                  member (now w) (r_channelId stored) true (Some (now w'))
                  (Some ts) false None None None (now w)])%list
    /\ nextId w' = nextId w + 1
    /\ workspaces w' = workspaces w /\ isRunning w' = isRunning w
    /\ exists k,
         (k < defaultMaxRetries)%nat
         /\ posts w'
            = (posts w
                 ++ repeat
                      (notificationRequest (r_channelId stored)
                         (Some member) (r_name stored)
                         (r_customMessage rota)
                         (Some (RefId (nextId w)))
                         (Z.of_nat (List.length (r_members rota))))
                      (S k))%list
         /\ Forall (fun p => existsb isSkipAction (p_blocks p)
                             = (1 <? Z.of_nat (List.length (r_members rota))))
              (skipn (List.length (posts w)) (posts w')).
Proof.
  intros w'. subst w'. revert Hdone.
  unfold processRota, tryCatch.
  destruct (processRotaTry env rota w) as [[r|e] w4] eqn:E;
    [|rewrite processRotaCatch_throws; discriminate].
  simpl. intros H. injection H as ->.
  revert E. unfold processRotaTry. do 2 mstep.
  destruct (assignmentExistsForToday (r_id rota) (now w) w) eqn:Hex;
    [discriminate|].
  mstep. unfold getNextAssignment at 1. mstep. unfold getRotaById at 1.
  destruct (Store.findRota (r_id rota) (r_workspaceId rota) w)
    as [stored|] eqn:Hfind; [|discriminate].
  destruct (List.length (r_members stored) =? 0)%nat; [discriminate|].
  unfold Store.saveCurrentIndex. rewrite bind_modify. unfold ret at 1.
  cbv beta iota. mstep.
  cbn [na_userId na_channelId na_rotaName].
  set (w1 := setRotas _ w).
  change (now w1) with (now w).
  mstep. unfold createAssignment.
  destruct (Js.index (r_members stored) (r_currentIndex stored))
    as [member|] eqn:Hidx; [|discriminate].
  destruct (String.eqb (r_workspaceId rota) ""); [discriminate|].
  destruct (String.eqb member ""); [discriminate|].
  destruct (String.eqb (r_channelId stored) ""); [discriminate|].
  cbv beta iota zeta.
  change (nextId w1) with (nextId w). change (now w1) with (now w).
  change (assignments w1) with (assignments w).
  set (a := mkAssignment (nextId w) _ _ _ _ _ _ _ _ _ _ _ _ _).
  set (w2 := setNextId _ _).
  mstep. cbn [a_id a].
  pose proof (sendNotificationWithRetry_frame env (r_workspaceId rota)
                (r_channelId stored) (Some member) (r_name stored)
                (r_customMessage rota) (Some (RefId (nextId w)))
                (Z.of_nat (List.length (r_members rota)))
                defaultMaxRetries w2) as [Hio _].
  pose proof (retryLoop_returns env (r_workspaceId rota)
                (r_channelId stored) (Some member) (r_name stored)
                (r_customMessage rota) (Some (RefId (nextId w)))
                (Z.of_nat (List.length (r_members rota)))
                defaultMaxRetries defaultMaxRetries 1 None w2) as Hret.
  fold (sendNotificationWithRetry env (r_workspaceId rota)
          (r_channelId stored) (Some member) (r_name stored)
          (r_customMessage rota) (Some (RefId (nextId w)))
          (Z.of_nat (List.length (r_members rota))) defaultMaxRetries)
    in Hret.
  destruct (sendNotificationWithRetry env (r_workspaceId rota)
              (r_channelId stored) (Some member) (r_name stored)
              (r_customMessage rota) (Some (RefId (nextId w)))
              (Z.of_nat (List.length (r_members rota)))
              defaultMaxRetries w2) as [[ts'|e] w3]; [|discriminate].
  cbn [fst snd] in Hio, Hret.
  destruct (Hret ts' eq_refl) as [_ (k & Hk & _ & _ & Hposts)].
  destruct Hio as (Hr3 & Ha3 & Hw3 & Hn3 & Hrun3).
  unfold markAsNotified. mstep. unfold ret.
  intros H. injection H as <- <- <- <-.
  exists stored, member. cbn [rotas assignments nextId workspaces isRunning
                              posts now setAssignments].
  rewrite Hr3, Ha3, Hw3, Hn3, Hrun3, Hposts.
  subst w2 w1. cbn [rotas assignments nextId workspaces isRunning
                    posts now setAssignments setNextId setRotas].
  split; [reflexivity|]. split; [exact Hidx|].
  repeat (split; [reflexivity|]).
  split.
  { rewrite updateFirst_app_miss by (apply freshIds_miss; exact Hfresh).
    subst a. simpl. rewrite Z.eqb_refl. reflexivity. }
  repeat (split; [reflexivity|]).
  exists k. split; [exact Hk|]. split; [reflexivity|].
  rewrite skipn_app, skipn_all, Nat.sub_diag. simpl skipn.
  apply Forall_forall. intros p Hp.
  change (notificationRequest ?a ?b ?c ?d ?e ?f :: repeat _ k)
    with (repeat (notificationRequest a b c d e f) (S k)) in Hp.
  apply repeat_spec in Hp. subst p.
  unfold notificationRequest. cbn [p_blocks].
  rewrite notificationBlocks_skip_action. reflexivity.
Qed.

(** X8.  When [processRota] reports a rota as processed, the rota had no
    record of today and is stored with a member under its cursor; the
    step has stored the cursor moved on by one modulo the member count,
    appended exactly one record (for that member, dated now, marked as
    notified with the timestamp Slack returned) and posted the scheduled
    notification, which carries the skip action exactly when the rota
    handed in has more than one member. *)
Theorem processRota_processed_effect (rota : Rota) (w : World) (id : Id)
  (u : option string) (ts : string)
  (Hfresh : freshIds w)
  (Hdone : fst (processRota env rota w) = Return (Processed id u ts)) :
  let w' := snd (processRota env rota w) in
  exists stored member,
    Store.findRota (r_id rota) (r_workspaceId rota) w = Some stored
    /\ Js.index (r_members stored) (r_currentIndex stored) = Some member
    /\ id = r_id rota /\ u = Some member
    /\ assignmentExistsForToday (r_id rota) (now w) w = false
    /\ rotas w'
       = rotas (snd (Store.saveCurrentIndex (r_id stored)
                       (Js.rem (r_currentIndex stored + 1)
                          (Z.of_nat (List.length (r_members stored)))) w))
    /\ assignments w'
       = (assignments w
            ++ [mkAssignment (nextId w) (r_id rota) (r_workspaceId rota)
                  member (now w) (r_channelId stored) true (Some (now w'))
                  (Some ts) false None None None (now w)])%list
    /\ nextId w' = nextId w + 1
    /\ workspaces w' = workspaces w /\ isRunning w' = isRunning w
    /\ exists k,
         (k < defaultMaxRetries)%nat
         /\ posts w'
            = (posts w
                 ++ repeat
                      (notificationRequest (r_channelId stored)
                         (Some member) (r_name stored)
                         (r_customMessage rota)
                         (Some (RefId (nextId w)))
                         (Z.of_nat (List.length (r_members rota))))
                      (S k))%list
         /\ Forall (fun p => existsb isSkipAction (p_blocks p)
                             = (1 <? Z.of_nat (List.length (r_members rota))))
              (skipn (List.length (posts w)) (posts w')).
Proof. exact (processRota_processed rota w id u ts Hfresh Hdone). Qed.

End StepEffects.

(** ** Invariants of the entry points *)

Lemma keeps_ret {A : Type} (P : World -> Prop) (a : A) : keeps P (ret a).
Proof. intros w H. exact H. Qed.

Lemma keeps_throw {A : Type} (P : World -> Prop) (e : Js.Error) :
  keeps P (@throw A e).
Proof. intros w H. exact H. Qed.

Lemma keeps_gets {A : Type} (P : World -> Prop) (f : World -> A) :
  keeps P (gets f).
Proof. intros w H. exact H. Qed.

Lemma keeps_modify (P : World -> Prop) (f : World -> World) :
  (forall w, P w -> P (f w)) -> keeps P (modify f).
Proof. intros Hf w H. apply Hf. exact H. Qed.

Lemma keeps_bind {A B : Type} (P : World -> Prop) (m : M A) (k : A -> M B) :
  keeps P m -> (forall a, keeps P (k a)) -> keeps P (bind m k).
Proof.
  intros Hm Hk w H. unfold bind. specialize (Hm w H).
  destruct (m w) as [[a|e] w1]; simpl in Hm; [apply Hk | ]; exact Hm.
Qed.

Lemma keeps_tryCatch {A : Type} (P : World -> Prop) (m : M A)
  (h : Js.Error -> M A) :
  keeps P m -> (forall e, keeps P (h e)) -> keeps P (tryCatch m h).
Proof.
  intros Hm Hh w H. unfold tryCatch. specialize (Hm w H).
  destruct (m w) as [[a|e] w1]; simpl in Hm; [| apply Hh]; exact Hm.
Qed.

Lemma keeps_tryFinally {A : Type} (P : World -> Prop) (m : M A)
  (f : World -> World) :
  keeps P m -> (forall w, P w -> P (f w)) -> keeps P (tryFinally m f).
Proof.
  intros Hm Hf w H. unfold tryFinally. specialize (Hm w H).
  destruct (m w) as [o w1]. simpl in *. apply Hf. exact Hm.
Qed.

Lemma keeps_getSlackClient (P : World -> Prop) (teamId : string) :
  keeps P (getSlackClient teamId).
Proof. intros w H. rewrite getSlackClient_world. exact H. Qed.

Lemma keeps_resolve (P : World -> Prop) (scope : list string)
  (ident : string) :
  keeps P (resolve scope ident).
Proof.
  intros w H. unfold resolve.
  destruct (existsb (String.eqb ident) scope); exact H.
Qed.

Section StableFacts.

Variable env : Env.
Variable P : World -> Prop.
Hypothesis HP : Stable P.

Lemma keeps_sendNotificationWithRetry (workspaceId channelId : string)
  (userId : option string) (rotaName : string)
  (customMessage : option Template) (assignmentId : option AssignmentRef)
  (memberCount : Z) (maxRetries : nat) :
  keeps P (sendNotificationWithRetry env workspaceId channelId userId
             rotaName customMessage assignmentId memberCount maxRetries).
Proof.
  intros w H. eapply (stable_io P HP); [|exact H].
  apply sendNotificationWithRetry_frame.
Qed.

Lemma keeps_getNextAssignment (rotaId : Id) (workspaceId : string) :
  keeps P (getNextAssignment rotaId workspaceId).
Proof.
  unfold getNextAssignment. apply keeps_bind.
  - intros w H. unfold getRotaById.
    destruct (Store.findRota rotaId workspaceId w); exact H.
  - intros rota. destruct (List.length (r_members rota) =? 0)%nat;
      [apply keeps_throw|].
    apply keeps_bind; [apply (stable_cursor P HP)|].
    intros _. apply keeps_ret.
Qed.

Lemma keeps_processRota (rota : Rota) : keeps P (processRota env rota).
Proof.
  unfold processRota. apply keeps_tryCatch.
  - unfold processRotaTry.
    apply keeps_bind; [apply keeps_gets|]. intros date.
    apply keeps_bind; [apply keeps_gets|]. intros [|]; [apply keeps_ret|].
    apply keeps_bind; [apply keeps_getNextAssignment|]. intros next.
    apply keeps_bind; [apply keeps_gets|]. intros assignedDate.
    apply keeps_bind; [apply (stable_create P HP)|]. intros assignment.
    apply keeps_bind; [apply keeps_sendNotificationWithRetry|].
    intros messageTs.
    apply keeps_bind; [apply (stable_notified P HP)|]. intros _.
    apply keeps_ret.
  - intros e. unfold processRotaCatch, readVar.
    apply keeps_bind; [|intros; apply keeps_ret].
    apply keeps_bind; [apply keeps_resolve | intros; apply keeps_ret].
Qed.

Lemma keeps_processEach (rotas : list Rota) :
  forall results, keeps P (processEach env rotas results).
Proof.
  induction rotas as [|rota rest IH]; intros results; cbn [processEach];
    [apply keeps_ret|].
  apply keeps_bind; [apply keeps_gets|]. intros today.
  destruct (negb (shouldExecuteToday env rota today)); [apply IH|].
  apply keeps_bind; [apply keeps_processRota|].
  intros [reason | id u ts | id msg]; apply IH.
Qed.

Lemma keeps_processAllRotas : keeps P (processAllRotas env).
Proof.
  unfold processAllRotas.
  apply keeps_bind; [apply keeps_gets|]. intros [|]; [apply keeps_ret|].
  apply keeps_bind;
    [apply keeps_modify; apply (stable_running P HP)|]. intros _.
  apply keeps_tryFinally; [|apply (stable_running P HP)].
  apply keeps_bind; [apply keeps_gets|]. intros rotas.
  destruct (List.length rotas =? 0)%nat; [apply keeps_ret|].
  apply keeps_bind; [apply keeps_processEach|].
  intros results. apply keeps_ret.
Qed.

Lemma keeps_performSkip (assignment : RotaAssignment) (by_ : string) :
  keeps P (performSkip env assignment by_).
Proof.
  unfold performSkip.
  apply keeps_bind; [apply keeps_gets|].
  intros [rota|]; [|apply keeps_throw].
  apply keeps_bind; [apply keeps_gets|]. intros nextPerson.
  apply keeps_bind; [apply (stable_create P HP)|]. intros newAssignment.
  apply keeps_bind; [apply (stable_skipped P HP)|]. intros _.
  apply keeps_bind.
  { destruct (np_newIndex nextPerson);
      [apply (stable_cursor P HP) | apply keeps_throw]. }
  intros _.
  apply keeps_bind; [apply keeps_getSlackClient|]. intros _.
  apply keeps_bind; [apply keeps_ret|]. intros _.
  apply keeps_bind; [apply keeps_sendNotificationWithRetry|].
  intros messageTs.
  apply keeps_bind; [apply (stable_notified P HP)|]. intros _.
  apply keeps_ret.
Qed.

Lemma keeps_handleSkipPerson (assignmentId : Id) (userId : string) :
  keeps P (handleSkipPerson env assignmentId userId).
Proof.
  unfold handleSkipPerson.
  apply keeps_bind; [apply keeps_gets|]. intros validation.
  destruct (v_valid validation); [|apply keeps_ret].
  destruct (v_assignment validation) as [assignment|]; [|apply keeps_ret].
  apply keeps_tryCatch; [|intros; apply keeps_ret].
  apply keeps_bind; [apply keeps_performSkip | intros; apply keeps_ret].
Qed.

Lemma keeps_retryOne (assignment : RotaAssignment) :
  keeps P (retryOne env assignment).
Proof.
  unfold retryOne. apply keeps_tryCatch; [|intros; apply keeps_ret].
  apply keeps_bind; [apply keeps_gets|].
  intros [rota|]; [|apply keeps_ret].
  apply keeps_bind; [apply keeps_sendNotificationWithRetry|].
  intros messageTs.
  apply keeps_bind; [apply (stable_notified P HP)|]. intros _.
  apply keeps_ret.
Qed.

Lemma keeps_retryEach (unnotified : list RotaAssignment) :
  forall retried failed, keeps P (retryEach env unnotified retried failed).
Proof.
  induction unnotified as [|a rest IH]; intros retried failed;
    cbn [retryEach]; [apply keeps_ret|].
  apply keeps_bind; [apply keeps_retryOne|].
  intros [[|]|]; apply IH.
Qed.

Lemma keeps_retryFailedNotifications :
  keeps P (retryFailedNotifications env).
Proof.
  unfold retryFailedNotifications.
  apply keeps_bind; [apply keeps_gets|]. intros unnotified.
  destruct (List.length unnotified =? 0)%nat; [apply keeps_ret|].
  apply keeps_bind; [apply keeps_retryEach | intros; apply keeps_ret].
Qed.

End StableFacts.

Lemma updateFirst_app_split {A : Type} (p : A -> bool) (f : A -> A)
  (l l' : list A) :
  exists l1 l2,
    Store.updateFirst p f (l ++ l') = (l1 ++ l2)%list
    /\ Forall2 (fun x y => y = x \/ y = f x) l l1.
Proof.
  induction l as [|x l IH]; simpl.
  - exists [], (Store.updateFirst p f l'). split; [reflexivity | constructor].
  - destruct (p x).
    + exists (f x :: l), l'. split; [reflexivity|].
      constructor; [right; reflexivity|].
      clear. induction l; constructor; auto.
    + destruct IH as (l1 & l2 & Heq & Hall).
      exists (x :: l1), l2. rewrite Heq. split; [reflexivity|].
      constructor; [left; reflexivity | exact Hall].
Qed.

Lemma recordGrows_refl (a : RotaAssignment) : recordGrows a a.
Proof. unfold recordGrows. auto. Qed.

Lemma recordGrows_trans (a b c : RotaAssignment) :
  recordGrows a b -> recordGrows b c -> recordGrows a c.
Proof. unfold recordGrows. intros (-> & ? & ?) (-> & ? & ?). auto. Qed.

Lemma ledgerGrows_refl (w : World) : ledgerGrows w w.
Proof.
  exists (assignments w), []. rewrite app_nil_r. split; [reflexivity|].
  induction (assignments w); constructor; auto using recordGrows_refl.
Qed.

(** An update in place by a function that only lets records grow. *)
Lemma ledgerGrows_update (w0 w : World) (p : RotaAssignment -> bool)
  (f : RotaAssignment -> RotaAssignment) :
  (forall x, recordGrows x (f x)) ->
  ledgerGrows w0 w ->
  ledgerGrows w0
    (setAssignments (Store.updateFirst p f (assignments w)) w).
Proof.
  intros Hf (old & extra & Heq & Hall). unfold ledgerGrows. simpl.
  rewrite Heq.
  destruct (updateFirst_app_split p f old extra) as (l1 & l2 & -> & Hstep).
  exists l1, l2. split; [reflexivity|].
  clear Heq. revert l1 Hstep.
  induction Hall as [|a x l old Hax _ IH]; intros l1 Hstep;
    inversion Hstep; subst; constructor.
  - match goal with
    | H : _ \/ _ |- _ => destruct H as [-> | ->]
    end; [exact Hax|].
    eapply recordGrows_trans; [exact Hax | apply Hf].
  - apply IH. assumption.
Qed.

Lemma createAssignment_world (rotaId : Id) (workspaceId : string)
  (userId : option string) (channelId : string) (assignedDate : Instant)
  (w : World) :
  snd (createAssignment rotaId workspaceId userId channelId assignedDate w)
  = w
  \/ exists u,
       userId = Some u
       /\ snd (createAssignment rotaId workspaceId userId channelId
                 assignedDate w)
          = setNextId (nextId w + 1)
              (setAssignments
                 (assignments w
                    ++ [mkAssignment (nextId w) rotaId workspaceId u
                          assignedDate channelId false None None false None
                          None None (now w)])%list w).
Proof.
  unfold createAssignment.
  destruct userId as [u|]; [|left; reflexivity].
  destruct (String.eqb workspaceId ""); [left; reflexivity|].
  destruct (String.eqb u ""); [left; reflexivity|].
  destruct (String.eqb channelId ""); [left; reflexivity|].
  right. exists u. split; reflexivity.
Qed.

Lemma rotasKept_stable (w0 : World) : Stable (rotasKept w0).
Proof.
  unfold rotasKept. constructor.
  - intros rotaId workspaceId userId channelId assignedDate w H.
    destruct (createAssignment_world rotaId workspaceId userId channelId
                assignedDate w) as [-> | (u & _ & ->)]; exact H.
  - intros id ts w H. exact H.
  - intros id by_ rep w H. exact H.
  - intros id idx w H. simpl. rewrite map_updateFirst; [exact H|].
    reflexivity.
  - intros w w' (Hr & _) H. now rewrite Hr.
  - intros b w H. exact H.
Qed.

Lemma ledgerGrows_stable (w0 : World) : Stable (ledgerGrows w0).
Proof.
  constructor.
  - intros rotaId workspaceId userId channelId assignedDate w H.
    destruct (createAssignment_world rotaId workspaceId userId channelId
                assignedDate w) as [-> | (u & _ & ->)]; [exact H|].
    destruct H as (old & extra & Heq & Hall).
    exists old. eexists. simpl. rewrite Heq, <- app_assoc.
    split; [reflexivity | exact Hall].
  - intros id ts w H. apply ledgerGrows_update; [|exact H].
    intros x. unfold recordGrows. simpl. auto.
  - intros id by_ rep w H. apply ledgerGrows_update; [|exact H].
    intros x. unfold recordGrows. simpl. auto.
  - intros id idx w H. exact H.
  - intros w w' (_ & Ha & _) (old & extra & Heq & Hall).
    exists old, extra. rewrite Ha. auto.
  - intros b w H. exact H.
Qed.

(** X9.  None of the three entry points (the scheduling cycle, the skip
    handler and the retry sweep) adds, removes or reorders a rota, or
    changes anything of a stored rota but its cursor, whether it returns or
    throws. *)
Theorem entry_points_keep_rotas (env : Env) (w : World) (assignmentId : Id)
  (userId : string) :
  rotasKept w (snd (processAllRotas env w))
  /\ rotasKept w (snd (handleSkipPerson env assignmentId userId w))
  /\ rotasKept w (snd (retryFailedNotifications env w)).
Proof.
  pose proof (rotasKept_stable w) as HS.
  assert (H0 : rotasKept w w) by reflexivity.
  split; [|split].
  - exact (keeps_processAllRotas env _ HS w H0).
  - exact (keeps_handleSkipPerson env _ HS assignmentId userId w H0).
  - exact (keeps_retryFailedNotifications env _ HS w H0).
Qed.

(** X10.  Under each of the three entry points the assignment ledger only
    grows: every record stays, in place, with its id, rota, workspace,
    member, assigned date, channel and creation time unchanged, a notified
    record stays notified and a skipped record stays skipped; new records
    come after the old ones. *)
Theorem entry_points_grow_ledger (env : Env) (w : World) (assignmentId : Id)
  (userId : string) :
  ledgerGrows w (snd (processAllRotas env w))
  /\ ledgerGrows w (snd (handleSkipPerson env assignmentId userId w))
  /\ ledgerGrows w (snd (retryFailedNotifications env w)).
Proof.
  pose proof (ledgerGrows_stable w) as HS.
  pose proof (ledgerGrows_refl w) as H0.
  split; [|split].
  - exact (keeps_processAllRotas env _ HS w H0).
  - exact (keeps_handleSkipPerson env _ HS assignmentId userId w H0).
  - exact (keeps_retryFailedNotifications env _ HS w H0).
Qed.


(** ** Accounting of a scheduling cycle *)

Section CycleAccounting.

Variable env : Env.

Lemma processRota_processed_length (rota : Rota) (w : World) (id : Id)
  (u : option string) (ts : string) :
  fst (processRota env rota w) = Return (Processed id u ts) ->
  List.length (assignments (snd (processRota env rota w)))
  = S (List.length (assignments w)).
Proof.
  intros Hdone.
  destruct (processRota_ledger env rota w)
    as [_ [[_ Hnot] | (_ & a & p & f & _ & _ & _ & [-> | ->])]].
  - exfalso. exact (Hnot id u ts Hdone).
  - rewrite length_app. simpl. lia.
  - rewrite updateFirst_length, length_app. simpl. lia.
Qed.

Lemma processEach_counts (rotas : list Rota) :
  forall (results r : CycleResults) (w : World),
    fst (processEach env rotas results w) = Return r ->
    total r = total results
    /\ (processed r + skipped r
        = processed results + skipped results + List.length rotas)%nat
    /\ (processed results <= processed r)%nat
    /\ failed r = failed results /\ errors r = errors results
    /\ List.length (assignments (snd (processEach env rotas results w)))
       = (List.length (assignments w)
          + (processed r - processed results))%nat.
Proof.
  induction rotas as [|rota rest IH]; intros results r w Hret.
  - simpl in Hret. injection Hret as <-. simpl. repeat split; lia.
  - revert Hret. cbn [processEach]. rewrite bind_gets.
    destruct (shouldExecuteToday env rota (now w)); cbn [negb].
    + rewrite bind_run.
      destruct (processRota env rota w) as [[res|e] w1] eqn:E;
        [|discriminate].
      destruct res as [reason | id u ts | id msg].
      * pose proof (processRota_skipped env rota w reason) as Hs.
        rewrite E in Hs. destruct (Hs eq_refl) as (_ & _ & Hw).
        simpl in Hw. subst w1. intros Hret.
        destruct (IH _ _ _ Hret) as (H1 & H2 & H3 & H4 & H5 & H6).
        rewrite H6. simpl in *. repeat split; try assumption; lia.
      * pose proof (processRota_processed_length rota w id u ts) as Hl.
        rewrite E in Hl. specialize (Hl eq_refl). simpl in Hl.
        intros Hret.
        destruct (IH _ _ _ Hret) as (H1 & H2 & H3 & H4 & H5 & H6).
        rewrite H6, Hl. simpl in *. repeat split; try assumption; lia.
      * exfalso.
        apply (processRota_never_reports_failure env rota w id msg).
        now rewrite E.
    + intros Hret.
      destruct (IH _ _ _ Hret) as (H1 & H2 & H3 & H4 & H5 & H6).
      rewrite H6. simpl in *. repeat split; try assumption; lia.
Qed.

(** X12.  A cycle that returns its results has looked at every active
    rota: [total] is their number, each was counted as processed or as
    skipped, nothing was counted as failed and no error was collected; the
    ledger has grown by exactly one record per processed rota, and the
    cycle flag is clear again. *)
Theorem processAllRotas_accounting (w : World) (r : CycleResults)
  (Hreturned : fst (processAllRotas env w) = Return (Some r)) :
  isRunning w = false
  /\ total r = List.length (Store.findActiveRotas w)
  /\ (0 < total r)%nat
  /\ (processed r + skipped r = total r)%nat
  /\ failed r = 0%nat /\ errors r = []
  /\ List.length (assignments (snd (processAllRotas env w)))
     = (List.length (assignments w) + processed r)%nat
  /\ isRunning (snd (processAllRotas env w)) = false.
Proof.
  revert Hreturned. unfold processAllRotas. rewrite bind_gets.
  destruct (isRunning w) eqn:Hrun; [discriminate|].
  rewrite bind_modify. unfold tryFinally. rewrite bind_gets.
  change (Store.findActiveRotas (setIsRunning true w))
    with (Store.findActiveRotas w).
  destruct (List.length (Store.findActiveRotas w) =? 0)%nat eqn:Hlen;
    [discriminate|].
  apply Nat.eqb_neq in Hlen.
  rewrite bind_run.
  pose proof (processEach_counts (Store.findActiveRotas w)
                (mkResults (List.length (Store.findActiveRotas w))
                   0 0 0 [])
                ) as Hc.
  destruct (processEach env (Store.findActiveRotas w) _
              (setIsRunning true w)) as [[r'|e] w1] eqn:E;
    [|discriminate].
  simpl. intros H. injection H as ->.
  specialize (Hc r (setIsRunning true w)). rewrite E in Hc.
  destruct (Hc eq_refl) as (H1 & H2 & H3 & H4 & H5 & H6).
  simpl in *. repeat split; try assumption; lia.
Qed.

(** X13.  [processAllRotas] returns nothing exactly when a cycle is
    already running or no rota is active, and then it leaves the rotas,
    the ledger, the Slack log and the clock as they were; the flag of a
    running cycle stays set. *)
Theorem processAllRotas_idle (w : World) :
  (fst (processAllRotas env w) = Return None
   <-> isRunning w = true \/ Store.findActiveRotas w = [])
  /\ (fst (processAllRotas env w) = Return None ->
      snd (processAllRotas env w) = w).
Proof.
  unfold processAllRotas. rewrite bind_gets.
  destruct (isRunning w) eqn:Hrun.
  { simpl. split; [split; auto | reflexivity]. }
  rewrite bind_modify. unfold tryFinally. rewrite bind_gets.
  change (Store.findActiveRotas (setIsRunning true w))
    with (Store.findActiveRotas w).
  destruct (Store.findActiveRotas w) as [|rota rest] eqn:Hact.
  { simpl. split; [split; auto|].
    intros _. destruct w; simpl in *. now subst. }
  change (List.length (rota :: rest) =? 0)%nat with false. cbv iota.
  rewrite bind_run.
  destruct (processEach env (rota :: rest) _ (setIsRunning true w))
    as [[r'|e] w1]; simpl.
  - split; [split|]; try discriminate. intros [H|H]; discriminate.
  - split; [split|]; try discriminate. intros [H|H]; discriminate.
Qed.

End CycleAccounting.

(** ** Rotas the cycle does not look at *)

Lemma find_updateFirst_other {A : Type} (p q : A -> bool) (f : A -> A)
  (l : list A) :
  (forall x, q (f x) = q x) ->
  (forall x, p x = true -> q x = false) ->
  find q (Store.updateFirst p f l) = find q l.
Proof.
  intros Hq Hpq. induction l as [|x l IH]; simpl; [reflexivity|].
  destruct (p x) eqn:E; simpl.
  - rewrite Hq, (Hpq x E). reflexivity.
  - now rewrite IH.
Qed.

Lemma findRota_id (rotaId : Id) (workspaceId : string) (w : World)
  (rota : Rota) :
  Store.findRota rotaId workspaceId w = Some rota ->
  In rota (rotas w) /\ r_id rota = rotaId
  /\ r_workspaceId rota = workspaceId.
Proof.
  unfold Store.findRota. intros H. apply find_some in H.
  destruct H as [Hin H]. apply andb_true_iff in H. destruct H as [H1 H2].
  apply Z.eqb_eq in H1. apply String.eqb_eq in H2. auto.
Qed.

Section OtherRotas.

Variable env : Env.
Variable id : Id.
Variable w0 : World.

Lemma untouched_refl : untouched id w0 w0.
Proof. split; reflexivity. Qed.

Lemma untouched_io (w w' : World) :
  ioOnly w w' -> untouched id w0 w -> untouched id w0 w'.
Proof.
  intros (Hr & Ha & _) [H1 H2]. unfold untouched, recordCount,
    Store.findRotaById in *. rewrite Hr, Ha. auto.
Qed.

Lemma untouched_update (w : World) (p : RotaAssignment -> bool)
  (f : RotaAssignment -> RotaAssignment) :
  (forall x, a_rotaId (f x) = a_rotaId x) ->
  untouched id w0 w ->
  untouched id w0
    (setAssignments (Store.updateFirst p f (assignments w)) w).
Proof.
  intros Hf [H1 H2]. split; [|exact H2].
  unfold recordCount in *. simpl.
  rewrite filter_updateFirst_length; [exact H1|].
  intros x. now rewrite Hf.
Qed.

Lemma untouched_create (rotaId : Id) (workspaceId : string)
  (userId : option string) (channelId : string) (assignedDate : Instant) :
  rotaId <> id ->
  keeps (untouched id w0)
    (createAssignment rotaId workspaceId userId channelId assignedDate).
Proof.
  intros Hne w H.
  destruct (createAssignment_world rotaId workspaceId userId channelId
              assignedDate w) as [-> | (u & _ & ->)]; [exact H|].
  destruct H as [H1 H2]. split; [|exact H2].
  unfold recordCount in *. simpl. rewrite filter_app, length_app. simpl.
  apply Z.eqb_neq in Hne. rewrite Hne. simpl. lia.
Qed.

Lemma untouched_cursor (rotaId : Id) (idx : Z) :
  rotaId <> id ->
  keeps (untouched id w0) (Store.saveCurrentIndex rotaId idx).
Proof.
  intros Hne w [H1 H2]. split; [exact H1|].
  unfold Store.findRotaById in *. simpl.
  rewrite find_updateFirst_other; [exact H2 | reflexivity|].
  intros x Hx. apply Z.eqb_eq in Hx. apply Z.eqb_neq. congruence.
Qed.

Lemma untouched_getNextAssignment (rotaId : Id) (workspaceId : string) :
  rotaId <> id ->
  keeps (untouched id w0) (getNextAssignment rotaId workspaceId).
Proof.
  intros Hne w H. unfold getNextAssignment. rewrite bind_run.
  unfold getRotaById.
  destruct (Store.findRota rotaId workspaceId w) as [rota|] eqn:Hfind;
    [|exact H].
  apply findRota_id in Hfind. destruct Hfind as (_ & Hid & _).
  destruct (List.length (r_members rota) =? 0)%nat; [exact H|].
  revert w H. apply keeps_bind; [|intros; apply keeps_ret].
  apply untouched_cursor. congruence.
Qed.

Lemma untouched_processRota (rota : Rota) :
  r_id rota <> id -> keeps (untouched id w0) (processRota env rota).
Proof.
  intros Hne. unfold processRota. apply keeps_tryCatch.
  - unfold processRotaTry.
    apply keeps_bind; [apply keeps_gets|]. intros date.
    apply keeps_bind; [apply keeps_gets|]. intros [|]; [apply keeps_ret|].
    apply keeps_bind; [apply untouched_getNextAssignment; exact Hne|].
    intros next.
    apply keeps_bind; [apply keeps_gets|]. intros assignedDate.
    apply keeps_bind; [apply untouched_create; exact Hne|].
    intros assignment.
    apply keeps_bind.
    { intros w H. eapply untouched_io; [|exact H].
      apply sendNotificationWithRetry_frame. }
    intros messageTs.
    apply keeps_bind; [|intros; apply keeps_ret].
    intros w H. apply untouched_update; [reflexivity | exact H].
  - intros e. unfold processRotaCatch, readVar.
    apply keeps_bind; [|intros; apply keeps_ret].
    apply keeps_bind; [apply keeps_resolve | intros; apply keeps_ret].
Qed.

Lemma untouched_processEach (rotas : list Rota) :
  Forall (fun r => r_id r <> id) rotas ->
  forall results, keeps (untouched id w0) (processEach env rotas results).
Proof.
  induction 1 as [|rota rest Hne _ IH]; intros results; cbn [processEach];
    [apply keeps_ret|].
  apply keeps_bind; [apply keeps_gets|]. intros today.
  destruct (negb (shouldExecuteToday env rota today)); [apply IH|].
  apply keeps_bind; [apply untouched_processRota; exact Hne|].
  intros [reason | i u ts | i msg]; apply IH.
Qed.

End OtherRotas.

Section InactiveRotas.

Variable env : Env.

(** The cycle leaves alone every rota that has no active document. *)
Lemma processAllRotas_untouched (id : Id) (w : World) :
  (forall r, In r (rotas w) -> r_id r = id -> r_isActive r = false) ->
  untouched id w (snd (processAllRotas env w)).
Proof.
  intros Hinactive. unfold processAllRotas. rewrite bind_gets.
  destruct (isRunning w); [apply untouched_refl|].
  rewrite bind_modify. unfold tryFinally. rewrite bind_gets.
  change (Store.findActiveRotas (setIsRunning true w))
    with (Store.findActiveRotas w).
  destruct (List.length (Store.findActiveRotas w) =? 0)%nat;
    [split; reflexivity|].
  rewrite bind_run.
  assert (Hothers : Forall (fun r => r_id r <> id)
                      (Store.findActiveRotas w)).
  { apply Forall_forall. intros r Hr Hid.
    unfold Store.findActiveRotas in Hr. apply filter_In in Hr.
    destruct Hr as [Hin Hact]. rewrite (Hinactive r Hin Hid) in Hact.
    discriminate. }
  pose proof (untouched_processEach env id w _ Hothers
                (mkResults (List.length (Store.findActiveRotas w))
                   0 0 0 [])
                (setIsRunning true w) (untouched_refl id w)) as H.
  destruct (processEach env _ _ (setIsRunning true w)) as [[r|e] w1];
    destruct H as [H1 H2]; split; assumption.
Qed.

(** X14.  A scheduling cycle creates no record for a rota that has no
    active document and leaves its stored document, cursor included, as
    it was, whatever happens to the other rotas. *)
Theorem cycle_ignores_inactive_rota (id : Id) (w : World)
  (Hinactive :
     forall r, In r (rotas w) -> r_id r = id -> r_isActive r = false) :
  recordCount id (snd (processAllRotas env w)) = recordCount id w
  /\ Store.findRotaById id (snd (processAllRotas env w))
     = Store.findRotaById id w.
Proof. exact (processAllRotas_untouched id w Hinactive). Qed.

Lemma updateFirst_unique (f : Rota -> Rota) (id : Id) (l : list Rota) :
  (forall x, r_id (f x) = r_id x) ->
  NoDup (map r_id l) ->
  forall r, In r (Store.updateFirst (fun r => r_id r =? id) f l) ->
            r_id r = id -> exists x, r = f x.
Proof.
  intros Hf. induction l as [|x l IH]; simpl; intros Hnd r Hin Hid;
    [destruct Hin|].
  inversion Hnd as [|i l' Hnotin Hnd']; subst.
  destruct (r_id x =? r_id r) eqn:E.
  - destruct Hin as [<- | Hin]; [eexists; reflexivity|].
    exfalso. apply Hnotin. apply Z.eqb_eq in E. rewrite E.
    apply in_map. exact Hin.
  - destruct Hin as [<- | Hin]; [rewrite Z.eqb_refl in E; discriminate|].
    apply IH; auto.
Qed.

(** X15.  Once [deleteRota] has returned, on a collection with unique
    rota ids, the rota is still stored but inactive, and the next
    scheduling cycle neither creates a record for it nor moves its
    cursor. *)
Theorem deleted_rota_is_never_scheduled (rotaId : Id)
  (workspaceId : string) (w : World) (rota : Rota)
  (Hunique : uniqueRotaIds w)
  (Hdeleted : fst (deleteRota rotaId workspaceId w) = Return rota) :
  let w1 := snd (deleteRota rotaId workspaceId w) in
  r_isActive rota = false /\ r_id rota = rotaId
  /\ Store.findRotaById rotaId w1 = Some rota
  /\ assignments w1 = assignments w
  /\ recordCount rotaId (snd (processAllRotas env w1))
     = recordCount rotaId w1
  /\ Store.findRotaById rotaId (snd (processAllRotas env w1))
     = Some rota.
Proof.
  intros w1. subst w1. revert Hdeleted.
  unfold deleteRota. rewrite bind_run. unfold getRotaById.
  destruct (Store.findRota rotaId workspaceId w) as [stored|] eqn:Hfind;
    [|discriminate].
  destruct (findRota_id _ _ _ _ Hfind) as (Hin & Hid & Hws).
  unfold saveIsActive. rewrite bind_modify. simpl.
  intros H. injection H as <-. simpl.
  set (f := fun r : Rota => mkRota _ _ _ _ _ _ _ _ _).
  set (w1 := setRotas _ w).
  assert (Hstored : Store.findRotaById rotaId w1 = Some (f stored)).
  { subst w1. unfold Store.findRotaById. simpl. rewrite Hid.
    rewrite find_updateFirst by reflexivity.
    assert (Hfirst : find (fun r => r_id r =? rotaId) (rotas w)
                     = Some stored).
    { clear - Hunique Hin Hid. unfold uniqueRotaIds in Hunique.
      induction (rotas w) as [|x l IH]; [destruct Hin|].
      simpl in *. inversion Hunique as [|i l' Hnotin Hnd]; subst.
      destruct Hin as [-> | Hin]; [now rewrite Z.eqb_refl|].
      destruct (r_id x =? r_id stored) eqn:E; [|auto].
      exfalso. apply Hnotin. apply Z.eqb_eq in E. rewrite E.
      apply in_map. exact Hin. }
    rewrite Hfirst. reflexivity. }
  assert (Hinactive : forall r, In r (rotas w1) -> r_id r = rotaId ->
                                r_isActive r = false).
  { intros r Hr Hrid. subst w1. simpl in Hr. rewrite Hid in Hr.
    destruct (updateFirst_unique f rotaId (rotas w)
                ltac:(reflexivity) Hunique r Hr Hrid) as [x ->].
    reflexivity. }
  destruct (processAllRotas_untouched rotaId w1 Hinactive) as [Hc Hr].
  repeat split; try assumption. now rewrite Hr.
Qed.

Lemma deleteFirst_unique (id : Id) (l : list Rota) :
  NoDup (map r_id l) ->
  find (fun r => r_id r =? id)
    (Query.deleteFirst (fun r => r_id r =? id) l) = None.
Proof.
  induction l as [|x l IH]; simpl; intros Hnd; [reflexivity|].
  inversion Hnd as [|i l' Hnotin Hnd']; subst.
  destruct (r_id x =? id) eqn:E.
  - apply Z.eqb_eq in E. subst id.
    destruct (find (fun r => r_id r =? r_id x) l) as [r|] eqn:F;
      [|reflexivity].
    exfalso. apply find_some in F. destruct F as [Hin Hr].
    apply Z.eqb_eq in Hr. apply Hnotin. rewrite <- Hr.
    apply in_map. exact Hin.
  - simpl. rewrite E. apply IH. exact Hnd'.
Qed.

(** X30.  Once [permanentlyDeleteRota] has returned, on a collection
    with unique rota ids, the rota is gone but its assignment records
    stay in the ledger: the retry sweep passes over each of them without
    posting, skipping any of them is refused with [Rota not found], a
    next assignment cannot be drawn, and the scheduling cycle adds no
    record for it. *)
Theorem permanently_deleted_rota_orphans_records (rotaId : Id)
  (workspaceId : string) (w : World) (rota : Rota)
  (Hunique : uniqueRotaIds w)
  (Hdeleted : fst (permanentlyDeleteRota rotaId workspaceId w)
              = Return rota) :
  let w1 := snd (permanentlyDeleteRota rotaId workspaceId w) in
  Store.findRota rotaId workspaceId w = Some rota
  /\ Store.findRotaById rotaId w1 = None
  /\ assignments w1 = assignments w
  /\ (forall a, a_rotaId a = rotaId ->
        retryOne env a w1 = (Return None, w1))
  /\ (forall date,
        canSkipAssignment rotaId date w1
        = mkSkipCheck false (Some "Rota not found"))
  /\ (forall ws,
        getNextAssignment rotaId ws w1
        = (Throw (Js.error "Rota not found"), w1))
  /\ recordCount rotaId (snd (processAllRotas env w1))
     = recordCount rotaId w1.
Proof.
  intros w1. subst w1. revert Hdeleted.
  unfold permanentlyDeleteRota. rewrite bind_run. unfold getRotaById.
  destruct (Store.findRota rotaId workspaceId w) as [stored|] eqn:Hfind;
    [|discriminate].
  rewrite bind_modify. simpl. intros H. injection H as <-.
  set (w1 := setRotas _ w).
  assert (Hgone : Store.findRotaById rotaId w1 = None).
  { subst w1. unfold Store.findRotaById. simpl.
    apply deleteFirst_unique. exact Hunique. }
  assert (Hnone : forall r, In r (rotas w1) -> r_id r = rotaId ->
                            r_isActive r = false).
  { intros r Hr Hid. exfalso.
    unfold Store.findRotaById in Hgone.
    pose proof (find_none _ _ Hgone r Hr) as Hno. simpl in Hno.
    apply Z.eqb_neq in Hno. contradiction. }
  split; [reflexivity|]. split; [exact Hgone|]. split; [reflexivity|].
  split; [|split; [|split]].
  - intros a Ha. unfold retryOne, tryCatch. rewrite bind_gets, Ha, Hgone.
    reflexivity.
  - intros date. unfold canSkipAssignment. rewrite Hgone. reflexivity.
  - intros ws. unfold getNextAssignment. rewrite bind_run.
    unfold getRotaById.
    destruct (Store.findRota rotaId ws w1) as [r|] eqn:F; [|reflexivity].
    exfalso. apply findRota_id in F. destruct F as (Hin & Hid & _).
    unfold Store.findRotaById in Hgone.
    pose proof (find_none _ _ Hgone r Hin) as Hno. simpl in Hno.
    apply Z.eqb_neq in Hno. contradiction.
  - exact (proj1 (processAllRotas_untouched rotaId w1 Hnone)).
Qed.

End InactiveRotas.

(** ** Round robin *)

Lemma rotateFrom_index {A : Type} (l : list A) (c : nat) :
  (c < List.length l)%nat ->
  map (fun j => Js.index l ((Z.of_nat c + Z.of_nat j)
                              mod Z.of_nat (List.length l)))
      (seq 0 (List.length l))
  = map Some (rotateFrom c l).
Proof.
  intros Hc. apply nth_error_ext. intros i.
  rewrite !nth_error_map, nth_error_seq. unfold rotateFrom.
  rewrite nth_error_app, length_skipn, nth_error_skipn, nth_error_firstn.
  destruct (Nat.ltb_spec i (List.length l)) as [Hi|Hi]; simpl.
  - unfold Js.index.
    assert (Hpos : 0 <= (Z.of_nat c + Z.of_nat i)
                        mod Z.of_nat (List.length l))
      by (apply Z.mod_pos_bound; lia).
    destruct ((Z.of_nat c + Z.of_nat i) mod Z.of_nat (List.length l) <? 0)
      eqn:E; [apply Z.ltb_lt in E; lia|].
    destruct (Nat.ltb_spec i (List.length l - c)) as [Hlow|Hhigh].
    + rewrite Z.mod_small by lia.
      replace (Z.to_nat (Z.of_nat c + Z.of_nat i)) with (c + i)%nat by lia.
      destruct (nth_error l (c + i)) eqn:N; [reflexivity|].
      apply nth_error_None in N. lia.
    + replace ((Z.of_nat c + Z.of_nat i) mod Z.of_nat (List.length l))
        with (Z.of_nat (i - (List.length l - c))).
      2:{ apply Z.mod_unique_pos with (q := 1); lia. }
      rewrite Nat2Z.id.
      destruct (Nat.ltb_spec (i - (List.length l - c)) c) as [_|Hbad];
        [|lia].
      destruct (nth_error l (i - (List.length l - c))) eqn:N;
        [reflexivity|].
      apply nth_error_None in N. lia.
  - destruct (Nat.ltb_spec i (List.length l - c)) as [Hlow|Hhigh]; [lia|].
    destruct (Nat.ltb_spec (i - (List.length l - c)) c) as [Hbad|_];
      [lia | reflexivity].
Qed.

Lemma findRotaById_saveCurrentIndex (rota : Rota) (idx : Z) (w : World) :
  Store.findRotaById (r_id rota) w = Some rota ->
  Store.findRotaById (r_id rota)
    (snd (Store.saveCurrentIndex (r_id rota) idx w))
  = Some (withCursor rota idx).
Proof.
  intros Hst. unfold Store.findRotaById in *. simpl.
  rewrite find_updateFirst by reflexivity. rewrite Hst. reflexivity.
Qed.

(** The [j]-th of successive draws returns the member [j] places after the
    cursor, modulo the member count. *)
Lemma drawMembers_spec (k : nat) :
  forall (rota : Rota) (w : World),
    Store.findRotaById (r_id rota) w = Some rota ->
    0 <= r_currentIndex rota < Z.of_nat (List.length (r_members rota)) ->
    let n := Z.of_nat (List.length (r_members rota)) in
    let run := drawMembers (r_id rota) (r_workspaceId rota) k w in
    fst run
    = map (fun j => Js.index (r_members rota)
                      ((r_currentIndex rota + Z.of_nat j) mod n))
          (seq 0 k)
    /\ Store.findRotaById (r_id rota) (snd run)
       = Some (withCursor rota ((r_currentIndex rota + Z.of_nat k) mod n))
    /\ assignments (snd run) = assignments w
    /\ posts (snd run) = posts w.
Proof.
  induction k as [|k IH]; intros rota w Hst Hrange n run; subst run.
  - simpl. rewrite Z.add_0_r, Z.mod_small by exact Hrange.
    repeat split. rewrite Hst. destruct rota; reflexivity.
  - cbn [drawMembers].
    assert (Hne : r_members rota <> [])
      by (intros E; rewrite E in Hrange; simpl in Hrange; lia).
    rewrite (getNextAssignment_stored rota w Hst Hne).
    rewrite rem_mod by lia. fold n.
    set (c' := (r_currentIndex rota + 1) mod n).
    set (w1 := snd (Store.saveCurrentIndex (r_id rota) c' w)).
    pose proof (findRotaById_saveCurrentIndex rota c' w Hst) as Hst1.
    fold w1 in Hst1.
    assert (Hrange1 : 0 <= c' < n) by (apply Z.mod_pos_bound; lia).
    specialize (IH (withCursor rota c') w1 Hst1 Hrange1).
    cbn [withCursor r_id r_workspaceId r_members r_currentIndex] in IH.
    fold n in IH.
    destruct (drawMembers (r_id rota) (r_workspaceId rota) k w1)
      as [rest w2].
    cbn [fst snd] in *. destruct IH as (Hdraws & Hcur & Hasg & Hposts).
    split; [|split; [|split]].
    + cbn [seq map na_userId]. rewrite Z.add_0_r, Z.mod_small by exact Hrange.
      f_equal. rewrite Hdraws, <- seq_shift, map_map.
      apply map_ext. intros j. f_equal. subst c'.
      rewrite Z.add_mod_idemp_l by lia. f_equal. lia.
    + rewrite Hcur. unfold withCursor. simpl. f_equal. f_equal. subst c'.
      rewrite Z.add_mod_idemp_l by lia. f_equal. lia.
    + rewrite Hasg. reflexivity.
    + rewrite Hposts. reflexivity.
Qed.

(** X16.  On a stored rota whose cursor is within the member list, as many
    successive [getNextAssignment] calls as the rota has members return the
    members in list order from the cursor on, wrapping around, so each
    position of the list is served exactly once, and the cursor is back
    where it started; in general the cursor after [k] draws is the start
    plus [k] modulo the member count.  The draws write no record and post
    nothing. *)
Theorem round_robin_full_turn (rota : Rota) (w : World)
  (Hstored : Store.findRotaById (r_id rota) w = Some rota)
  (Hrange :
     0 <= r_currentIndex rota < Z.of_nat (List.length (r_members rota))) :
  let n := List.length (r_members rota) in
  let turn := drawMembers (r_id rota) (r_workspaceId rota) n w in
  fst turn
  = map Some (rotateFrom (Z.to_nat (r_currentIndex rota)) (r_members rota))
  /\ Permutation (fst turn) (map Some (r_members rota))
  /\ storedCursor (r_id rota) (snd turn) = Some (r_currentIndex rota)
  /\ (forall k,
        storedCursor (r_id rota)
          (snd (drawMembers (r_id rota) (r_workspaceId rota) k w))
        = Some ((r_currentIndex rota + Z.of_nat k) mod Z.of_nat n))
  /\ assignments (snd turn) = assignments w
  /\ posts (snd turn) = posts w.
Proof.
  intros n turn.
  destruct (drawMembers_spec n rota w Hstored Hrange)
    as (Hdraws & Hcur & Hasg & Hposts).
  fold turn in Hdraws, Hcur, Hasg, Hposts.
  assert (Hturn : fst turn
                  = map Some (rotateFrom (Z.to_nat (r_currentIndex rota))
                                (r_members rota))).
  { rewrite Hdraws. subst n.
    rewrite <- rotateFrom_index by lia.
    apply map_ext. intros j. f_equal. f_equal. lia. }
  split; [exact Hturn|]. split; [|split; [|split; [|split]]].
  - rewrite Hturn. apply Permutation_map. unfold rotateFrom.
    eapply perm_trans; [apply Permutation_app_comm|].
    rewrite firstn_skipn. apply Permutation_refl.
  - unfold storedCursor. rewrite Hcur. simpl. f_equal. subst n.
    rewrite <- Z.add_mod_idemp_r, Z.mod_same, Z.add_0_r by lia.
    apply Z.mod_small. exact Hrange.
  - intros k.
    destruct (drawMembers_spec k rota w Hstored Hrange) as (_ & Hk & _).
    unfold storedCursor. rewrite Hk. reflexivity.
  - exact Hasg.
  - exact Hposts.
Qed.

(** ** The retry sweep *)

Section SweepFacts.

Variable env : Env.

Lemma sweepFrame_refl (w : World) : sweepFrame w w.
Proof.
  unfold sweepFrame. repeat split. exists []. rewrite app_nil_r. auto.
Qed.

Lemma sweepFrame_retryOne (w0 : World) (assignment : RotaAssignment) :
  keeps (sweepFrame w0) (retryOne env assignment).
Proof.
  unfold retryOne. apply keeps_tryCatch; [|intros; apply keeps_ret].
  apply keeps_bind; [apply keeps_gets|].
  intros [rota|]; [|apply keeps_ret].
  apply keeps_bind.
  - intros w (Hr & Hn & Hw & Hrun & Ha & extra & Hp & Hall).
    match goal with
    | |- context [sendNotificationWithRetry env ?ws ?ch ?us ?nm ?cm ?ai
                    ?mc ?mr w] =>
        pose proof (sendNotificationWithRetry_frame env ws ch us nm cm ai
                      mc mr w) as ((Hr1 & Ha1 & Hw1 & Hn1 & Hrun1)
                                   & extra1 & Hp1 & Hall1)
    end.
    unfold sweepFrame.
    rewrite Hr1, Ha1, Hw1, Hn1, Hrun1, Hp1, Hp.
    repeat (split; [assumption|]).
    exists (extra ++ extra1)%list. rewrite app_assoc.
    split; [reflexivity|]. apply Forall_app. split; [exact Hall|].
    eapply Forall_impl; [|exact Hall1]. intros p ->.
    unfold notificationRequest. cbn [p_blocks].
    rewrite notificationBlocks_skip_action. reflexivity.
  - intros messageTs. apply keeps_bind; [|intros; apply keeps_ret].
    intros w (Hr & Hn & Hw & Hrun & Ha & Hposts).
    unfold sweepFrame. simpl.
    rewrite map_updateFirst by reflexivity. auto 10.
Qed.

Lemma sweepFrame_retryEach (w0 : World) (unnotified : list RotaAssignment) :
  forall retried failed,
    keeps (sweepFrame w0) (retryEach env unnotified retried failed).
Proof.
  induction unnotified as [|a rest IH]; intros retried failed;
    cbn [retryEach]; [apply keeps_ret|].
  apply keeps_bind; [apply sweepFrame_retryOne|].
  intros [[|]|]; apply IH.
Qed.

(** One iteration never throws; it is passed over exactly when the rota
    of the record is gone. *)
Lemma retryOne_outcome (assignment : RotaAssignment) (w : World) :
  if hasRota w assignment
  then exists b, fst (retryOne env assignment w) = Return (Some b)
  else retryOne env assignment w = (Return None, w).
Proof.
  unfold hasRota, retryOne, tryCatch. rewrite bind_gets.
  destruct (Store.findRotaById (a_rotaId assignment) w) as [rota|];
    [|reflexivity].
  rewrite bind_run.
  destruct (sendNotificationWithRetry _ _ _ _ _ _ _ _ _ w)
    as [[ts|e] w1]; [|exists false; reflexivity].
  unfold markAsNotified. rewrite bind_modify. exists true. reflexivity.
Qed.

Lemma hasRota_frame (w w' : World) (a : RotaAssignment) :
  rotas w' = rotas w -> hasRota w' a = hasRota w a.
Proof.
  intros H. unfold hasRota, Store.findRotaById. now rewrite H.
Qed.

Lemma retryEach_counts (unnotified : list RotaAssignment) :
  forall (retried failed : nat) (w : World),
    exists r f,
      fst (retryEach env unnotified retried failed w) = Return (r, f)
      /\ (retried <= r)%nat /\ (failed <= f)%nat
      /\ (r + f
          = retried + failed
            + List.length (filter (hasRota w) unnotified))%nat.
Proof.
  induction unnotified as [|a rest IH]; intros retried failed w.
  - exists retried, failed. simpl. repeat split; lia.
  - cbn [retryEach filter]. rewrite bind_run.
    pose proof (retryOne_outcome a w) as Hone.
    pose proof (sweepFrame_retryOne w a w (sweepFrame_refl w))
      as (Hrot & _).
    destruct (hasRota w a).
    + destruct Hone as [b Hb].
      destruct (retryOne env a w) as [o w1]. simpl in Hb, Hrot. subst o.
      destruct b.
      * destruct (IH (S retried) failed w1) as (r & f & H1 & H2 & H3 & H4).
        exists r, f. rewrite H1. repeat split; try lia.
        rewrite H4, (filter_ext _ _ (fun a => hasRota_frame w w1 a Hrot)).
        simpl. lia.
      * destruct (IH retried (S failed) w1) as (r & f & H1 & H2 & H3 & H4).
        exists r, f. rewrite H1. repeat split; try lia.
        rewrite H4, (filter_ext _ _ (fun a => hasRota_frame w w1 a Hrot)).
        simpl. lia.
    + rewrite Hone. apply IH.
Qed.

(** X17.  The retry sweep never throws.  It reports nothing exactly when
    no pending record of the last 24 hours is found; otherwise every
    candidate whose rota is still stored is counted once, as retried or
    as failed, and a candidate whose rota is gone is passed over. *)
Theorem retryFailedNotifications_accounting (w : World) :
  let candidates := getUnnotifiedAssignments env None w in
  exists report,
    fst (retryFailedNotifications env w) = Return report
    /\ (report = None <-> candidates = [])
    /\ forall retried failed,
         report = Some (retried, failed) ->
         (retried + failed
          = List.length (filter (hasRota w) candidates))%nat.
Proof.
  intros candidates. unfold retryFailedNotifications.
  rewrite bind_gets. fold candidates.
  destruct candidates as [|a rest] eqn:Hc.
  - exists None. simpl. repeat split; auto. discriminate.
  - change (List.length (a :: rest) =? 0)%nat with false. cbv iota.
    rewrite bind_run.
    destruct (retryEach_counts (a :: rest) 0 0 w)
      as (r & f & H1 & _ & _ & H4).
    destruct (retryEach env (a :: rest) 0 0 w) as [o w1].
    simpl in H1. subst o. exists (Some (r, f)).
    split; [reflexivity|]. split; [split; discriminate|].
    intros retried failed H. injection H as <- <-. exact H4.
Qed.

(** X18.  Whatever it finds, the retry sweep changes nothing but the
    notification bookkeeping of stored records, the clock and the Slack
    log: no rota is touched, no record is created, removed or skipped,
    and none of the messages it posts carries a skip action. *)
Theorem retryFailedNotifications_frame (w : World) :
  let w' := snd (retryFailedNotifications env w) in
  rotas w' = rotas w /\ nextId w' = nextId w
  /\ workspaces w' = workspaces w /\ isRunning w' = isRunning w
  /\ map outsideNotification (assignments w')
     = map outsideNotification (assignments w)
  /\ exists extra,
       posts w' = (posts w ++ extra)%list
       /\ Forall (fun p => existsb isSkipAction (p_blocks p) = false)
            extra.
Proof.
  intros w'. subst w'.
  change (sweepFrame w (snd (retryFailedNotifications env w))).
  revert w. intros w0.
  assert (H : keeps (sweepFrame w0) (retryFailedNotifications env)).
  { unfold retryFailedNotifications.
    apply keeps_bind; [apply keeps_gets|]. intros unnotified.
    destruct (List.length unnotified =? 0)%nat; [apply keeps_ret|].
    apply keeps_bind; [apply sweepFrame_retryEach|].
    intros; apply keeps_ret. }
  apply H. apply sweepFrame_refl.
Qed.

End SweepFacts.

(** ** Skipping *)

Lemma updateFirst_app_hit {A : Type} (p : A -> bool) (f : A -> A)
  (l l' : list A) :
  existsb p l = true ->
  Store.updateFirst p f (l ++ l') = (Store.updateFirst p f l ++ l')%list.
Proof.
  induction l as [|x l IH]; simpl; [discriminate|].
  destruct (p x); simpl; [reflexivity|].
  intros H. now rewrite IH.
Qed.

Lemma find_app_hit {A : Type} (p : A -> bool) (l l' : list A) (x : A) :
  find p l = Some x -> find p (l ++ l') = Some x.
Proof.
  induction l as [|y l IH]; simpl; [discriminate|].
  destruct (p y); [auto | exact IH].
Qed.

Lemma findAssignmentById_In (id : Id) (w : World) (a : RotaAssignment) :
  Store.findAssignmentById id w = Some a ->
  In a (assignments w) /\ a_id a = id.
Proof.
  unfold Store.findAssignmentById. intros H. apply find_some in H.
  destruct H as [Hin H]. apply Z.eqb_eq in H. auto.
Qed.

Lemma countLeadingSkipped_spec (l : list RotaAssignment) :
  exists run rest,
    l = (run ++ rest)%list
    /\ List.length run = countLeadingSkipped l
    /\ Forall (fun a => a_skipped a = true) run
    /\ match rest with
       | [] => True
       | a :: _ => a_skipped a = false
       end.
Proof.
  induction l as [|a l IH]; simpl.
  - exists [], []. repeat split. constructor.
  - destruct (a_skipped a) eqn:E.
    + destruct IH as (run & rest & -> & Hlen & Hall & Hrest).
      exists (a :: run), rest. simpl. rewrite Hlen.
      repeat split; [constructor; assumption | exact Hrest].
    + exists [], (a :: l). repeat split; [constructor | exact E].
Qed.

(** X19.  [getConsecutiveSkipCount] is the length of the run of skipped
    records that ends the day's list in creation order: the list splits
    into earlier records and a final streak of that length, all of the
    streak skipped, and the record just before the streak, if any, not
    skipped. *)
Theorem getConsecutiveSkipCount_final_streak (rotaId : Id) (date : Instant)
  (w : World) :
  exists earlier streak,
    getAssignmentsForDate rotaId date w = (earlier ++ streak)%list
    /\ List.length streak = getConsecutiveSkipCount rotaId date w
    /\ Forall (fun a => a_skipped a = true) streak
    /\ (forall before last,
           earlier = (before ++ [last])%list -> a_skipped last = false).
Proof.
  unfold getConsecutiveSkipCount.
  set (day := getAssignmentsForDate rotaId date w).
  destruct (countLeadingSkipped_spec (rev day))
    as (run & rest & Hsplit & Hlen & Hall & Hrest).
  assert (Hday : day = (rev rest ++ rev run)%list).
  { rewrite <- (rev_involutive day), Hsplit, rev_app_distr. reflexivity. }
  exists (rev rest), (rev run). split; [exact Hday|]. split; [|split].
  - rewrite length_rev, Hlen.
    destruct day as [|a day']; [reflexivity|].
    reflexivity.
  - apply Forall_rev. exact Hall.
  - intros before last Hb.
    assert (Hr : rest = (last :: rev before)%list).
    { rewrite <- (rev_involutive rest), Hb, rev_app_distr. reflexivity. }
    rewrite Hr in Hrest. exact Hrest.
Qed.

Section SkipRequests.

Variable env : Env.

(** When a skip request is valid, and what an invalid one does. *)
Lemma validateSkipRequest_spec (assignmentId : Id) (userId : string)
  (w : World) :
  let validation := validateSkipRequest assignmentId w in
  (v_valid validation = true
   <-> exists assignment rota,
         Store.findAssignmentById assignmentId w = Some assignment
         /\ a_skipped assignment = false
         /\ Store.findRotaById (a_rotaId assignment) w = Some rota
         /\ (2 <= List.length (r_members rota))%nat
         /\ (getConsecutiveSkipCount (a_rotaId assignment)
               (a_assignedDate assignment) w
             < List.length (r_members rota) - 1)%nat)
  /\ (v_valid validation = false ->
      exists reason,
        v_reason validation = Some reason
        /\ handleSkipPerson env assignmentId userId w
           = (Return (mkHandlerResult false None (Some reason)), w)).
Proof.
  intros validation. subst validation.
  unfold handleSkipPerson. rewrite bind_gets.
  unfold validateSkipRequest.
  destruct (Store.findAssignmentById assignmentId w) as [a|] eqn:Hfind.
  2:{ simpl. split.
      - split; [discriminate|]. intros (x & _ & H & _). discriminate.
      - intros _. eexists. split; reflexivity. }
  destruct (a_skipped a) eqn:Hsk.
  { simpl. split.
    - split; [discriminate|].
      intros (x & r & H & Hx & _). injection H as <-. congruence.
    - intros _. eexists. split; reflexivity. }
  unfold canSkipAssignment.
  destruct (Store.findRotaById (a_rotaId a) w) as [rota|] eqn:Hrota.
  2:{ simpl. split.
      - split; [discriminate|].
        intros (x & r & H & _ & Hr & _). injection H as <-. congruence.
      - intros _. eexists. split; reflexivity. }
  destruct (List.length (r_members rota) <=? 1)%nat eqn:E1.
  { simpl. apply Nat.leb_le in E1. split.
    - split; [discriminate|].
      intros (x & r & H & _ & Hr & Hlen & _). injection H as <-.
      rewrite Hrota in Hr. injection Hr as <-. lia.
    - intros _. eexists. split; reflexivity. }
  apply Nat.leb_gt in E1. cbv zeta.
  destruct (List.length (r_members rota) - 1
            <=? getConsecutiveSkipCount (a_rotaId a) (a_assignedDate a) w)%nat
    eqn:E2.
  { simpl. apply Nat.leb_le in E2. split.
    - split; [discriminate|].
      intros (x & r & H & _ & Hr & _ & Hc). injection H as <-.
      rewrite Hrota in Hr. injection Hr as <-. lia.
    - intros _. eexists. split; reflexivity. }
  apply Nat.leb_gt in E2. simpl. split; [|discriminate].
  split; [|reflexivity]. intros _. exists a, rota.
  repeat split; try assumption; lia.
Qed.

(** X20.  A skip request is valid exactly when the record exists and has
    not been skipped, its rota is stored with at least two members, and
    the final streak of skipped records of that day is shorter than the
    member count minus one.  An invalid request is answered with the
    reason and changes nothing. *)
Theorem skip_request_validation (assignmentId : Id) (userId : string)
  (w : World) :
  let validation := validateSkipRequest assignmentId w in
  (v_valid validation = true
   <-> exists assignment rota,
         Store.findAssignmentById assignmentId w = Some assignment
         /\ a_skipped assignment = false
         /\ Store.findRotaById (a_rotaId assignment) w = Some rota
         /\ (2 <= List.length (r_members rota))%nat
         /\ (getConsecutiveSkipCount (a_rotaId assignment)
               (a_assignedDate assignment) w
             < List.length (r_members rota) - 1)%nat)
  /\ (v_valid validation = false ->
      exists reason,
        v_reason validation = Some reason
        /\ handleSkipPerson env assignmentId userId w
           = (Return (mkHandlerResult false None (Some reason)), w)).
Proof. exact (validateSkipRequest_spec assignmentId userId w). Qed.

(** What a skip that runs to completion has written. *)
Lemma performSkip_success (original : RotaAssignment) (userId : string)
  (w : World) (sr : SkipResult) (w' : World) :
  freshIds w ->
  In original (assignments w) ->
  performSkip env original userId w = (Return sr, w') ->
  exists rota member newIndex ts,
    Store.findRotaById (a_rotaId original) w = Some rota
    /\ getNextAvailablePerson rota (a_assignedDate original) w
       = mkNextPerson (Some member) (Some newIndex)
    /\ sr_newUserId sr = Some member
    /\ existsb (String.eqb (a_workspaceId original)) (workspaces w) = true
    /\ assignments w'
       = (Store.updateFirst (fun a => a_id a =? a_id original)
            (fun a =>
               mkAssignment (a_id a) (a_rotaId a) (a_workspaceId a)
                 (a_userId a) (a_assignedDate a) (a_channelId a)
                 (a_notified a) (a_notificationSentAt a) (a_messageTs a)
                 true (Some userId) (Some (now w)) (Some (nextId w))
                 (a_createdAt a))
            (assignments w)
          ++ [mkAssignment (nextId w) (a_rotaId original)
                (a_workspaceId original) member (a_assignedDate original)
                (a_channelId original) true (Some (now w')) (Some ts)
                false None None None (now w)])%list
    /\ rotas w'
       = rotas (snd (Store.saveCurrentIndex (r_id rota) newIndex w))
    /\ nextId w' = nextId w + 1.
Proof.
  intros Hfresh Hin. unfold performSkip. rewrite bind_gets.
  destruct (Store.findRotaById (a_rotaId original) w) as [rota|] eqn:Hrota;
    [|discriminate].
  rewrite bind_gets.
  destruct (getNextAvailablePerson rota (a_assignedDate original) w)
    as [u i] eqn:Hnp.
  cbn [np_userId np_newIndex]. rewrite bind_run.
  unfold createAssignment.
  destruct u as [member|]; [|discriminate].
  destruct (String.eqb (a_workspaceId original) ""); [discriminate|].
  destruct (String.eqb member ""); [discriminate|].
  destruct (String.eqb (a_channelId original) ""); [discriminate|].
  cbv beta iota zeta. unfold markSkipped. rewrite bind_modify.
  destruct i as [newIndex|]; [|rewrite bind_throw; discriminate].
  unfold Store.saveCurrentIndex. rewrite bind_modify, bind_run.
  unfold getSlackClient at 1.
  cbn [workspaces setRotas setAssignments setNextId].
  destruct (existsb (String.eqb (a_workspaceId original)) (workspaces w))
    eqn:Hws; [|discriminate].
  unfold updateSkippedMessage. rewrite bind_ret, bind_run.
  cbn [a_id assignments nextId now rotas setRotas setAssignments
       setNextId].
  set (w2 := setRotas _ _).
  pose proof (sendNotificationWithRetry_frame env (a_workspaceId original)
                (a_channelId original) (Some member) (r_name rota)
                (r_customMessage rota) defaultAssignmentId
                defaultMemberCount defaultMaxRetries w2) as [Hio _].
  destruct (sendNotificationWithRetry env (a_workspaceId original)
              (a_channelId original) (Some member) (r_name rota)
              (r_customMessage rota) defaultAssignmentId
              defaultMemberCount defaultMaxRetries w2) as [[ts|e] w3];
    [|discriminate].
  cbn [snd] in Hio. destruct Hio as (Hr3 & Ha3 & _ & Hn3 & _).
  unfold markAsNotified. rewrite bind_modify. unfold ret.
  intros H. injection H as <- <-.
  exists rota, member, newIndex, ts.
  cbn [sr_newUserId assignments rotas nextId now setAssignments].
  rewrite Hr3, Ha3, Hn3. subst w2.
  cbn [assignments rotas nextId now setAssignments setRotas setNextId].
  split; [reflexivity|]. split; [exact Hnp|].
  repeat (split; [reflexivity|]).
  split; [|split; reflexivity].
  assert (Hhit : existsb (fun a => a_id a =? a_id original) (assignments w)
                 = true).
  { apply existsb_exists. exists original. split; [exact Hin|].
    apply Z.eqb_refl. }
  rewrite (updateFirst_app_hit _ _ _ _ Hhit).
  rewrite updateFirst_app_miss.
  - simpl. rewrite Z.eqb_refl. reflexivity.
  - pose proof (freshIds_miss w Hfresh) as Hmiss.
    clear - Hmiss. induction Hmiss as [|x l Hx Hl IH]; simpl;
      [constructor|].
    destruct (a_id x =? a_id original); constructor; auto.
Qed.

(** X21.  A skip that succeeds has, on a ledger with fresh ids, marked
    the original record as skipped (by the requesting user, at the time
    of the request, replaced by the new record) and left its other fields
    alone, appended one record for the substitute on the same day and
    channel, marked it as notified with the timestamp Slack returned, and
    stored the substitute's index as the cursor; a second request for the
    same record is then refused as already skipped. *)
Theorem successful_skip_effect (assignmentId : Id) (userId : string)
  (w : World) (result : HandlerResult)
  (Hfresh : freshIds w)
  (Hreturned :
     fst (handleSkipPerson env assignmentId userId w) = Return result)
  (Hsuccess : h_success result = true) :
  let w' := snd (handleSkipPerson env assignmentId userId w) in
  exists original rota member newIndex ts,
    Store.findAssignmentById assignmentId w = Some original
    /\ Store.findRotaById (a_rotaId original) w = Some rota
    /\ getNextAvailablePerson rota (a_assignedDate original) w
       = mkNextPerson (Some member) (Some newIndex)
    /\ result = mkHandlerResult true (Some member) None
    /\ assignments w'
       = (Store.updateFirst (fun a => a_id a =? assignmentId)
            (fun a =>
               mkAssignment (a_id a) (a_rotaId a) (a_workspaceId a)
                 (a_userId a) (a_assignedDate a) (a_channelId a)
                 (a_notified a) (a_notificationSentAt a) (a_messageTs a)
                 true (Some userId) (Some (now w)) (Some (nextId w))
                 (a_createdAt a))
            (assignments w)
          ++ [mkAssignment (nextId w) (a_rotaId original)
                (a_workspaceId original) member (a_assignedDate original)
                (a_channelId original) true (Some (now w')) (Some ts)
                false None None None (now w)])%list
    /\ rotas w'
       = rotas (snd (Store.saveCurrentIndex (r_id rota) newIndex w))
    /\ nextId w' = nextId w + 1
    /\ validateSkipRequest assignmentId w'
       = mkValidation false
           (Some "This assignment has already been skipped")
           (Store.findAssignmentById assignmentId w').
Proof.
  intros w'. subst w'. revert Hreturned.
  destruct (validateSkipRequest_spec assignmentId userId w)
    as [Hvalid Hinvalid].
  destruct (v_valid (validateSkipRequest assignmentId w)) eqn:Hv.
  2:{ destruct (Hinvalid eq_refl) as (reason & _ & ->). simpl.
      intros H. injection H as <-. discriminate. }
  clear Hinvalid.
  destruct (proj1 Hvalid eq_refl)
    as (original & rota & Hfind & Hsk & Hrota & Hlen & Hcount).
  clear Hvalid.
  destruct (findAssignmentById_In _ _ _ Hfind) as [Hin Hid].
  unfold handleSkipPerson. rewrite bind_gets, Hv.
  assert (Hva : v_assignment (validateSkipRequest assignmentId w)
                = Some original).
  { unfold validateSkipRequest. rewrite Hfind, Hsk.
    destruct (negb _); reflexivity. }
  rewrite Hva. unfold tryCatch. rewrite bind_run.
  pose proof (performSkip_success original userId w) as Heff.
  destruct (performSkip env original userId w) as [[sr|e] w1].
  2:{ simpl. intros H. injection H as <-. discriminate. }
  destruct (Heff sr w1 Hfresh Hin eq_refl)
    as (rota' & member & newIndex & ts & Hrota' & Hnp & Hu & _ & Hledger
        & Hrotas & Hnext).
  rewrite Hrota in Hrota'. injection Hrota' as <-.
  simpl. intros H. injection H as <-.
  exists original, rota, member, newIndex, ts.
  rewrite Hid in Hledger.
  repeat (split; [assumption|]).
  split; [now rewrite Hu|]. repeat (split; [assumption|]).
  assert (Hnow : Store.findAssignmentById assignmentId w1
                 = Some (mkAssignment (a_id original) (a_rotaId original)
                           (a_workspaceId original) (a_userId original)
                           (a_assignedDate original) (a_channelId original)
                           (a_notified original)
                           (a_notificationSentAt original)
                           (a_messageTs original) true (Some userId)
                           (Some (now w)) (Some (nextId w))
                           (a_createdAt original))).
  { unfold Store.findAssignmentById in *. rewrite Hledger.
    apply find_app_hit. rewrite find_updateFirst by reflexivity.
    rewrite Hfind. reflexivity. }
  unfold validateSkipRequest. rewrite Hnow. reflexivity.
Qed.

End SkipRequests.

(** ** Every way a scheduling step and a skip can end *)

Section Outcomes.

Variable env : Env.

(** X22.  [processRota] ends in one of four ways.  It skips the rota,
    changing nothing, when a record of today exists.  It throws before
    any record is written (rota not found, no members, or a record that
    fails validation), leaving ledger and Slack log as they were.  It
    throws after delivery has failed, and then the record it created
    stays in the ledger, not notified, so the rota counts as assigned for
    the rest of the day.  Or it returns the rota as processed.  Every
    throw is the ReferenceError of its [catch] block, and it never
    returns a failure result. *)
Theorem processRota_outcomes (rota : Rota) (w : World) :
  let o := fst (processRota env rota w) in
  let w' := snd (processRota env rota w) in
  (o = Return (Skipped "already_assigned") /\ w' = w
   /\ assignmentExistsForToday (r_id rota) (now w) w = true)
  \/ (o = Throw (Js.referenceError "rotaId")
      /\ assignments w' = assignments w /\ posts w' = posts w
      /\ now w' = now w
      /\ assignmentExistsForToday (r_id rota) (now w) w = false)
  \/ (o = Throw (Js.referenceError "rotaId")
      /\ (exists pending,
            assignments w' = (assignments w ++ [pending])%list
            /\ a_id pending = nextId w
            /\ a_rotaId pending = r_id rota
            /\ a_assignedDate pending = now w
            /\ a_notified pending = false)
      /\ assignmentExistsForToday (r_id rota) (now w) w' = true)
  \/ (exists member ts,
        o = Return (Processed (r_id rota) (Some member) ts)
        /\ List.length (assignments w') = S (List.length (assignments w))
        /\ assignmentExistsForToday (r_id rota) (now w) w' = true).
Proof.
  intros o w'. subst o w'.
  unfold processRota, tryCatch, processRotaTry. rewrite !bind_gets.
  destruct (assignmentExistsForToday (r_id rota) (now w) w) eqn:Hex.
  { left. simpl. auto. }
  right. rewrite bind_run.
  pose proof (getNextAssignment_frame (r_id rota) (r_workspaceId rota) w)
    as (Ha1 & Hn1 & Hp1 & _).
  destruct (getNextAssignment (r_id rota) (r_workspaceId rota) w)
    as [[next|e] w1] eqn:Hwhole; cbn [fst snd] in Ha1, Hn1, Hp1.
  2:{ left. rewrite processRotaCatch_throws. simpl. auto. }
  assert (Hid1 : nextId w1 = nextId w).
  { revert Hwhole. unfold getNextAssignment. rewrite bind_run.
    unfold getRotaById.
    destruct (Store.findRota (r_id rota) (r_workspaceId rota) w);
      [|discriminate].
    destruct (List.length (r_members r) =? 0)%nat; [discriminate|].
    intros H. injection H as _ <-. reflexivity. }
  rewrite bind_gets, bind_run. unfold createAssignment.
  destruct (na_userId next) as [member|] eqn:Hmember.
  2:{ left. unfold throw. cbv beta iota.
      rewrite processRotaCatch_throws. simpl. auto. }
  destruct (String.eqb (r_workspaceId rota) "").
  { left. unfold throw. cbv beta iota.
    rewrite processRotaCatch_throws. simpl. auto. }
  destruct (String.eqb member "").
  { left. unfold throw. cbv beta iota.
    rewrite processRotaCatch_throws. simpl. auto. }
  destruct (String.eqb (na_channelId next) "").
  { left. unfold throw. cbv beta iota.
    rewrite processRotaCatch_throws. simpl. auto. }
  right. cbv beta iota zeta.
  set (pending := mkAssignment (nextId w1) (r_id rota) (r_workspaceId rota)
                    member (now w1) (na_channelId next) false None None
                    false None None None (now w1)).
  set (w2 := setNextId _ _).
  assert (Hcreated : assignments w2 = (assignments w ++ [pending])%list)
    by (subst w2; simpl; now rewrite Ha1).
  assert (Hday : Store.forRotaOnDay (r_id rota) (now w) pending = true).
  { unfold Store.forRotaOnDay, Store.inDay. subst pending. simpl.
    rewrite Z.eqb_refl, Hn1. simpl.
    pose proof (startOfDay_le (now w)). unfold endOfDay in *.
    apply andb_true_iff. split; apply Z.leb_le; lia. }
  clearbody w2. rewrite bind_run.
  match goal with
  | |- context [sendNotificationWithRetry env ?ws ?ch ?us ?nm ?cm ?ai ?mc
                  ?mr w2] =>
      pose proof (sendNotificationWithRetry_frame env ws ch us nm cm ai mc
                    mr w2) as [(_ & Ha3 & _) _];
      destruct (sendNotificationWithRetry env ws ch us nm cm ai mc mr w2)
        as [[ts|e] w3]
  end; cbn [snd] in Ha3.
  - right. unfold markAsNotified. rewrite bind_modify. unfold ret.
    cbn [fst snd]. exists member, ts.
    split; [reflexivity|]. split.
    + simpl. rewrite updateFirst_length, Ha3, Hcreated.
      rewrite length_app. simpl. lia.
    + unfold assignmentExistsForToday. simpl.
      rewrite existsb_updateFirst
        by (intros x; unfold Store.forRotaOnDay, Store.inDay;
            reflexivity).
      rewrite Ha3, Hcreated, existsb_app. simpl.
      rewrite Hday. now rewrite orb_true_r.
  - left. rewrite processRotaCatch_throws. cbn [fst snd].
    split; [reflexivity|]. split.
    + exists pending. rewrite Ha3, Hcreated. subst pending. simpl.
      repeat split; assumption.
    + unfold assignmentExistsForToday.
      rewrite Ha3, Hcreated, existsb_app. simpl.
      rewrite Hday. now rewrite orb_true_r.
Qed.

(** How [performSkip] on a stored record can end. *)
Lemma performSkip_outcomes (original : RotaAssignment) (userId : string)
  (w : World) :
  In original (assignments w) ->
  let o := fst (performSkip env original userId w) in
  let w' := snd (performSkip env original userId w) in
  (exists e, o = Throw e /\ w' = w)
  \/ (exists e pending,
        o = Throw e
        /\ assignments w'
           = (Store.updateFirst (fun a => a_id a =? a_id original)
                (fun a =>
                   mkAssignment (a_id a) (a_rotaId a) (a_workspaceId a)
                     (a_userId a) (a_assignedDate a) (a_channelId a)
                     (a_notified a) (a_notificationSentAt a)
                     (a_messageTs a) true (Some userId) (Some (now w))
                     (Some (nextId w)) (a_createdAt a))
                (assignments w) ++ [pending])%list
        /\ a_id pending = nextId w
        /\ a_rotaId pending = a_rotaId original
        /\ a_assignedDate pending = a_assignedDate original
        /\ a_notified pending = false)
  \/ (exists sr member,
        o = Return sr /\ sr_newUserId sr = Some member
        /\ List.length (assignments w') = S (List.length (assignments w))).
Proof.
  intros Hin o w'. subst o w'. unfold performSkip. rewrite bind_gets.
  destruct (Store.findRotaById (a_rotaId original) w) as [rota|];
    [|left; eexists; split; reflexivity].
  rewrite bind_gets.
  destruct (getNextAvailablePerson rota (a_assignedDate original) w)
    as [u i].
  cbn [np_userId np_newIndex]. rewrite bind_run.
  unfold createAssignment.
  destruct u as [member|]; [|left; eexists; split; reflexivity].
  destruct (String.eqb (a_workspaceId original) "");
    [left; eexists; split; reflexivity|].
  destruct (String.eqb member ""); [left; eexists; split; reflexivity|].
  destruct (String.eqb (a_channelId original) "");
    [left; eexists; split; reflexivity|].
  right. cbv beta iota zeta. unfold markSkipped. rewrite bind_modify.
  cbn [a_id assignments nextId now setAssignments setNextId].
  assert (Hhit : existsb (fun a => a_id a =? a_id original) (assignments w)
                 = true).
  { apply existsb_exists. exists original. split; [exact Hin|].
    apply Z.eqb_refl. }
  rewrite (updateFirst_app_hit _ _ _ _ Hhit).
  set (pending := mkAssignment (nextId w) _ _ _ _ _ _ _ _ _ _ _ _ _).
  set (w1 := setAssignments _ _).
  assert (Hledger : assignments w1
                    = (Store.updateFirst
                         (fun a => a_id a =? a_id original)
                         (fun a =>
                            mkAssignment (a_id a) (a_rotaId a)
                              (a_workspaceId a) (a_userId a)
                              (a_assignedDate a) (a_channelId a)
                              (a_notified a) (a_notificationSentAt a)
                              (a_messageTs a) true (Some userId)
                              (Some (now w)) (Some (nextId w))
                              (a_createdAt a))
                         (assignments w) ++ [pending])%list)
    by reflexivity.
  clearbody w1.
  assert (Hstays : forall (e : Js.Error) (w2 : World),
             assignments w2 = assignments w1 ->
             exists e0 p,
               @Throw SkipResult e = Throw e0
               /\ assignments w2
                  = (Store.updateFirst
                       (fun a => a_id a =? a_id original)
                       (fun a =>
                          mkAssignment (a_id a) (a_rotaId a)
                            (a_workspaceId a) (a_userId a)
                            (a_assignedDate a) (a_channelId a)
                            (a_notified a) (a_notificationSentAt a)
                            (a_messageTs a) true (Some userId)
                            (Some (now w)) (Some (nextId w))
                            (a_createdAt a))
                       (assignments w) ++ [p])%list
               /\ a_id p = nextId w
               /\ a_rotaId p = a_rotaId original
               /\ a_assignedDate p = a_assignedDate original
               /\ a_notified p = false).
  { intros e w2 H2. exists e, pending. rewrite H2, Hledger.
    subst pending. simpl. auto 10. }
  destruct i as [newIndex|];
    [|rewrite bind_throw; left; cbn [fst snd]; apply Hstays; reflexivity].
  unfold Store.saveCurrentIndex. rewrite bind_modify, bind_run.
  unfold getSlackClient. cbn [workspaces setRotas].
  destruct (existsb (String.eqb (a_workspaceId original)) (workspaces w1));
    [|left; cbv beta iota; cbn [fst snd]; apply Hstays; reflexivity].
  unfold updateSkippedMessage. rewrite bind_ret, bind_run.
  set (w2 := setRotas _ w1).
  pose proof (sendNotificationWithRetry_frame env (a_workspaceId original)
                (a_channelId original) (Some member) (r_name rota)
                (r_customMessage rota) defaultAssignmentId
                defaultMemberCount defaultMaxRetries w2) as [Hio _].
  destruct (sendNotificationWithRetry env (a_workspaceId original)
              (a_channelId original) (Some member) (r_name rota)
              (r_customMessage rota) defaultAssignmentId
              defaultMemberCount defaultMaxRetries w2) as [[ts|e] w3];
    cbn [snd] in Hio; destruct Hio as (_ & Ha3 & _).
  - right. unfold markAsNotified. rewrite bind_modify. unfold ret.
    cbn [fst snd]. eexists _, member. split; [reflexivity|].
    split; [reflexivity|]. simpl.
    rewrite updateFirst_length, Ha3. subst w2. simpl.
    rewrite Hledger, length_app, updateFirst_length. simpl. lia.
  - left. cbn [fst snd]. apply Hstays. rewrite Ha3. reflexivity.
Qed.

(** X28.  [handleSkipPerson] never throws, and ends in one of four ways.
    An invalid request is answered with its reason and changes nothing.
    A valid request that fails before the replacement record is written
    changes nothing either.  A valid request that fails later (the
    workspace is not active, or delivery fails) is answered with the
    same generic failure, yet the original record stays marked as
    skipped and the replacement record stays in the ledger, not
    notified.  Otherwise the skip succeeds and names the substitute. *)
Theorem handleSkipPerson_outcomes (assignmentId : Id) (userId : string)
  (w : World) :
  let failure :=
    mkHandlerResult false None
      (Some "Failed to skip person. Please try again.") in
  let o := fst (handleSkipPerson env assignmentId userId w) in
  let w' := snd (handleSkipPerson env assignmentId userId w) in
  (exists reason,
      v_valid (validateSkipRequest assignmentId w) = false
      /\ o = Return (mkHandlerResult false None (Some reason))
      /\ w' = w)
  \/ (v_valid (validateSkipRequest assignmentId w) = true
      /\ o = Return failure /\ w' = w)
  \/ (v_valid (validateSkipRequest assignmentId w) = true
      /\ o = Return failure
      /\ exists original pending,
           Store.findAssignmentById assignmentId w = Some original
           /\ assignments w'
              = (Store.updateFirst (fun a => a_id a =? assignmentId)
                   (fun a =>
                      mkAssignment (a_id a) (a_rotaId a) (a_workspaceId a)
                        (a_userId a) (a_assignedDate a) (a_channelId a)
                        (a_notified a) (a_notificationSentAt a)
                        (a_messageTs a) true (Some userId) (Some (now w))
                        (Some (nextId w)) (a_createdAt a))
                   (assignments w) ++ [pending])%list
           /\ a_id pending = nextId w
           /\ a_rotaId pending = a_rotaId original
           /\ a_assignedDate pending = a_assignedDate original
           /\ a_notified pending = false)
  \/ (v_valid (validateSkipRequest assignmentId w) = true
      /\ exists member,
           o = Return (mkHandlerResult true (Some member) None)
           /\ List.length (assignments w')
              = S (List.length (assignments w))).
Proof.
  intros failure o w'. subst failure o w'.
  destruct (validateSkipRequest_spec env assignmentId userId w)
    as [Hvalid Hinvalid].
  destruct (v_valid (validateSkipRequest assignmentId w)) eqn:Hv.
  2:{ left. destruct (Hinvalid eq_refl) as (reason & _ & ->).
      exists reason. auto. }
  right. clear Hinvalid.
  destruct (proj1 Hvalid eq_refl)
    as (original & rota & Hfind & Hsk & _).
  clear Hvalid.
  destruct (findAssignmentById_In _ _ _ Hfind) as [Hin Hid].
  unfold handleSkipPerson. rewrite bind_gets, Hv.
  assert (Hva : v_assignment (validateSkipRequest assignmentId w)
                = Some original).
  { unfold validateSkipRequest. rewrite Hfind, Hsk.
    destruct (negb _); reflexivity. }
  rewrite Hva. unfold tryCatch. rewrite bind_run.
  destruct (performSkip_outcomes original userId w Hin)
    as [(e & Ho & Hw) | [(e & pending & Ho & Hrest)
                        | (sr & member & Ho & Hu & Hlen)]];
    destruct (performSkip env original userId w) as [o w1];
    cbn [fst snd] in *; subst o.
  - left. subst w1. auto.
  - right. left. split; [reflexivity|]. split; [reflexivity|].
    exists original, pending. cbn [ret snd]. rewrite <- Hid in *. auto.
  - right. right. split; [reflexivity|]. exists member.
    cbn [ret fst snd]. rewrite Hu. auto.
Qed.

End Outcomes.

(** ** The services composed *)

Lemma sortDescBy_singleton {A : Type} (key : A -> Z) (a : A) :
  Query.sortDescBy key [a] = [a].
Proof. reflexivity. Qed.

Lemma inCurrentRange_same_day (d1 d2 : Instant) (a : RotaAssignment) :
  startOfDay d1 = startOfDay d2 ->
  inCurrentRange d1 a = inCurrentRange d2 a.
Proof. intros H. unfold inCurrentRange. now rewrite H. Qed.

Lemma find_unique (id : Id) (l : list RotaAssignment) (a : RotaAssignment) :
  NoDup (map a_id l) -> In a l -> a_id a = id ->
  find (fun x => a_id x =? id) l = Some a.
Proof.
  intros Hnd Hin Hid. induction l as [|x l IH]; [destruct Hin|].
  simpl in *. inversion Hnd as [|i l' Hnotin Hnd']; subst.
  destruct Hin as [-> | Hin]; [now rewrite Z.eqb_refl|].
  destruct (a_id x =? a_id a) eqn:E; [|auto].
  exfalso. apply Hnotin. apply Z.eqb_eq in E. rewrite E.
  apply in_map. exact Hin.
Qed.

Lemma find_fresh (w : World) :
  freshIds w -> Store.findAssignmentById (nextId w) w = None.
Proof.
  intros Hfresh. unfold Store.findAssignmentById.
  pose proof (freshIds_miss w Hfresh) as Hmiss.
  induction Hmiss as [|x l Hx _ IH]; simpl; [reflexivity|].
  now rewrite Hx.
Qed.

Lemma find_app_miss {A : Type} (p : A -> bool) (l l' : list A) :
  find p l = None -> find p (l ++ l') = find p l'.
Proof.
  induction l as [|y l IH]; simpl; [reflexivity|].
  destruct (p y); [discriminate | exact IH].
Qed.

(** X24.  Day-scoped queries read a date only through its calendar day:
    two instants of the same day give the same records, the same answer to
    [assignmentExistsForToday], the same skip count and the same skip
    verdict; and [assignmentExistsForToday] holds exactly when
    [getAssignmentsForDate] is non-empty. *)
Theorem day_queries_agree (rotaId : Id) (d1 d2 : Instant) (w : World)
  (Hsame : startOfDay d1 = startOfDay d2) :
  getAssignmentsForDate rotaId d1 w = getAssignmentsForDate rotaId d2 w
  /\ assignmentExistsForToday rotaId d1 w
     = assignmentExistsForToday rotaId d2 w
  /\ getConsecutiveSkipCount rotaId d1 w
     = getConsecutiveSkipCount rotaId d2 w
  /\ canSkipAssignment rotaId d1 w = canSkipAssignment rotaId d2 w
  /\ (assignmentExistsForToday rotaId d1 w = true
      <-> getAssignmentsForDate rotaId d1 w <> []).
Proof.
  assert (Hrec : getAssignmentsForDate rotaId d1 w
                 = getAssignmentsForDate rotaId d2 w).
  { unfold getAssignmentsForDate. f_equal. apply filter_ext. intros a.
    unfold Store.forRotaOnDay. f_equal. apply inDay_same_day. exact Hsame. }
  assert (Hcount : getConsecutiveSkipCount rotaId d1 w
                   = getConsecutiveSkipCount rotaId d2 w)
    by (unfold getConsecutiveSkipCount; now rewrite Hrec).
  split; [exact Hrec|]. split; [apply exists_same_day; exact Hsame|].
  split; [exact Hcount|]. split.
  - unfold canSkipAssignment. now rewrite Hcount.
  - unfold assignmentExistsForToday, getAssignmentsForDate. split.
    + intros H E. apply existsb_exists in H. destruct H as (a & Ha & Hp).
      assert (Hin : In a (Store.sortByCreatedAt
                            (filter (Store.forRotaOnDay rotaId d1)
                               (assignments w))))
        by (apply sortByCreatedAt_In; apply filter_In; auto).
      rewrite E in Hin. destruct Hin.
    + intros H.
      destruct (existsb (Store.forRotaOnDay rotaId d1) (assignments w))
        eqn:E; [reflexivity|].
      rewrite (existsb_false_filter _ _ E) in H. exfalso. apply H.
      reflexivity.
Qed.

(** X25.  [getNextAssignment] fails with [Rota not found] exactly when no
    rota has that id in that workspace, and with [No members in rota]
    exactly when the rota found has no members; a failure writes nothing.
    When it returns, the rota found has members and the result names the
    member under its cursor, the rota and its channel. *)
Theorem getNextAssignment_failure (rotaId : Id) (workspaceId : string)
  (w : World) :
  let run := getNextAssignment rotaId workspaceId w in
  (fst run = Throw (Js.error "Rota not found")
   <-> Store.findRota rotaId workspaceId w = None)
  /\ (fst run = Throw (Js.error "No members in rota")
      <-> exists rota,
            Store.findRota rotaId workspaceId w = Some rota
            /\ r_members rota = [])
  /\ (forall e, fst run = Throw e -> snd run = w)
  /\ (forall next,
        fst run = Return next ->
        exists rota,
          Store.findRota rotaId workspaceId w = Some rota
          /\ r_members rota <> []
          /\ next = mkNextAssignment
                      (Js.index (r_members rota) (r_currentIndex rota))
                      (r_name rota) (r_channelId rota)).
Proof.
  intros run. subst run. unfold getNextAssignment. rewrite bind_run.
  unfold getRotaById.
  destruct (Store.findRota rotaId workspaceId w) as [rota|] eqn:Hfind.
  - destruct (r_members rota) as [|m ms] eqn:Hm; simpl.
    + split; [split; discriminate|]. split.
      * split; [intros _; exists rota; auto | reflexivity].
      * split; [reflexivity | discriminate].
    + split; [split; discriminate|]. split.
      * split; [discriminate|]. intros (r & Hr & He).
        injection Hr as <-. congruence.
      * split; [discriminate|]. intros next H. injection H as <-.
        exists rota. rewrite Hm. repeat split. discriminate.
  - simpl. split; [split; reflexivity|]. split.
    + split; [discriminate|]. intros (r & Hr & _). discriminate.
    + split; [reflexivity | discriminate].
Qed.

(** X26.  Insert and look up: on a ledger with fresh ids, a record that
    [createAssignment] returns is found under its id, not notified and not
    skipped, every other id resolves as before, and after
    [markAsNotified] the same id resolves to the same record with
    [notified] set, the given timestamp, and nothing else changed; a
    [createAssignment] that throws leaves the world as it was. *)
Theorem created_record_is_found (rotaId : Id) (workspaceId : string)
  (userId : option string) (channelId : string) (assignedDate : Instant)
  (w : World) (Hfresh : freshIds w) :
  let run :=
    createAssignment rotaId workspaceId userId channelId assignedDate w in
  match fst run with
  | Throw _ => snd run = w
  | Return a =>
      a_id a = nextId w
      /\ a_notified a = false /\ a_skipped a = false
      /\ Store.findAssignmentById (a_id a) (snd run) = Some a
      /\ (forall id, id <> a_id a ->
            Store.findAssignmentById id (snd run)
            = Store.findAssignmentById id w)
      /\ forall ts,
           let w2 := snd (markAsNotified (a_id a) ts (snd run)) in
           Store.findAssignmentById (a_id a) w2
           = Some (mkAssignment (a_id a) (a_rotaId a) (a_workspaceId a)
                     (a_userId a) (a_assignedDate a) (a_channelId a) true
                     (Some (now w)) (Some ts) (a_skipped a) (a_skippedBy a)
                     (a_skippedAt a) (a_replacedByAssignmentId a)
                     (a_createdAt a))
           /\ forall id, id <> a_id a ->
                Store.findAssignmentById id w2
                = Store.findAssignmentById id w
  end.
Proof.
  intros run. subst run. unfold createAssignment.
  destruct userId as [u|]; [|reflexivity].
  destruct (String.eqb workspaceId ""); [reflexivity|].
  destruct (String.eqb u ""); [reflexivity|].
  destruct (String.eqb channelId ""); [reflexivity|].
  cbn [fst snd a_id a_notified a_skipped].
  pose proof (find_fresh w Hfresh) as Hnew.
  unfold Store.findAssignmentById in *.
  cbn [assignments setNextId setAssignments].
  assert (Hother : forall (id : Id) (x : RotaAssignment),
             id <> nextId w -> a_id x = nextId w ->
             find (fun a => a_id a =? id) (assignments w ++ [x])
             = find (fun a => a_id a =? id) (assignments w)).
  { intros id x Hne Hx.
    destruct (find (fun a => a_id a =? id) (assignments w)) as [y|] eqn:E.
    - apply find_app_hit. exact E.
    - rewrite (find_app_miss _ _ _ E). simpl. rewrite Hx.
      apply Z.eqb_neq in Hne. rewrite Z.eqb_sym, Hne. reflexivity. }
  split; [reflexivity|]. split; [reflexivity|]. split; [reflexivity|].
  split; [|split].
  - rewrite (find_app_miss _ _ _ Hnew). simpl. now rewrite Z.eqb_refl.
  - intros id Hne. apply Hother; [exact Hne | reflexivity].
  - intros ts. cbn zeta. simpl.
    rewrite updateFirst_app_miss by (apply freshIds_miss; exact Hfresh).
    split.
    + rewrite (find_app_miss _ _ _ Hnew).
      cbn [Store.updateFirst a_id]. rewrite Z.eqb_refl.
      cbn [find a_id]. rewrite Z.eqb_refl. reflexivity.
    + intros id Hne. cbn [Store.updateFirst a_id]. rewrite Z.eqb_refl.
      apply Hother; [exact Hne | reflexivity].
Qed.

Section Composition.

Variable env : Env.

(** X23.  After a step has processed a rota, and while the clock is
    still on the same day, [getCurrentAssignment] returns the record the
    step created, notified and carrying Slack's timestamp; but when the
    step ran in the last 999 ms of the day the record falls outside the
    range of [getCurrentAssignment], which then finds nothing. *)
Theorem processed_rota_current_assignment (rota : Rota) (w : World)
  (id : Id) (u : option string) (ts : string)
  (Hfresh : freshIds w)
  (Hdone : fst (processRota env rota w) = Return (Processed id u ts))
  (Hsameday :
     startOfDay (now (snd (processRota env rota w))) = startOfDay (now w)) :
  let w' := snd (processRota env rota w) in
  if now w <=? startOfDay (now w) + (msPerDay - 1000) then
    exists a,
      getCurrentAssignment (r_id rota) w' = Some a
      /\ a_id a = nextId w /\ u = Some (a_userId a)
      /\ a_assignedDate a = now w
      /\ a_notified a = true /\ a_messageTs a = Some ts
  else getCurrentAssignment (r_id rota) w' = None.
Proof.
  intros w'.
  destruct (processRota_processed env rota w id u ts Hfresh Hdone)
    as (stored & member & _ & _ & _ & Hu & Hnone & _ & Hledger & _).
  fold w' in Hledger, Hsameday.
  set (new := mkAssignment _ _ _ _ _ _ _ _ _ _ _ _ _ _) in Hledger.
  assert (Hold : filter (fun a => (a_rotaId a =? r_id rota)
                                  && inCurrentRange (now w') a)
                   (assignments w) = []).
  { apply existsb_false_filter.
    unfold assignmentExistsForToday in Hnone.
    destruct (existsb (fun a => (a_rotaId a =? r_id rota)
                                && inCurrentRange (now w') a)
                (assignments w)) eqn:E; [|reflexivity].
    apply existsb_exists in E. destruct E as (a & Ha & Hp).
    apply andb_true_iff in Hp. destruct Hp as [Hid Hr].
    rewrite (inCurrentRange_same_day _ _ a Hsameday) in Hr.
    apply inCurrentRange_narrower in Hr. destruct Hr as [Hr _].
    assert (Hhit : existsb (Store.forRotaOnDay (r_id rota) (now w))
                     (assignments w) = true).
    { apply existsb_exists. exists a. split; [exact Ha|].
      unfold Store.forRotaOnDay. now rewrite Hid, Hr. }
    congruence. }
  unfold getCurrentAssignment. rewrite Hledger, filter_app, Hold.
  cbn [app filter]. subst new. cbn [a_rotaId]. rewrite Z.eqb_refl.
  rewrite (inCurrentRange_same_day _ _ _ Hsameday).
  unfold inCurrentRange. cbn [a_assignedDate andb].
  pose proof (startOfDay_le (now w)) as [Hlow _].
  apply Z.leb_le in Hlow. rewrite Hlow. cbn [andb].
  destruct (now w <=? startOfDay (now w) + (msPerDay - 1000)).
  - eexists. rewrite sortDescBy_singleton. cbn [hd_error].
    split; [reflexivity|]. simpl. auto.
  - reflexivity.
Qed.

(** X27.  One iteration of the sweep on a stored record of a ledger
    with unique ids: when the rota of the record is gone the record is
    passed over and nothing changes; when delivery fails the ledger is
    left as it was; when delivery succeeds that record, and no other,
    becomes notified with the timestamp Slack returned.  The iteration
    never throws. *)
Theorem retryOne_effect (a : RotaAssignment) (w : World)
  (Hstored : In a (assignments w))
  (Hunique : NoDup (map a_id (assignments w))) :
  let w' := snd (retryOne env a w) in
  match fst (retryOne env a w) with
  | Return None => hasRota w a = false /\ w' = w
  | Return (Some false) =>
      hasRota w a = true /\ assignments w' = assignments w
  | Return (Some true) =>
      hasRota w a = true
      /\ exists ts,
           Store.findAssignmentById (a_id a) w'
           = Some (mkAssignment (a_id a) (a_rotaId a) (a_workspaceId a)
                     (a_userId a) (a_assignedDate a) (a_channelId a) true
                     (Some (now w')) (Some ts) (a_skipped a)
                     (a_skippedBy a) (a_skippedAt a)
                     (a_replacedByAssignmentId a) (a_createdAt a))
           /\ forall id, id <> a_id a ->
                Store.findAssignmentById id w'
                = Store.findAssignmentById id w
  | Throw _ => False
  end.
Proof.
  intros w'. subst w'. unfold retryOne, tryCatch, hasRota.
  rewrite bind_gets.
  destruct (Store.findRotaById (a_rotaId a) w) as [rota|];
    [|simpl; auto].
  rewrite bind_run.
  match goal with
  | |- context [sendNotificationWithRetry env ?ws ?ch ?us ?nm ?cm ?ai ?mc
                  ?mr w] =>
      pose proof (sendNotificationWithRetry_frame env ws ch us nm cm ai mc
                    mr w) as [(_ & Ha1 & _) _];
      destruct (sendNotificationWithRetry env ws ch us nm cm ai mc mr w)
        as [[ts|e] w1]
  end; cbn [snd] in Ha1.
  - unfold markAsNotified. rewrite bind_modify. cbn [fst snd ret].
    split; [reflexivity|]. exists ts.
    unfold Store.findAssignmentById. cbn [assignments setAssignments now].
    rewrite Ha1. split.
    + rewrite find_updateFirst by reflexivity.
      rewrite (find_unique (a_id a) _ a Hunique Hstored eq_refl).
      reflexivity.
    + intros id Hne. apply find_updateFirst_other; [reflexivity|].
      intros x Hx. apply Z.eqb_eq in Hx. apply Z.eqb_neq. congruence.
  - cbn [fst snd ret]. auto.
Qed.

End Composition.

(** ** Time display *)

Lemma in_clockTimes (hour minute : Z) :
  0 <= hour < 24 -> 0 <= minute < 60 -> In (hour, minute) clockTimes.
Proof.
  intros Hh Hm. unfold clockTimes. apply in_flat_map.
  exists (Z.to_nat hour). split; [apply in_seq; lia|].
  apply in_map_iff. exists (Z.to_nat minute).
  split; [f_equal; lia | apply in_seq; lia].
Qed.

Lemma formatTimeDisplay_table :
  forallb
    (fun t =>
       String.eqb (formatTimeDisplay (fst t) (snd t))
         (Js.showZ (hour12 (fst t)) ++ ":"
            ++ (if snd t <? 10 then "0" else "") ++ Js.showZ (snd t) ++ " "
            ++ (if fst t <? 12 then "AM" else "PM")))
    clockTimes
  = true.
Proof. vm_compute. reflexivity. Qed.

Lemma formatTimeDisplay_distinct :
  forallb
    (fun t =>
       forallb
         (fun t' =>
            implb
              (String.eqb (formatTimeDisplay (fst t) (snd t))
                 (formatTimeDisplay (fst t') (snd t')))
              ((fst t =? fst t') && (snd t =? snd t')))
         clockTimes)
    clockTimes
  = true.
Proof. vm_compute. reflexivity. Qed.

Lemma hourOption_table :
  forallb
    (fun h =>
       String.eqb (o_text (hourOption (Z.of_nat h)))
         (Js.showZ (hour12 (Z.of_nat h)) ++ " "
            ++ (if Z.of_nat h <? 12 then "AM" else "PM"))
       && String.eqb (o_value (hourOption (Z.of_nat h)))
            (Js.showZ (Z.of_nat h)))
    (seq 0 24)
  = true.
Proof. vm_compute. reflexivity. Qed.

(** X29.  For an hour from 0 to 23 and a minute from 0 to 59,
    [formatTimeDisplay] writes the hour of the 12-hour clock (12 for
    midnight and noon), a two-digit minute and AM before noon, PM from noon
    on, and no two times of the day are displayed alike.  The hour selector
    built by [generateHourOptions] lists that hour at its own position,
    with the number as value and the same hour and period as label, and the
    labels of [generateMinuteOptions] are the minute part of the display
    for the quarter hours. *)
Theorem formatTimeDisplay_twelve_hour_clock (hour minute : Z)
  (Hhour : 0 <= hour < 24) (Hminute : 0 <= minute < 60) :
  let period := if hour <? 12 then "AM" else "PM" in
  formatTimeDisplay hour minute
  = Js.showZ (hour12 hour) ++ ":"
      ++ (if minute <? 10 then "0" else "") ++ Js.showZ minute ++ " "
      ++ period
  /\ 1 <= hour12 hour <= 12
  /\ (forall hour' minute',
        0 <= hour' < 24 -> 0 <= minute' < 60 ->
        formatTimeDisplay hour minute = formatTimeDisplay hour' minute' ->
        hour = hour' /\ minute = minute')
  /\ Js.index generateHourOptions hour
     = Some (mkOption (Js.showZ (hour12 hour) ++ " " ++ period)
               (Js.showZ hour))
  /\ map o_value generateMinuteOptions = map Js.showZ [0; 15; 30; 45]
  /\ (In minute [0; 15; 30; 45] ->
      In (mkOption (":" ++ (if minute <? 10 then "0" else "")
                        ++ Js.showZ minute)
                   (Js.showZ minute))
         generateMinuteOptions).
Proof.
  intros period. subst period.
  pose proof (in_clockTimes hour minute Hhour Hminute) as Hin.
  split; [|split; [|split; [|split; [|split]]]].
  - pose proof formatTimeDisplay_table as H.
    rewrite forallb_forall in H. specialize (H _ Hin).
    apply String.eqb_eq in H. exact H.
  - unfold hour12.
    pose proof (Z.mod_pos_bound hour 12 ltac:(lia)).
    destruct (hour mod 12 =? 0) eqn:E; [lia|].
    apply Z.eqb_neq in E. lia.
  - intros hour' minute' Hh' Hm' Heq.
    pose proof (in_clockTimes hour' minute' Hh' Hm') as Hin'.
    pose proof formatTimeDisplay_distinct as H.
    rewrite forallb_forall in H. specialize (H _ Hin).
    rewrite forallb_forall in H. specialize (H _ Hin').
    cbn [fst snd] in H. rewrite Heq, String.eqb_refl in H. simpl in H.
    apply andb_true_iff in H. destruct H as [H1 H2].
    apply Z.eqb_eq in H1, H2. auto.
  - assert (Hnat : In (Z.to_nat hour) (seq 0 24)) by (apply in_seq; lia).
    pose proof hourOption_table as H.
    rewrite forallb_forall in H. specialize (H _ Hnat).
    rewrite Z2Nat.id in H by lia.
    apply andb_true_iff in H. destruct H as [H1 H2].
    apply String.eqb_eq in H1, H2.
    unfold Js.index, generateHourOptions.
    destruct (hour <? 0) eqn:E; [apply Z.ltb_lt in E; lia|].
    rewrite nth_error_map, nth_error_seq.
    destruct (Nat.ltb_spec (Z.to_nat hour) 24) as [_|Hbad]; [|lia].
    cbn [option_map Nat.add]. rewrite Z2Nat.id by lia.
    rewrite <- H1, <- H2. destruct (hourOption hour). reflexivity.
  - reflexivity.
  - intros [<- | [<- | [<- | [<- | []]]]]; vm_compute; auto.
Qed.

(** ** The further statements at work on the sample data *)

(** Closes [freshIds] on a computed ledger. *)
Ltac fresh_ids :=
  unfold freshIds; vm_compute;
  split;
  [ repeat constructor
  | repeat (constructor; [intros H; repeat destruct H as [H|H];
                          try discriminate H; exact H|]);
    constructor ].

Lemma getRecentAssignments_most_recent_witness :
  (0 < 2)%nat
  /\ map a_id (getRecentAssignments 1 2 Fixtures.afterTwoSkips) = [100; 102]
  /\ List.length (getRecentAssignments 1 2 Fixtures.afterTwoSkips)
     = Nat.min 2 (recordCount 1 Fixtures.afterTwoSkips).
Proof.
  assert (Hlimit : (0 < 2)%nat) by lia.
  split; [exact Hlimit|]. split; [vm_compute; reflexivity|].
  exact (proj1 (getRecentAssignments_most_recent 1 2 Fixtures.afterTwoSkips
                  Hlimit)).
Defined.

Lemma sendNotificationWithRetry_first_success_witness :
  let run :=
    sendNotificationWithRetry Fixtures.envFlaky "T1" "C1" (Some "A")
      "Support" None None 1 defaultMaxRetries Fixtures.fresh in
  fst run = Return "1728036006.000200"
  /\ sleeps (snd run) = [2000; 4000]
  /\ now (snd run) = now Fixtures.fresh + 6000.
Proof.
  destruct (sendNotificationWithRetry_first_success Fixtures.envFlaky "T1"
              "C1" (Some "A") "Support" None None 1 defaultMaxRetries 2
              "1728036006.000200" Fixtures.fresh)
    as (Hret & _ & _ & Hsleeps & Hnow).
  - reflexivity.
  - unfold defaultMaxRetries. lia.
  - reflexivity.
  - reflexivity.
  - cbv zeta. split; [exact Hret|]. split; [exact Hsleeps | exact Hnow].
Defined.

Lemma sendNotificationWithRetry_exhausted_witness :
  fst (sendNotificationWithRetry Fixtures.envDown "T1" "C1" (Some "A")
         "Support" None None 1 defaultMaxRetries Fixtures.fresh)
  = Throw (Js.error ("Failed to send notification after 3 attempts: "
                       ++ "Slack API Error: channel_not_found"))
  /\ sendNotificationWithRetry Fixtures.envDown "T1" "C1" (Some "A")
       "Support" None None 1 0 Fixtures.fresh
     = (Throw (Js.typeErrorUndefined "message"), Fixtures.fresh).
Proof.
  split.
  - destruct (sendNotificationWithRetry_exhausted Fixtures.envDown "T1" "C1"
                (Some "A") "Support" None None 1 defaultMaxRetries
                Fixtures.fresh)
      as (msg & Hmsg & Hthrow & _).
    + reflexivity.
    + reflexivity.
    + injection Hmsg as <-. exact Hthrow.
  - apply (sendNotificationWithRetry_exhausted Fixtures.envDown "T1" "C1"
             (Some "A") "Support" None None 1 0 Fixtures.fresh);
      reflexivity.
Defined.

Lemma sendNotificationWithRetry_without_workspace_witness :
  let run :=
    sendNotificationWithRetry Fixtures.envUp "T9" "C1" (Some "A") "Support"
      None None 1 defaultMaxRetries Fixtures.fresh in
  fst run
  = Throw (Js.error ("Failed to send notification after 3 attempts: "
                       ++ "No active workspace found for team: T9"))
  /\ posts (snd run) = [] /\ sleeps (snd run) = [2000; 4000].
Proof.
  destruct (sendNotificationWithRetry_without_workspace Fixtures.envUp "T9"
              "C1" (Some "A") "Support" None None 1 defaultMaxRetries
              Fixtures.fresh)
    as (Hthrow & _ & Hposts & Hsleeps & _).
  - reflexivity.
  - unfold defaultMaxRetries. lia.
  - cbv zeta. split; [exact Hthrow|]. split; [exact Hposts | exact Hsleeps].
Defined.

Lemma processRota_processed_effect_witness :
  freshIds Fixtures.fresh
  /\ map a_userId
       (assignments (snd (processRota Fixtures.envUp Fixtures.support
                            Fixtures.fresh))) = ["A"]
  /\ storedCursor 1 (snd (processRota Fixtures.envUp Fixtures.support
                            Fixtures.fresh)) = Some 1.
Proof.
  assert (Hfresh : freshIds Fixtures.fresh) by fresh_ids.
  split; [exact Hfresh|].
  destruct (processRota_processed_effect Fixtures.envUp Fixtures.support
              Fixtures.fresh 1 (Some "A") "1728036000.000100" Hfresh)
    as (stored & member & Hfind & Hidx & _ & Hu & _ & Hrotas & Hledger & _).
  - vm_compute. reflexivity.
  - injection Hu as <-. injection Hfind as <-. split.
    + rewrite Hledger. reflexivity.
    + unfold storedCursor, Store.findRotaById. rewrite Hrotas. reflexivity.
Defined.

Lemma processAllRotas_accounting_witness :
  fst (processAllRotas Fixtures.envUp Fixtures.fresh)
  = Return (Some (mkResults 2 2 0 0 []))
  /\ List.length
       (assignments (snd (processAllRotas Fixtures.envUp Fixtures.fresh)))
     = 2%nat.
Proof.
  assert (Hret : fst (processAllRotas Fixtures.envUp Fixtures.fresh)
                 = Return (Some (mkResults 2 2 0 0 [])))
    by (vm_compute; reflexivity).
  split; [exact Hret|].
  destruct (processAllRotas_accounting Fixtures.envUp Fixtures.fresh
              (mkResults 2 2 0 0 []) Hret)
    as (_ & _ & _ & _ & _ & _ & Hlen & _).
  exact Hlen.
Defined.

Lemma cycle_ignores_inactive_rota_witness :
  recordCount 1 (snd (processAllRotas Fixtures.envUp Samples.withRetired))
  = 0%nat
  /\ Store.findRotaById 1
       (snd (processAllRotas Fixtures.envUp Samples.withRetired))
     = Some Samples.retired
  /\ recordCount 2 (snd (processAllRotas Fixtures.envUp Samples.withRetired))
     = 1%nat.
Proof.
  destruct (cycle_ignores_inactive_rota Fixtures.envUp 1 Samples.withRetired)
    as [Hcount Hrota].
  - intros r [<- | [<- | []]] Hid; [reflexivity | discriminate Hid].
  - split; [exact Hcount|]. split; [exact Hrota|]. vm_compute. reflexivity.
Defined.

Lemma deleted_rota_is_never_scheduled_witness :
  uniqueRotaIds Fixtures.fresh
  /\ fst (deleteRota 1 "T1" Fixtures.fresh) = Return Samples.retired
  /\ recordCount 1
       (snd (processAllRotas Fixtures.envUp
               (snd (deleteRota 1 "T1" Fixtures.fresh)))) = 0%nat
  /\ recordCount 2
       (snd (processAllRotas Fixtures.envUp
               (snd (deleteRota 1 "T1" Fixtures.fresh)))) = 1%nat.
Proof.
  assert (Hunique : uniqueRotaIds Fixtures.fresh).
  { unfold uniqueRotaIds. simpl.
    constructor; [intros [H | []]; discriminate H|].
    constructor; [intros [] | constructor]. }
  assert (Hdeleted : fst (deleteRota 1 "T1" Fixtures.fresh)
                     = Return Samples.retired) by reflexivity.
  split; [exact Hunique|]. split; [exact Hdeleted|].
  destruct (deleted_rota_is_never_scheduled Fixtures.envUp 1 "T1"
              Fixtures.fresh Samples.retired Hunique Hdeleted)
    as (_ & _ & _ & _ & Hcount & _).
  split; [exact Hcount | vm_compute; reflexivity].
Defined.

Lemma round_robin_full_turn_witness :
  Store.findRotaById 1 Fixtures.afterCycle = Some Fixtures.supportAdvanced
  /\ fst (drawMembers 1 "T1" 3 Fixtures.afterCycle)
     = [Some "B"; Some "C"; Some "A"]
  /\ storedCursor 1 (snd (drawMembers 1 "T1" 3 Fixtures.afterCycle))
     = Some 1.
Proof.
  assert (Hstored : Store.findRotaById (r_id Fixtures.supportAdvanced)
                      Fixtures.afterCycle = Some Fixtures.supportAdvanced)
    by (vm_compute; reflexivity).
  assert (Hrange : 0 <= r_currentIndex Fixtures.supportAdvanced
                     < Z.of_nat
                         (List.length (r_members Fixtures.supportAdvanced)))
    by (simpl; lia).
  split; [exact Hstored|].
  destruct (round_robin_full_turn Fixtures.supportAdvanced
              Fixtures.afterCycle Hstored Hrange)
    as (Hturn & _ & Hcursor & _).
  split; [exact Hturn | exact Hcursor].
Defined.

Lemma successful_skip_effect_witness :
  freshIds Samples.atSkip
  /\ fst (handleSkipPerson Fixtures.envUp 100 "U9" Samples.atSkip)
     = Return (mkHandlerResult true (Some "C") None)
  /\ v_reason
       (validateSkipRequest 100
          (snd (handleSkipPerson Fixtures.envUp 100 "U9" Samples.atSkip)))
     = Some "This assignment has already been skipped".
Proof.
  assert (Hfresh : freshIds Samples.atSkip) by fresh_ids.
  assert (Hret : fst (handleSkipPerson Fixtures.envUp 100 "U9"
                        Samples.atSkip)
                 = Return (mkHandlerResult true (Some "C") None))
    by (vm_compute; reflexivity).
  split; [exact Hfresh|]. split; [exact Hret|].
  destruct (successful_skip_effect Fixtures.envUp 100 "U9" Samples.atSkip
              (mkHandlerResult true (Some "C") None) Hfresh Hret eq_refl)
    as (original & rota & member & newIndex & ts & _ & _ & _ & _ & _ & _ & _
        & Hagain).
  cbv zeta in Hagain. rewrite Hagain. reflexivity.
Defined.

Lemma processed_rota_current_assignment_witness :
  exists a,
    getCurrentAssignment 1
      (snd (processRota Fixtures.envUp Fixtures.support Fixtures.fresh))
    = Some a
    /\ a_id a = 100 /\ a_userId a = "A" /\ a_notified a = true.
Proof.
  assert (Hfresh : freshIds Fixtures.fresh) by fresh_ids.
  pose proof (processed_rota_current_assignment Fixtures.envUp
                Fixtures.support Fixtures.fresh 1 (Some "A")
                "1728036000.000100" Hfresh) as H.
  destruct H as (a & Ha & Hid & Hu & _ & Hn & _).
  - vm_compute. reflexivity.
  - vm_compute. reflexivity.
  - exists a. split; [exact Ha|]. split; [exact Hid|].
    split; [congruence | exact Hn].
Defined.

Lemma day_queries_agree_witness :
  startOfDay (Fixtures.at_ 10 0) = startOfDay (Fixtures.at_ 23 45)
  /\ getAssignmentsForDate 1 (Fixtures.at_ 10 0) Fixtures.afterTwoSkips
     = getAssignmentsForDate 1 (Fixtures.at_ 23 45) Fixtures.afterTwoSkips
  /\ canSkipAssignment 1 (Fixtures.at_ 10 0) Fixtures.afterTwoSkips
     = canSkipAssignment 1 (Fixtures.at_ 23 45) Fixtures.afterTwoSkips.
Proof.
  assert (Hsame : startOfDay (Fixtures.at_ 10 0)
                  = startOfDay (Fixtures.at_ 23 45)) by reflexivity.
  split; [exact Hsame|].
  destruct (day_queries_agree 1 (Fixtures.at_ 10 0) (Fixtures.at_ 23 45)
              Fixtures.afterTwoSkips Hsame) as (H1 & _ & _ & H4 & _).
  split; [exact H1 | exact H4].
Defined.

Lemma created_record_is_found_witness :
  freshIds Fixtures.afterCycle
  /\ option_map a_userId
       (Store.findAssignmentById 102
          (snd (createAssignment 1 "T1" (Some "B") "C1" (Fixtures.at_ 10 15)
                  Fixtures.afterCycle))) = Some "B"
  /\ Store.findAssignmentById 100
       (snd (createAssignment 1 "T1" (Some "B") "C1" (Fixtures.at_ 10 15)
               Fixtures.afterCycle))
     = Store.findAssignmentById 100 Fixtures.afterCycle.
Proof.
  assert (Hfresh : freshIds Fixtures.afterCycle) by fresh_ids.
  split; [exact Hfresh|].
  pose proof (created_record_is_found 1 "T1" (Some "B") "C1"
                (Fixtures.at_ 10 15) Fixtures.afterCycle Hfresh) as H.
  cbv zeta in H.
  change (fst (createAssignment 1 "T1" (Some "B") "C1" (Fixtures.at_ 10 15)
                 Fixtures.afterCycle))
    with (Return (mkAssignment 102 1 "T1" "B" (Fixtures.at_ 10 15) "C1" false
                    None None false None None None (Fixtures.at_ 10 15)))
    in H.
  cbv iota in H. destruct H as (_ & _ & _ & Hfound & Hothers & _).
  split.
  - cbn [a_id] in Hfound. rewrite Hfound. reflexivity.
  - apply Hothers. discriminate.
Defined.

Lemma retryOne_effect_witness :
  In Fixtures.pendingRecent (assignments Fixtures.beforeSweep)
  /\ NoDup (map a_id (assignments Fixtures.beforeSweep))
  /\ fst (retryOne Fixtures.envUp Fixtures.pendingRecent
            Fixtures.beforeSweep) = Return (Some true)
  /\ Store.findAssignmentById 49
       (snd (retryOne Fixtures.envUp Fixtures.pendingRecent
               Fixtures.beforeSweep))
     = Some Fixtures.pendingOld.
Proof.
  assert (Hstored : In Fixtures.pendingRecent
                      (assignments Fixtures.beforeSweep))
    by (simpl; auto).
  assert (Hunique : NoDup (map a_id (assignments Fixtures.beforeSweep))).
  { simpl. constructor; [intros [H | []]; discriminate H|].
    constructor; [intros [] | constructor]. }
  split; [exact Hstored|]. split; [exact Hunique|].
  split; [vm_compute; reflexivity|].
  pose proof (retryOne_effect Fixtures.envUp Fixtures.pendingRecent
                Fixtures.beforeSweep Hstored Hunique) as H.
  cbv zeta in H.
  change (fst (retryOne Fixtures.envUp Fixtures.pendingRecent
                 Fixtures.beforeSweep))
    with (@Return (option bool) (Some true)) in H.
  cbv iota in H. destruct H as (_ & ts & _ & Hothers).
  rewrite (Hothers 49) by discriminate. reflexivity.
Defined.

Lemma formatTimeDisplay_twelve_hour_clock_witness :
  formatTimeDisplay 14 15 = "2:15 PM"
  /\ Js.index generateHourOptions 14 = Some (mkOption "2 PM" "14")
  /\ In (mkOption ":15" "15") generateMinuteOptions
  /\ forall hour' minute',
       0 <= hour' < 24 -> 0 <= minute' < 60 ->
       formatTimeDisplay 14 15 = formatTimeDisplay hour' minute' ->
       14 = hour' /\ 15 = minute'.
Proof.
  destruct (formatTimeDisplay_twelve_hour_clock 14 15)
    as (Hshow & _ & Hinj & Hhour & _ & Hminute).
  - lia.
  - lia.
  - split; [rewrite Hshow; reflexivity|]. split; [exact Hhour|].
    split; [|exact Hinj]. apply Hminute. simpl. auto.
Defined.

Lemma permanently_deleted_rota_orphans_records_witness :
  uniqueRotaIds Fixtures.beforeSweep
  /\ fst (permanentlyDeleteRota 1 "T1" Fixtures.beforeSweep)
     = Return Fixtures.support
  /\ fst (retryFailedNotifications Fixtures.envUp
            (snd (permanentlyDeleteRota 1 "T1" Fixtures.beforeSweep)))
     = Return (Some (0%nat, 0%nat))
  /\ retryOne Fixtures.envUp Fixtures.pendingRecent
       (snd (permanentlyDeleteRota 1 "T1" Fixtures.beforeSweep))
     = (Return None, snd (permanentlyDeleteRota 1 "T1" Fixtures.beforeSweep)).
Proof.
  assert (Hunique : uniqueRotaIds Fixtures.beforeSweep).
  { unfold uniqueRotaIds. simpl. constructor; [intros [] | constructor]. }
  assert (Hdeleted : fst (permanentlyDeleteRota 1 "T1" Fixtures.beforeSweep)
                     = Return Fixtures.support) by reflexivity.
  split; [exact Hunique|]. split; [exact Hdeleted|].
  split; [vm_compute; reflexivity|].
  destruct (permanently_deleted_rota_orphans_records Fixtures.envUp 1 "T1"
              Fixtures.beforeSweep Fixtures.support Hunique Hdeleted)
    as (_ & _ & _ & Hsweep & _).
  apply Hsweep. reflexivity.
Defined.
